(** * opt-tools-mcp-client: transport, client facade and MCP adapter

    A shallow embedding of [src/transport/http.ts], [src/client.ts],
    [src/types/config.ts] and [src/mcp/server.ts].

    The code is dynamically typed where it matters (tool arguments and remote
    payloads are [any]), so values are modelled as the JavaScript values that
    JSON can produce, together with the fragment of the language's conversions
    that the sources use.  Exceptions are an error monad with [catch]; the
    HTTP requests that leave the process and the pauses between them are
    recorded in a trace, so that "what was sent" is something one can state. *)

From Stdlib Require Import ZArith QArith Qminmax Qpower String Ascii List Bool Lia Lqa.
From Stdlib Require Import Floats DecimalString Sorted.
From ExtLib Require Import Structures.Monad Structures.MonadExc.
Import ListNotations.
Import MonadNotation.

Local Open Scope string_scope.
Local Open Scope list_scope.
Local Open Scope monad_scope.

Set Implicit Arguments.
Set Warnings "-register-all".

(** String concatenation, kept apart from list append. *)
Infix "+++" := String.append (right associativity, at level 60).

(* ===================================================================== *)
(** * The JavaScript fragment used by the sources *)
(* ===================================================================== *)

Module JS.

(** Values: what [JSON.parse] yields, plus [undefined].  An object lists its
    own properties in enumeration order; numbers are binary64 floats. *)
Inductive value : Type :=
| VUndefined
| VNull
| VBool (b : bool)
| VNum (x : float)
| VStr (s : string)
| VArr (items : list value)
| VObj (props : list (string * value)).

(** The ways the sources can raise a [TypeError]: reading a property of
    [null] or [undefined], calling what is no function, iterating what is not
    iterable, and converting to a string or a number an object that has no
    primitive value. *)
Inductive TypeErrorKind : Type :=
| ReadPropertyOf (base : value) (prop : string)
| NotAFunction (callee : string)
| NotIterable (expr : string)
| ConvertToPrimitive.

(** What the sources leave to the platform they run on: the digits the engine
    prints for a finite non-zero number, its parsing of a string as a number,
    its wording of a [TypeError], and the deny list of error codes of the
    [is-retry-allowed] package that the retry library consults. *)
Class Platform : Type := {
  Number_digits : float -> string;
  StringToNumber : string -> float;
  TypeError_message : TypeErrorKind -> string;
  isRetryAllowed : option string -> bool
}.

(** ** Strings *)

Definition nl : string := String (ascii_of_nat 10) EmptyString.

(** [lines.join('\n')] and [route.join(sep)] on strings. *)
Definition join (sep : string) (parts : list string) : string :=
  String.concat sep parts.

(** Text is held as UTF-8.  A character (a code point) is a lead byte with
    the continuation bytes (10xxxxxx) that follow it; string iteration goes
    by characters. *)
Definition isContinuation (c : ascii) : bool :=
  let n := nat_of_ascii c in (128 <=? n)%nat && (n <? 192)%nat.

Fixpoint chars (s : string) : list string :=
  match s with
  | EmptyString => []
  | String c rest =>
      match rest with
      | EmptyString => [String c EmptyString]
      | String c' _ =>
          if isContinuation c' then
            match chars rest with
            | h :: t => String c h :: t
            | [] => [String c EmptyString]
            end
          else String c EmptyString :: chars rest
      end
  end.

(** [length], indexing and [Object.entries] go by UTF-16 code units.  A
    character of the Basic Multilingual Plane (up to three bytes) is one
    unit; a character beyond it (four bytes, the lead byte 11110xxx) is two,
    a high and a low surrogate, each held here in the three-byte form of its
    number. *)
Definition threeBytes (u : N) : string :=
  String (ascii_of_N (224 + u / 4096))
    (String (ascii_of_N (128 + (u / 64) mod 64))
       (String (ascii_of_N (128 + u mod 64)) EmptyString)).

Definition codeUnits (ch : string) : list string :=
  match list_ascii_of_string ch with
  | [b0; b1; b2; b3] =>
      if (240 <=? N_of_ascii b0)%N then
        let cp := ((N_of_ascii b0 mod 8) * 262144 + (N_of_ascii b1 mod 64) * 4096 +
                   (N_of_ascii b2 mod 64) * 64 + N_of_ascii b3 mod 64)%N in
        let v := (cp - 65536)%N in
        [threeBytes (55296 + v / 1024); threeBytes (56320 + v mod 1024)]
      else [ch]
  | _ => [ch]
  end.

Definition units (s : string) : list string := flat_map codeUnits (chars s).

Definition decimal (n : nat) : string := NilZero.string_of_uint (Nat.to_uint n).

Definition decimalZ (n : Z) : string := NilZero.string_of_uint (N.to_uint (Z.to_N n)).

(** ** Numbers *)

Definition natToNumber (n : nat) : float :=
  PrimFloat.of_uint63 (Uint63.of_Z (Z.of_nat n)).

(** [Number::toString]: the special values are fixed by the language, the
    digits of the others come from the engine. *)
Definition NumberToString `{Platform} (x : float) : string :=
  match Prim2SF x with
  | S754_nan => "NaN"
  | S754_infinity false => "Infinity"
  | S754_infinity true => "-Infinity"
  | S754_zero _ => "0"
  | S754_finite _ _ _ => Number_digits x
  end.

(** [Number.prototype.toFixed].  For a positive [x = m * 2^e], [scaled m e d]
    is the integer [n] for which [n / 10^d - x] is closest to zero, the larger
    one when two are equally close. *)
Definition scaled (m : positive) (e : Z) (d : nat) : Z :=
  let num := (Z.pos m * 10 ^ Z.of_nat d)%Z in
  if (0 <=? e)%Z then (num * 2 ^ e)%Z
  else ((2 * num + 2 ^ (- e)) / 2 ^ (1 - e))%Z.

Definition atLeast1e21 (m : positive) (e : Z) : bool :=
  if (0 <=? e)%Z then (10 ^ 21 <=? Z.pos m * 2 ^ e)%Z
  else (10 ^ 21 * 2 ^ (- e) <=? Z.pos m)%Z.

Definition zeros (k : nat) : list ascii := repeat "0"%char k.

(** The digits of [n] with a point before the last [d] of them, padded with
    zeros on the left so that at least one digit precedes the point. *)
Definition pointed (n : Z) (d : nat) : string :=
  let m := list_ascii_of_string (decimalZ n) in
  let m := if (length m <=? d)%nat then zeros (d + 1 - length m) ++ m else m in
  let k := length m in
  match d with
  | O => string_of_list_ascii m
  | _ => string_of_list_ascii (firstn (k - d) m) +++ "." +++
         string_of_list_ascii (skipn (k - d) m)
  end.

Definition toFixed `{Platform} (x : float) (fractionDigits : nat) : string :=
  match Prim2SF x with
  | S754_nan | S754_infinity _ => NumberToString x
  | S754_zero _ => pointed 0 fractionDigits
  | S754_finite s m e =>
      (if s then "-" else "") +++
      (if atLeast1e21 m e then NumberToString (PrimFloat.abs x)
       else pointed (scaled m e fractionDigits) fractionDigits)
  end.

(** The numbers [toFixed] writes in fixed notation: the finite ones below
    10^21 in magnitude. *)
Definition fixedNotation (x : float) : bool :=
  match Prim2SF x with
  | S754_zero _ => true
  | S754_finite _ m e => negb (atLeast1e21 m e)
  | _ => false
  end.

(** ** Conversions *)

(** [if (v)], [a || b], [!v]. *)
Definition truthy (v : value) : bool :=
  match v with
  | VUndefined | VNull => false
  | VBool b => b
  | VNum x => negb (PrimFloat.is_zero x || PrimFloat.is_nan x)
  | VStr s => negb (s =? "")
  | VArr _ | VObj _ => true
  end.

(** [a || b] *)
Definition or (a b : value) : value := if truthy a then a else b.

(** [v !== false] *)
Definition isNotFalse (v : value) : bool :=
  match v with
  | VBool false => false
  | _ => true
  end.

Definition nullish (v : value) : bool :=
  match v with
  | VUndefined | VNull => true
  | _ => false
  end.

Fixpoint lookup (p : string) (props : list (string * value)) : value :=
  match props with
  | [] => VUndefined
  | (k, v) :: rest => if k =? p then v else lookup p rest
  end.

(** Whether [p] is an own property. *)
Definition hasOwn (p : string) (props : list (string * value)) : bool :=
  existsb (fun kv => fst kv =? p) props.

(** Convert every element, or none if one of them cannot be. *)
Definition traverse {A B : Type} (f : A -> option B) : list A -> option (list B) :=
  fix go (l : list A) : option (list B) :=
    match l with
    | [] => Some []
    | a :: rest =>
        match f a, go rest with
        | Some b, Some bs => Some (b :: bs)
        | _, _ => None
        end
    end.

(** [ToString(v)], the conversion behind [`${v}`]; [None] where the language
    throws a [TypeError].  An object that [JSON.parse] built converts through
    [Object.prototype.toString] and [valueOf], unless it has an own property
    [toString]: that one hides the inherited method and, being data, cannot
    be called, and the inherited [valueOf] returns the object itself, so no
    primitive value is found.  An array converts by joining its elements with
    commas, the nullish ones printing as nothing. *)
Fixpoint ToString `{Platform} (v : value) : option string :=
  match v with
  | VUndefined => Some "undefined"
  | VNull => Some "null"
  | VBool true => Some "true"
  | VBool false => Some "false"
  | VNum x => Some (NumberToString x)
  | VStr s => Some s
  | VArr items =>
      option_map (join ",")
        (traverse (fun e => if nullish e then Some "" else ToString e) items)
  | VObj props => if hasOwn "toString" props then None else Some "[object Object]"
  end.

(** [Array.prototype.join] *)
Definition arrayJoin `{Platform} (items : list value) (sep : string) : option string :=
  option_map (join sep)
    (traverse (fun e => if nullish e then Some "" else ToString e) items).

(** [ToNumber(v)], the operand conversion of [v / 1000]; an object or array
    is converted to its string first, and that is where it can throw. *)
Definition ToNumber `{Platform} (v : value) : option float :=
  match v with
  | VUndefined => Some PrimFloat.nan
  | VNull => Some 0%float
  | VBool true => Some 1%float
  | VBool false => Some 0%float
  | VNum x => Some x
  | VStr s => Some (StringToNumber s)
  | VArr _ | VObj _ => option_map StringToNumber (ToString v)
  end.

(** [Object.entries(v)] for a value that passed a truthiness test; a string
    has one entry per code unit. *)
Definition entries (v : value) : list (string * value) :=
  match v with
  | VObj props => props
  | VArr items => combine (map decimal (seq 0 (length items))) items
  | VStr s => let us := units s in
              combine (map decimal (seq 0 (length us))) (map VStr us)
  | _ => []
  end.

End JS.

(* ===================================================================== *)
(** * What the HTTP library hands to its callers *)
(* ===================================================================== *)

Module Axios.
Import JS.

(** A response as the retry logic reads it: the status, the pause asked for
    by a [Retry-After] header in milliseconds (0 when there is none), and the
    parsed body. *)
Record AxiosResponse : Type := {
  status : Z;
  retryAfter : Q;
  data : value
}.

(** A rejected request: [error.message], [error.code], [error.config.method]
    and [error.response]. *)
Record AxiosError : Type := {
  message : string;
  code : option string;
  method : option string;
  response : option AxiosResponse
}.

(** A request as it leaves the process. *)
Record Request : Type := {
  req_method : string;
  req_baseURL : string;
  req_url : string;
  req_headers : list (string * string);
  req_data : option value
}.

(** How one attempt ends on the wire, before the library attaches the
    request's configuration to a failure. *)
Inductive Reply : Type :=
| Fulfilled (body : value)
| Rejected (msg : string) (errcode : option string) (resp : option AxiosResponse).

(** Everything outside the process that one call depends on: how the n-th
    attempt ends, how long it took, and the n-th value of [Math.random()]. *)
Record Wire : Type := {
  reply : nat -> Reply;
  elapsed : nat -> Q;
  random : nat -> Q
}.

Definition Remote : Type := Request -> Wire.

Definition toError (req : Request) (msg : string) (errcode : option string)
    (resp : option AxiosResponse) : AxiosError :=
  {| message := msg; code := errcode; method := Some (req_method req);
     response := resp |}.

(** The error a reply is turned into, if it is one. *)
Definition rejection (req : Request) (r : Reply) : option AxiosError :=
  match r with
  | Fulfilled _ => None
  | Rejected msg errcode resp => Some (toError req msg errcode resp)
  end.

End Axios.

(* ===================================================================== *)
(** * Exceptions and the trace of effects *)
(* ===================================================================== *)

Module Eff.
Import JS Axios.

Inductive Thrown : Type :=
| TypeError (kind : TypeErrorKind)
| Error (msg : string)
| AxiosErr (e : AxiosError).

(** [error.message] (all three are instances of [Error]). *)
Definition messageOf `{Platform} (t : Thrown) : string :=
  match t with
  | TypeError kind => TypeError_message kind
  | Error msg => msg
  | AxiosErr e => message e
  end.

(** A computation without effects either returns or throws. *)
Definition Exc (A : Type) : Type := (Thrown + A)%type.

Definition Eret {A} (a : A) : Exc A := inr a.

Definition Ebind {A B} (c : Exc A) (k : A -> Exc B) : Exc B :=
  match c with
  | inl e => inl e
  | inr a => k a
  end.

Definition Eraise {A} (e : Thrown) : Exc A := inl e.

Definition Ecatch {A} (c : Exc A) (h : Thrown -> Exc A) : Exc A :=
  match c with
  | inl e => h e
  | inr a => inr a
  end.

#[global] Instance Monad_Exc : Monad Exc := {| ret := @Eret; bind := @Ebind |}.

#[global] Instance Exc_Exc : MonadExc Thrown Exc :=
  {| raise := @Eraise; catch := @Ecatch |}.

Inductive Event : Type :=
| Sent (req : Request)
| Waited (ms : Q)
| Logged (label : string) (payload : option value).

(** A computation with effects leaves a trace as well. *)
Definition M (A : Type) : Type := (list Event * Exc A)%type.

Definition Mret {A} (a : A) : M A := ([], inr a).

Definition Mbind {A B} (c : M A) (k : A -> M B) : M B :=
  match c with
  | (t, inl e) => (t, inl e)
  | (t, inr a) => let (t', r) := k a in (t ++ t', r)
  end.

Definition Mraise {A} (e : Thrown) : M A := ([], inl e).

(** [try { c } catch (error) { h error }] *)
Definition Mcatch {A} (c : M A) (h : Thrown -> M A) : M A :=
  match c with
  | (t, inl e) => let (t', r) := h e in (t ++ t', r)
  | (t, inr a) => (t, inr a)
  end.

#[global] Instance Monad_M : Monad M := {| ret := @Mret; bind := @Mbind |}.

#[global] Instance Exc_M : MonadExc Thrown M :=
  {| raise := @Mraise; catch := @Mcatch |}.

Definition emit (ev : Event) : M unit := ([ev], inr tt).

(** A computation without effects, run where effects are allowed. *)
Definition lift {A} (c : Exc A) : M A := ([], c).

Definition trace {A} (c : M A) : list Event := fst c.
Definition outcome {A} (c : M A) : Exc A := snd c.

(** The requests of a trace, in the order they were sent, and its pauses. *)
Definition requests (t : list Event) : list Request :=
  flat_map (fun ev => match ev with Sent r => [r] | _ => [] end) t.

Definition pauses (t : list Event) : list Q :=
  flat_map (fun ev => match ev with Waited d => [d] | _ => [] end) t.

(** ** Operations that can throw *)

(** [base.prop] on a value that is neither [null] nor [undefined], for the
    property names the sources read; the only built-in among them is
    [length]. *)
Definition field (base : value) (prop : string) : value :=
  match base with
  | VObj props => lookup prop props
  | VArr items =>
      if prop =? "length" then VNum (natToNumber (length items)) else VUndefined
  | VStr s =>
      if prop =? "length" then VNum (natToNumber (length (units s))) else VUndefined
  | _ => VUndefined
  end.

(** [base.prop] *)
Definition getProp (base : value) (prop : string) : Exc value :=
  if nullish base then raise (TypeError (ReadPropertyOf base prop))
  else ret (field base prop).

(** [base?.prop] *)
Definition getPropOpt (base : value) (prop : string) : Exc value :=
  if nullish base then ret VUndefined else getProp base prop.

(** [`${v}`] *)
Definition toStr `{Platform} (v : value) : Exc string :=
  match ToString v with
  | Some s => ret s
  | None => raise (TypeError ConvertToPrimitive)
  end.

(** The conversion of the operand [v] of [v / 1000]. *)
Definition toNum `{Platform} (v : value) : Exc float :=
  match ToNumber v with
  | Some x => ret x
  | None => raise (TypeError ConvertToPrimitive)
  end.

(** [v?.toFixed(d)]: only numbers have the method. *)
Definition toFixedOpt `{Platform} (callee : string) (v : value) (d : nat) : Exc value :=
  match v with
  | VUndefined | VNull => ret VUndefined
  | VNum x => ret (VStr (toFixed x d))
  | _ => raise (TypeError (NotAFunction callee))
  end.

(** [v.join(sep)] for a truthy [v]: only arrays have the method. *)
Definition callJoin `{Platform} (callee : string) (v : value) (sep : string) : Exc string :=
  match v with
  | VArr items =>
      match arrayJoin items sep with
      | Some s => ret s
      | None => raise (TypeError ConvertToPrimitive)
      end
  | VUndefined | VNull => raise (TypeError (ReadPropertyOf v "join"))
  | _ => raise (TypeError (NotAFunction callee))
  end.

(** The elements visited by [for (const x of v)]. *)
Definition iterate (expr : string) (v : value) : Exc (list value) :=
  match v with
  | VArr items => ret items
  | VStr s => ret (map VStr (chars s))
  | _ => raise (TypeError (NotIterable expr))
  end.

(** Run [f] on each element in order, collecting the results; stops at the
    first throw. *)
Fixpoint forEach {A B} (f : A -> Exc B) (l : list A) : Exc (list B) :=
  match l with
  | [] => ret []
  | a :: rest => b <- f a ;; bs <- forEach f rest ;; ret (b :: bs)
  end.

(** A computation whose every throw is a [TypeError]. *)
Definition throwsTypeErrors {A} (c : Exc A) : Prop :=
  forall e, c = inl e -> exists kind, e = TypeError kind.

(** [base?.prop] on any value. *)
Definition optField (base : value) (prop : string) : value :=
  if nullish base then VUndefined else field base prop.

(** What [console.log] printed, in order. *)
Definition logs (t : list Event) : list (string * option value) :=
  flat_map (fun ev => match ev with Logged l p => [(l, p)] | _ => [] end) t.

End Eff.

(* ===================================================================== *)
(** * The retry library ([axios-retry], a dependency of the transport) *)
(* ===================================================================== *)

(** [src/transport/http.ts] hands three things to [axiosRetry]: a retry count,
    the library's own [exponentialDelay] and a retry condition built on the
    library's [isNetworkOrIdempotentRequestError].  The library is not part of
    the repository; this module follows its published implementation (4.x).
    Times are exact rationals in milliseconds; what the clock and
    [Math.random()] return comes from the [Wire]. *)
Module AxiosRetry.
Import JS Axios Eff.

Definition SAFE_HTTP_METHODS : list string := ["get"; "head"; "options"].

Definition IDEMPOTENT_HTTP_METHODS : list string :=
  SAFE_HTTP_METHODS ++ ["put"; "delete"].

Definition codeIs (error : AxiosError) (c : string) : bool :=
  match code error with
  | Some c' => c' =? c
  | None => false
  end.

(** A failure without a response that carries an error code, other than a
    timeout or a cancellation, and that [is-retry-allowed] lets through. *)
Definition isNetworkError `{Platform} (error : AxiosError) : bool :=
  match response error with
  | Some _ => false
  | None =>
      match code error with
      | None => false
      | Some c =>
          if c =? "" then false
          else if (c =? "ERR_CANCELED") || (c =? "ECONNABORTED") then false
          else isRetryAllowed (code error)
      end
  end.

Definition isRetryableError (error : AxiosError) : bool :=
  negb (codeIs error "ECONNABORTED") &&
  match response error with
  | None => true
  | Some r => (500 <=? status r)%Z && (status r <=? 599)%Z
  end.

Definition isIdempotentRequestError (error : AxiosError) : bool :=
  match method error with
  | None => false
  | Some m =>
      if m =? "" then false
      else isRetryableError error && existsb (String.eqb m) IDEMPOTENT_HTTP_METHODS
  end.

Definition isNetworkOrIdempotentRequestError `{Platform} (error : AxiosError) : bool :=
  isNetworkError error || isIdempotentRequestError error.

(** The pause a [Retry-After] header asks for, never negative. *)
Definition retryAfterOf (error : AxiosError) : Q :=
  match response error with
  | Some r => Qmax 0 (retryAfter r)
  | None => 0
  end.

Definition delayFactor : Q := 100.

(** [exponentialDelay(retryNumber, error)], with the value [rnd] that
    [Math.random()] returned: up to a fifth is added to the delay. *)
Definition exponentialDelay (retryNumber : nat) (error : AxiosError) (rnd : Q) : Q :=
  let calculatedDelay := (2 ^ Z.of_nat retryNumber * delayFactor)%Q in
  let delay := Qmax calculatedDelay (retryAfterOf error) in
  let randomSum := (delay * (2 # 10) * rnd)%Q in
  (delay + randomSum)%Q.

(** The options [axiosRetry(client, { ... })] receives. *)
Record Options : Type := {
  retries : Z;
  retryDelay : nat -> AxiosError -> Q -> Q;
  retryCondition : AxiosError -> bool
}.

(** The response interceptor.  [left] is [retries - retryCount], so that
    [retryCount < retries] reads [left] is not zero.  Before a retry the
    request's timeout is reduced by the time the last attempt took and by the
    delay; a retry that would leave none is given up (a timeout of 0 means no
    timeout and is left alone). *)
Fixpoint attempt (opts : Options) (req : Request) (wire : Wire)
    (left retryCount : nat) (timeout : Q) : M value :=
  emit (Sent req) ;;
  match reply wire retryCount with
  | Fulfilled body => ret body
  | Rejected msg c resp =>
      let error := toError req msg c resp in
      match left with
      | O => raise (AxiosErr error)
      | S left' =>
          if retryCondition opts error then
            let delay := retryDelay opts (S retryCount) error (random wire retryCount) in
            if Qeq_bool timeout 0 then
              emit (Waited delay) ;;
              attempt opts req wire left' (S retryCount) timeout
            else
              let timeout' := (timeout - elapsed wire retryCount - delay)%Q in
              if Qle_bool timeout' 0 then raise (AxiosErr error)
              else
                emit (Waited delay) ;;
                attempt opts req wire left' (S retryCount) timeout'
          else raise (AxiosErr error)
      end
  end.

Definition request (opts : Options) (timeout : Z) (req : Request) (wire : Wire) : M value :=
  attempt opts req wire (Z.to_nat (retries opts)) 0 (inject_Z timeout).

(** The trace of a call that was retried [j] times from attempt [rc] on:
    requests with a pause before each but the first. *)
Definition retried (req : Request) (delay : nat -> Q) (rc j : nat) : list Event :=
  Sent req :: flat_map (fun i => [Waited (delay i); Sent req]) (seq rc j).

(** The time the first [m] attempts from attempt [rc] on and the pauses after
    them take, [delay i] being the pause after attempt [i]. *)
Definition spent (delay : nat -> Q) (wire : Wire) (rc m : nat) : Q :=
  fold_right Qplus 0 (map (fun i => elapsed wire i + delay i) (seq rc m)).

(** Whether the timeout bookkeeping lets [k] retries in a row go ahead from
    attempt [rc] on, [delay i] being the pause after attempt [i]. *)
Fixpoint affordable (delay : nat -> Q) (wire : Wire) (k rc : nat) (timeout : Q) : bool :=
  match k with
  | O => true
  | S k' =>
      if Qeq_bool timeout 0 then affordable delay wire k' (S rc) timeout
      else
        let timeout' := (timeout - elapsed wire rc - delay rc)%Q in
        negb (Qle_bool timeout' 0) && affordable delay wire k' (S rc) timeout'
  end.

End AxiosRetry.

(* ===================================================================== *)
(** * [src/transport/http.ts] *)
(* ===================================================================== *)

Module HttpTransport.
Import JS Axios Eff.

(** The axios instance the constructor creates, with its retry options. *)
Record HttpTransport : Type := {
  baseURL : string;
  timeout : Z;
  headers : list (string * string);
  retry : AxiosRetry.Options
}.

(** [error.response?.status === n] *)
Definition statusIs (error : AxiosError) (n : Z) : bool :=
  match response error with
  | Some r => (status r =? n)%Z
  | None => false
  end.

Definition retryCondition `{Platform} (error : AxiosError) : bool :=
  AxiosRetry.isNetworkOrIdempotentRequestError error ||
  statusIs error 429 ||
  statusIs error 503.

(** [constructor(serverUrl, apiKey, timeout = 30000, retries = 3)]; an
    argument that is [undefined] takes its default. *)
Definition constructor `{Platform} (serverUrl apiKey : string)
    (timeout retries : option Z) : HttpTransport :=
  let timeout := match timeout with Some t => t | None => 30000%Z end in
  let retries := match retries with Some r => r | None => 3%Z end in
  {| baseURL := serverUrl;
     timeout := timeout;
     headers := [("Content-Type", "application/json"); ("X-API-Key", apiKey)];
     retry := {| AxiosRetry.retries := retries;
                 AxiosRetry.retryDelay := AxiosRetry.exponentialDelay;
                 AxiosRetry.retryCondition := retryCondition |} |}.

Definition send (this : HttpTransport) (remote : Remote) (req : Request) : M value :=
  AxiosRetry.request (retry this) (timeout this) req (remote req).

(** The requests [this.client.post(path, data)] and [this.client.get(path)]
    make. *)
Definition postRequest (this : HttpTransport) (path : string) (data : value) : Request :=
  {| req_method := "post"; req_baseURL := baseURL this; req_url := path;
     req_headers := headers this; req_data := Some data |}.

Definition getRequest (this : HttpTransport) (path : string) : Request :=
  {| req_method := "get"; req_baseURL := baseURL this; req_url := path;
     req_headers := headers this; req_data := None |}.

Definition post (this : HttpTransport) (remote : Remote) (path : string)
    (data : value) : M value :=
  send this remote (postRequest this path data).

Definition get (this : HttpTransport) (remote : Remote) (path : string) : M value :=
  send this remote (getRequest this path).

End HttpTransport.

(* ===================================================================== *)
(** * [src/types/config.ts] and [src/client.ts] *)
(* ===================================================================== *)

Module OptimizationClient.
Import JS Axios Eff.

(** An optional property of an object literal: left out, or written, possibly
    with the value [undefined]. *)
Inductive Optional (A : Type) : Type :=
| Omitted
| Given (v : option A).
Arguments Omitted {A}.

(** [interface OptimizationClientConfig] as the caller writes it. *)
Record OptimizationClientConfig : Type := {
  serverUrl : string;
  apiKey : string;
  timeout : Optional Z;
  retries : Optional Z;
  debug : Optional bool
}.

(** [this.config]: after the spread every property exists; [None] is the
    value [undefined]. *)
Record Config : Type := {
  cfg_serverUrl : string;
  cfg_apiKey : string;
  cfg_timeout : option Z;
  cfg_retries : option Z;
  cfg_debug : option bool
}.

(** [{ p: dflt, ...config }] for one property [p]. *)
Definition spread {A} (dflt : A) (supplied : Optional A) : option A :=
  match supplied with
  | Omitted => Some dflt
  | Given v => v
  end.

Record OptimizationClient : Type := {
  config : Config;
  transport : HttpTransport.HttpTransport
}.

Definition constructor `{Platform} (c : OptimizationClientConfig) : OptimizationClient :=
  let config :=
    {| cfg_serverUrl := serverUrl c;
       cfg_apiKey := apiKey c;
       cfg_timeout := spread 30000%Z (timeout c);
       cfg_retries := spread 3%Z (retries c);
       cfg_debug := spread false (debug c) |} in
  {| config := config;
     transport := HttpTransport.constructor (cfg_serverUrl config) (cfg_apiKey config)
                    (cfg_timeout config) (cfg_retries config) |}.

(** [if (this.config.debug) console.log(label, payload)] *)
Definition debugLog (this : OptimizationClient) (label : string)
    (payload : option value) : M unit :=
  match cfg_debug (config this) with
  | Some true => emit (Logged label payload)
  | _ => ret tt
  end.

Definition solveLp (this : OptimizationClient) (remote : Remote) (problem : value) : M value :=
  debugLog this "[OptimizationClient] Solving LP problem:" (Some problem) ;;
  HttpTransport.post (transport this) remote "/api/solve/lp" problem.

Definition solveMip (this : OptimizationClient) (remote : Remote) (problem : value) : M value :=
  debugLog this "[OptimizationClient] Solving MIP problem:" (Some problem) ;;
  HttpTransport.post (transport this) remote "/api/solve/mip" problem.

Definition solveTsp (this : OptimizationClient) (remote : Remote) (problem : value) : M value :=
  debugLog this "[OptimizationClient] Solving TSP problem:" (Some problem) ;;
  HttpTransport.post (transport this) remote "/api/solve/tsp" problem.

(** The three solve operations with the remote path of each. *)
Definition solveOperations :
    list ((OptimizationClient -> Remote -> value -> M value) * string) :=
  [(solveLp, "/api/solve/lp"); (solveMip, "/api/solve/mip"); (solveTsp, "/api/solve/tsp")].

Definition analyzeProblem (this : OptimizationClient) (remote : Remote)
    (description : value) : M value :=
  debugLog this "[OptimizationClient] Analyzing problem" None ;;
  HttpTransport.post (transport this) remote "/api/analyze"
    (VObj [("description", description)]).

Definition getReport `{Platform} (this : OptimizationClient) (remote : Remote)
    (reportId : value) : M value :=
  debugLog this "[OptimizationClient] Getting report:" (Some reportId) ;;
  id <- lift (toStr reportId) ;;
  HttpTransport.get (transport this) remote ("/api/reports/" +++ id).

(** [listReports(limit = 50)] *)
Definition listReports `{Platform} (this : OptimizationClient) (remote : Remote)
    (limit : option float) : M value :=
  let limit := match limit with Some n => n | None => 50%float end in
  debugLog this "[OptimizationClient] Listing reports" None ;;
  response <- HttpTransport.get (transport this) remote
                ("/api/reports?limit=" +++ NumberToString limit) ;;
  lift (getProp response "reports").

End OptimizationClient.

(* ===================================================================== *)
(** * [src/mcp/server.ts] *)
(* ===================================================================== *)

Module Server.
Import JS Axios Eff.

Record TextContent : Type := {
  type : string;
  text : string
}.

(** A tool result; [isError] is [None] when the property is not written. *)
Record CallToolResult : Type := {
  content : list TextContent;
  isError : option bool
}.

Definition arrow : string := " → ".

(** The names of the five declared [tools]. *)
Definition toolNames : list string :=
  ["solve_lp"; "solve_mip"; "solve_tsp"; "analyze_problem"; "get_report"].

(** What the adapter reads of an entry of [tools]: its [name], and of its
    [inputSchema] the names of the top-level [properties] and the [required]
    ones. *)
Record Tool : Type := {
  tool_name : string;
  schema_properties : list string;
  schema_required : list string
}.

Definition tools : list Tool :=
  [{| tool_name := "solve_lp";
      schema_properties := ["variables"; "objective"; "constraints"; "generate_report"];
      schema_required := ["variables"; "objective"] |};
   {| tool_name := "solve_mip";
      schema_properties := ["variables"; "objective"; "constraints"; "generate_report"];
      schema_required := ["variables"; "objective"] |};
   {| tool_name := "solve_tsp";
      schema_properties := ["locations"; "start_location"; "generate_report"];
      schema_required := ["locations"] |};
   {| tool_name := "analyze_problem";
      schema_properties := ["description"];
      schema_required := ["description"] |};
   {| tool_name := "get_report";
      schema_properties := ["report_id"];
      schema_required := ["report_id"] |}].

Section Process.
Context `{Platform}.

(** The two environment variables, [None] when unset. *)
Variable OPT_TOOLS_SERVER_URL OPT_TOOLS_API_KEY : option string.

(** [process.env.X || dflt] *)
Definition envOr (v : option string) (dflt : string) : string :=
  match v with
  | Some s => if s =? "" then dflt else s
  | None => dflt
  end.

Definition SERVER_URL : string := envOr OPT_TOOLS_SERVER_URL "http://164.92.92.181".
Definition API_KEY : string := envOr OPT_TOOLS_API_KEY "demo_key".

Definition client : OptimizationClient.OptimizationClient :=
  OptimizationClient.constructor
    {| OptimizationClient.serverUrl := SERVER_URL;
       OptimizationClient.apiKey := API_KEY;
       OptimizationClient.timeout := OptimizationClient.Given (Some 120000%Z);
       OptimizationClient.retries := OptimizationClient.Given (Some 2%Z);
       OptimizationClient.debug := OptimizationClient.Omitted |}.

(** ** Formatters *)

(** The lines pushed by [if (result.report_id) { ... }]. *)
Definition reportHint (viewAt : string) (report_id : value) : Exc (list string) :=
  if truthy report_id then
    id <- toStr report_id ;;
    ret [""; "**Report ID:** " +++ id;
         viewAt +++ SERVER_URL +++ "/api/reports/" +++ id]
  else ret [].

(** The line pushed for one entry of [Object.entries(result.solution)]. *)
Definition entryLine (entry : string * value) : Exc string :=
  let '(name, v) := entry in
  v <- toStr v ;;
  ret ("- " +++ name +++ " = " +++ v).

(** The lines [formatSolveResponse] pushes before the report hint. *)
Definition solveBody (result : value) (problemType : string) : Exc (list string) :=
  status <- getProp result "status" ;;
  status <- toStr status ;;
  objective_value <- getProp result "objective_value" ;;
  objective_value <- toStr objective_value ;;
  let lines :=
    ["## " +++ problemType +++ " Solution"; "";
     "**Status:** " +++ status;
     "**Objective Value:** " +++ objective_value; "";
     "### Solution Values:"] in
  solution <- getProp result "solution" ;;
  entryLines <-
    (if truthy solution then forEach entryLine (entries solution) else ret []) ;;
  execution_time_ms <- getProp result "execution_time_ms" ;;
  solveTime <- toFixedOpt "result.execution_time_ms?.toFixed" execution_time_ms 2 ;;
  solveTime <- toStr solveTime ;;
  solver_info <- getProp result "solver_info" ;;
  solver <- getPropOpt solver_info "solver" ;;
  solver <- toStr (or solver (VStr "OR-Tools")) ;;
  ret (lines ++ entryLines ++
       [""; "**Solve Time:** " +++ solveTime +++ "ms";
        "**Solver:** " +++ solver]).

Definition formatSolveResponse (result : value) (problemType : string) : Exc string :=
  lines <- solveBody result problemType ;;
  report_id <- getProp result "report_id" ;;
  hint <- reportHint "View the full report at: " report_id ;;
  ret (join nl (lines ++ hint)).

(** [(v / 1000).toFixed(d)] *)
Definition thousandth (v : value) (d : nat) : Exc string :=
  x <- toNum v ;;
  ret (toFixed (x / 1000)%float d).

Definition segmentLine (seg : value) : Exc string :=
  distance <- getProp seg "distance" ;;
  dist <- thousandth distance 2 ;;
  from_name <- getProp seg "from_name" ;;
  from_name <- toStr from_name ;;
  to_name <- getProp seg "to_name" ;;
  to_name <- toStr to_name ;;
  ret ("- " +++ from_name +++ arrow +++ to_name +++ ": " +++ dist +++ " km").

(** The lines [formatTspResponse] pushes before the report hint. *)
Definition tspBody (result : value) : Exc (list string) :=
  status <- getProp result "status" ;;
  status <- toStr status ;;
  objective_value <- getProp result "objective_value" ;;
  distance <- thousandth objective_value 2 ;;
  let lines :=
    ["## Traveling Salesman Solution"; "";
     "**Status:** " +++ status;
     "**Total Distance:** " +++ distance +++ " km"; "";
     "### Optimal Route:"] in
  solution <- getProp result "solution" ;;
  route <- getPropOpt solution "route_names" ;;
  routeLines <-
    (if truthy route then
       joined <- callJoin "route.join" route arrow ;; ret [joined]
     else ret []) ;;
  segments <- getPropOpt solution "segments" ;;
  segmentLines <-
    (if truthy segments then
       segs <- iterate "result.solution.segments" segments ;;
       ls <- forEach segmentLine segs ;;
       ret (["" ; "### Route Segments:"] ++ ls)
     else ret []) ;;
  execution_time_ms <- getProp result "execution_time_ms" ;;
  solveTime <- thousandth execution_time_ms 1 ;;
  ret (lines ++ routeLines ++ segmentLines ++
       [""; "**Solve Time:** " +++ solveTime +++ "s"]).

Definition formatTspResponse (result : value) : Exc string :=
  lines <- tspBody result ;;
  report_id <- getProp result "report_id" ;;
  hint <- reportHint "View the route map at: " report_id ;;
  ret (join nl (lines ++ hint)).

(** The line pushed for one element of an itemised list. *)
Definition itemLine (x : value) : Exc string :=
  x <- toStr x ;;
  ret ("- " +++ x).

(** One of the three itemised lists of [formatAnalysisResponse]:
    [if (xs?.length) { push(header); for (const x of xs) push(`- ${x}`) }]. *)
Definition itemised (expr header : string) (detected : value) : Exc (list string) :=
  len <- getPropOpt detected "length" ;;
  if truthy len then
    items <- iterate expr detected ;;
    ls <- forEach itemLine items ;;
    ret (header :: ls)
  else ret [].

Definition formatAnalysisResponse (result : value) : Exc string :=
  problem_type <- getProp result "problem_type" ;;
  problem_type <- toStr problem_type ;;
  confidence <- getProp result "confidence" ;;
  confidence <- toStr confidence ;;
  let lines :=
    ["## Problem Analysis"; "";
     "**Problem Type:** " +++ problem_type;
     "**Confidence:** " +++ confidence; ""] in
  variables_detected <- getProp result "variables_detected" ;;
  vs <- itemised "result.variables_detected" "### Detected Variables:" variables_detected ;;
  constraints_detected <- getProp result "constraints_detected" ;;
  cs <- itemised "result.constraints_detected" "### Detected Constraints:" constraints_detected ;;
  recommendations <- getProp result "recommendations" ;;
  rs <- itemised "result.recommendations" "### Recommendations:" recommendations ;;
  let blankAfter (ls : list string) := match ls with [] => [] | _ => ls ++ [""] end in
  ret (join nl (lines ++ blankAfter vs ++ blankAfter cs ++ rs)).

(** A line of the report hint of [formatSolveResponse], by its lead. *)
Definition hintLine (l : string) : bool :=
  String.prefix "**Report ID:**" l || String.prefix "View the full report at:" l.

(** The lines of a text: what lies between its line feeds. *)
Fixpoint textLines (s : string) : list string :=
  match s with
  | EmptyString => [EmptyString]
  | String c rest =>
      if Ascii.eqb c (ascii_of_nat 10) then EmptyString :: textLines rest
      else
        match textLines rest with
        | l :: ls => String c l :: ls
        | [] => [String c EmptyString]
        end
  end.

(** A string without a line feed. *)
Fixpoint oneLine (s : string) : bool :=
  match s with
  | EmptyString => true
  | String c rest => negb (Ascii.eqb c (ascii_of_nat 10)) && oneLine rest
  end.

(** The two formatters of solve results: the lines before the report hint,
    the formatted text, and the lead of the hint's last line. *)
Definition solveFormatters (result : value) (problemType : string) :
    list (Exc (list string) * Exc string * string) :=
  [(solveBody result problemType, formatSolveResponse result problemType,
    "View the full report at: ");
   (tspBody result, formatTspResponse result, "View the route map at: ")].

(** ** The tool-call handler *)

Definition textResult (t : string) : CallToolResult :=
  {| content := [{| type := "text"; text := t |}]; isError := None |}.

Definition errorResult (t : string) : CallToolResult :=
  {| content := [{| type := "text"; text := t |}]; isError := Some true |}.

(** The problem objects the three solve cases build from the arguments. *)
Definition lpProblem (args : list (string * value)) : value :=
  VObj [("variables", lookup "variables" args);
        ("objective", lookup "objective" args);
        ("constraints", or (lookup "constraints" args) (VArr []));
        ("generate_report", VBool (isNotFalse (lookup "generate_report" args)))].

Definition tspProblem (args : list (string * value)) : value :=
  VObj [("locations", lookup "locations" args);
        ("start_location", lookup "start_location" args);
        ("generate_report", VBool (isNotFalse (lookup "generate_report" args)))].

(** The three solve tools: name, remote path, and the problem built from the
    arguments. *)
Definition solveTools (args : list (string * value)) : list (string * string * value) :=
  [("solve_lp", "/api/solve/lp", lpProblem args);
   ("solve_mip", "/api/solve/mip", lpProblem args);
   ("solve_tsp", "/api/solve/tsp", tspProblem args)].

(** The body of the [try]: the [switch (name)]. *)
Definition dispatch (remote : Remote) (name : string)
    (args : list (string * value)) : M CallToolResult :=
  if name =? "solve_lp" then
    result <- OptimizationClient.solveLp client remote (lpProblem args) ;;
    t <- lift (formatSolveResponse result "Linear Programming") ;;
    ret (textResult t)
  else if name =? "solve_mip" then
    result <- OptimizationClient.solveMip client remote (lpProblem args) ;;
    t <- lift (formatSolveResponse result "Mixed-Integer Programming") ;;
    ret (textResult t)
  else if name =? "solve_tsp" then
    result <- OptimizationClient.solveTsp client remote (tspProblem args) ;;
    t <- lift (formatTspResponse result) ;;
    ret (textResult t)
  else if name =? "analyze_problem" then
    result <- OptimizationClient.analyzeProblem client remote (lookup "description" args) ;;
    t <- lift (formatAnalysisResponse result) ;;
    ret (textResult t)
  else if name =? "get_report" then
    let reportId := lookup "report_id" args in
    html <- OptimizationClient.getReport client remote reportId ;;
    t <- lift (len <- getProp html "length" ;;
               len <- toStr len ;;
               id <- toStr reportId ;;
               ret ("HTML Report (" +++ len +++ " characters):" +++ nl +++ nl +++
                    "The report has been retrieved. To view it, save the content to an HTML file and open in a browser." +++
                    nl +++ nl +++ "Report ID: " +++ id)) ;;
    ret (textResult t)
  else raise (Error ("Unknown tool: " +++ name)).

(** The [CallToolRequestSchema] handler, on [request.params.name] and
    [request.params.arguments] ([None] when there are none). *)
Definition CallToolRequestHandler (remote : Remote) (name : string)
    (args : option (list (string * value))) : M CallToolResult :=
  match args with
  | None => ret (errorResult "Error: No arguments provided")
  | Some args =>
      catch (dispatch remote name args)
            (fun error => ret (errorResult ("Error: " +++ messageOf error)))
  end.

End Process.

End Server.

(* ===================================================================== *)
(** * Concrete inputs *)
(* ===================================================================== *)

Module Examples.
Import JS Axios Eff.

(** The platform of the concrete runs.  Every number they print is an integer
    below 10^21, which [Number::toString] prints as its decimal digits; no run
    parses a string as a number.  The [TypeError] wording is V8's, and the
    deny list holds the two network codes of the package's list. *)
Definition integerDigits (x : float) : string :=
  match Prim2SF x with
  | S754_finite s m e => (if s then "-" else "") +++ pointed (scaled m e 0) 0
  | _ => ""
  end.

Definition v8Message (kind : TypeErrorKind) : string :=
  match kind with
  | ReadPropertyOf base prop =>
      "Cannot read properties of " +++
      (match base with VNull => "null" | _ => "undefined" end) +++
      " (reading '" +++ prop +++ "')"
  | NotAFunction callee => callee +++ " is not a function"
  | NotIterable expr => expr +++ " is not iterable"
  | ConvertToPrimitive => "Cannot convert object to primitive value"
  end.

Definition retryAllowed (c : option string) : bool :=
  match c with
  | Some c => negb ((c =? "ENOTFOUND") || (c =? "ENETUNREACH"))
  | None => true
  end.

#[global] Instance node : Platform :=
  {| Number_digits := integerDigits;
     StringToNumber := fun _ => PrimFloat.nan;
     TypeError_message := v8Message;
     isRetryAllowed := retryAllowed |}.

(** A remote whose every attempt ends the same way, each taking 50 ms. *)
Definition always (r : Reply) (rnd : nat -> Q) : Remote :=
  fun _ => {| reply := fun _ => r; elapsed := fun _ => 50; random := rnd |}.

(** A response that axios rejects because of its status. *)
Definition statusReply (st : Z) : Reply :=
  Rejected ("Request failed with status code " +++ decimalZ st) None
    (Some {| status := st; retryAfter := 0; data := VNull |}).

Definition noJitter : nat -> Q := fun _ => 0.

(** Three values [Math.random()] may return in a row. *)
Definition someJitter : nat -> Q :=
  fun n => match n with 0%nat => 1 # 2 | 1%nat => 0 | _ => 3 # 4 end.

(** A schedule of the form base * 2^attempt: each pause is twice the one
    before it. *)
Fixpoint doubling (ds : list Q) : bool :=
  match ds with
  | a :: (b :: _) as rest => Qeq_bool (2 * a) b && doubling rest
  | _ => true
  end.

(** What the claim about [listReports] asks of a result. *)
Definition withinLimit (limit : float) (result : value) : bool :=
  match result with
  | VArr reports => PrimFloat.leb (natToNumber (length reports)) limit
  | _ => false
  end.

Definition report (id : string) : value :=
  VObj [("report_id", VStr id); ("created_at", VStr "2025-01-01T00:00:00Z");
        ("problem_type", VStr "lp"); ("status", VStr "OPTIMAL")].

(** A remote that ignores the limit it is asked for. *)
Definition twoReports : value :=
  VObj [("reports", VArr [report "a"; report "b"]); ("total", VNum 2)].

(** A connection reset: no response, an error code. *)
Definition connectionReset : Reply :=
  Rejected "read ECONNRESET" (Some "ECONNRESET") None.

(** The scenario of the specification: an LP in [x] and [y]. *)
Definition lpScenario : value :=
  VObj [("variables",
         VArr [VObj [("name", VStr "x"); ("type", VStr "continuous")];
               VObj [("name", VStr "y"); ("type", VStr "continuous")]]);
        ("objective",
         VObj [("sense", VStr "maximize"); ("expression", VStr "3*x+2*y")]);
        ("constraints", VArr [VObj [("expression", VStr "x+y<=10")]])].

(** A problem as a direct caller may pass it: no constraints, no
    [generate_report]. *)
Definition bareProblem : value :=
  VObj [("variables", VArr [VObj [("name", VStr "x"); ("type", VStr "continuous")]]);
        ("objective",
         VObj [("sense", VStr "maximize"); ("expression", VStr "3*x")])].

(** A tour of 15 km with one segment listed. *)
Definition tspPayload : value :=
  VObj [("status", VStr "OPTIMAL");
        ("objective_value", VNum 15000);
        ("solution",
         VObj [("route_names", VArr [VStr "Depot"; VStr "Harbour"; VStr "Depot"]);
               ("segments",
                VArr [VObj [("from_name", VStr "Depot"); ("to_name", VStr "Harbour");
                            ("distance", VNum 7500)]])]);
        ("execution_time_ms", VNum 1200)].

(** A result without a report identifier whose status holds two line feeds,
    and after them what the lines of a report hint look like. *)
Definition spoofedStatus : value :=
  VObj [("status",
         VStr ("OPTIMAL" +++ nl +++ "**Report ID:** r9" +++ nl +++
               "View the full report at: http://164.92.92.181/api/reports/r9"));
        ("objective_value", VNum 20)].

(** A transport with a timeout of half a second and three retries. *)
Definition hastyTransport `{Platform} : HttpTransport.HttpTransport :=
  HttpTransport.constructor "https://api.opt-tools.com" "key" (Some 500%Z) (Some 3%Z).

(** A result whose report identifier is the empty string. *)
Definition emptyReportId : value :=
  VObj [("status", VStr "OPTIMAL"); ("objective_value", VNum 20);
        ("report_id", VStr "")].

Definition lpPayload : value :=
  VObj [("status", VStr "OPTIMAL");
        ("objective_value", VNum 20);
        ("solution", VObj [("x", VNum 0); ("y", VNum 10)])].

(** A remote that rejects every request with status [st]. *)
Definition rejecting (st : Z) (rnd : nat -> Q) : Remote := always (statusReply st) rnd.

Definition rejectionOf (req : Request) (st : Z) : AxiosError :=
  toError req ("Request failed with status code " +++ decimalZ st) None
    (Some {| status := st; retryAfter := 0; data := VNull |}).

(** A client with the default configuration. *)
Definition defaultClient : OptimizationClient.OptimizationClient :=
  OptimizationClient.constructor
    {| OptimizationClient.serverUrl := "https://api.opt-tools.com";
       OptimizationClient.apiKey := "key";
       OptimizationClient.timeout := OptimizationClient.Omitted;
       OptimizationClient.retries := OptimizationClient.Omitted;
       OptimizationClient.debug := OptimizationClient.Omitted |}.

(** The request [defaultClient.solveLp(lpScenario)] makes. *)
Definition lpRequest : Request :=
  HttpTransport.postRequest (OptimizationClient.transport defaultClient)
    "/api/solve/lp" lpScenario.

(** A remote that is unavailable for the first two attempts. *)
Definition recovering : Remote :=
  fun _ => {| reply := fun n => if (n <? 2)%nat then statusReply 503 else Fulfilled lpPayload;
              elapsed := fun _ => 50;
              random := someJitter |}.

Definition analysisPayload : value :=
  VObj [("problem_type", VStr "LP"); ("confidence", VStr "high");
        ("variables_detected", VArr [VStr "x"; VStr "y"]);
        ("constraints_detected", VArr []);
        ("recommendations", VArr [VStr "state the bounds"])].

(** A client that logs. *)
Definition debugClient : OptimizationClient.OptimizationClient :=
  OptimizationClient.constructor
    {| OptimizationClient.serverUrl := "https://api.opt-tools.com";
       OptimizationClient.apiKey := "key";
       OptimizationClient.timeout := OptimizationClient.Omitted;
       OptimizationClient.retries := OptimizationClient.Omitted;
       OptimizationClient.debug := OptimizationClient.Given (Some true) |}.

End Examples.

(* ===================================================================== *)
(** * Properties *)
(* ===================================================================== *)

Import JS Axios Eff.

Unset Implicit Arguments.

(** Decide the comparisons of string literals in the goal. *)
Ltac literal_tests :=
  repeat match goal with
  | |- context [String.eqb ?a ?b] =>
      let v := eval vm_compute in (String.eqb a b) in
      change (String.eqb a b) with v
  end; cbv iota.

(** Run the binds of a computation without effects in a hypothesis. *)
Ltac run_exc H := cbn [bind ret Monad_Exc Ebind Eret] in H.

(** The same in the goal. *)
Ltac run_exc_goal := cbn [bind ret Monad_Exc Ebind Eret].

(** ** The effect monad *)

Section MonadFacts.
Variables A B : Type.

Lemma outcome_bind (c : M A) (k : A -> M B) :
  outcome (bind c k) =
  match outcome c with
  | inl e => inl e
  | inr a => outcome (k a)
  end.
Proof.
  destruct c as [t [e | a]]; cbn; [reflexivity |].
  destruct (k a); reflexivity.
Qed.

Lemma trace_bind (c : M A) (k : A -> M B) :
  trace (bind c k) =
  match outcome c with
  | inl _ => trace c
  | inr a => trace c ++ trace (k a)
  end.
Proof.
  destruct c as [t [e | a]]; cbn; [reflexivity |].
  destruct (k a); reflexivity.
Qed.

Lemma bind_returns (c : M A) (k : A -> M B) (b : B) :
  outcome (bind c k) = inr b ->
  exists a, outcome c = inr a /\ outcome (k a) = inr b.
Proof.
  rewrite outcome_bind. destruct (outcome c) as [e | a]; [discriminate |].
  intros Hk. exists a. split; [reflexivity | exact Hk].
Qed.

End MonadFacts.

Lemma lift_returns_then (A B : Type) (a : A) (k : A -> M B) :
  (x <- lift (ret a) ;; k x) = k a.
Proof. cbn. destruct (k a); reflexivity. Qed.

Lemma lift_value_then (A B : Type) (a : A) (k : A -> M B) :
  (x <- lift (inr a) ;; k x) = k a.
Proof. cbn. destruct (k a); reflexivity. Qed.

Lemma lift_throws_then (A B : Type) (e : Thrown) (k : A -> M B) :
  (x <- lift (raise e) ;; k x) = ([], inl e).
Proof. reflexivity. Qed.

Lemma outcome_catch (A : Type) (c : M A) (h : Thrown -> M A) :
  outcome (catch c h) =
  match outcome c with
  | inl e => outcome (h e)
  | inr a => inr a
  end.
Proof.
  destruct c as [t [e | a]]; cbn; [| reflexivity].
  destruct (h e); reflexivity.
Qed.

Lemma Ebind_returns (A B : Type) (c : Exc A) (k : A -> Exc B) (b : B) :
  Ebind c k = inr b -> exists a, c = inr a /\ k a = inr b.
Proof.
  destruct c as [e | a]; cbn; [discriminate |].
  intros Hk. exists a. split; [reflexivity | exact Hk].
Qed.

Lemma getProp_returns (base : value) (prop : string) :
  nullish base = false -> getProp base prop = ret (field base prop).
Proof. intros Hb. unfold getProp. rewrite Hb. reflexivity. Qed.

Lemma getPropOpt_returns (base : value) (prop : string) :
  getPropOpt base prop = inr (optField base prop).
Proof.
  unfold getPropOpt, optField, getProp. destruct (nullish base); reflexivity.
Qed.


(** ** The adapter's dispatch boundary *)

Section Adapter.
Context `{Platform}.
Variables url key : option string.

(** Whatever the [switch] returns is one text block without an error flag. *)
Lemma dispatch_returns_text (remote : Remote) (name : string)
    (args : list (string * value)) (r : Server.CallToolResult) :
  outcome (Server.dispatch url key remote name args) = inr r ->
  exists t, r = Server.textResult t.
Proof.
  unfold Server.dispatch. intros Hr.
  repeat match type of Hr with
  | outcome (if ?b then _ else _) = _ => destruct b
  end;
  repeat match type of Hr with
  | outcome (bind _ _) = inr _ =>
      apply bind_returns in Hr; destruct Hr as [? [_ Hr]]
  end;
  cbn in Hr; try discriminate;
  injection Hr as <-; eexists; reflexivity.
Qed.

Lemma dispatch_unknown_tool (remote : Remote) (name : string)
    (args : list (string * value)) :
  ~ In name Server.toolNames ->
  Server.dispatch url key remote name args = raise (Error ("Unknown tool: " +++ name)).
Proof.
  intros Hn. unfold Server.dispatch.
  repeat match goal with
  | |- context [if (name =? ?t) then _ else _] =>
      destruct (String.eqb_spec name t) as [-> | _];
      [exfalso; apply Hn; cbn; tauto |]
  end.
  reflexivity.
Qed.

(** C2. Every tool invocation ends in a returned result, never in a throw
    past the handler; the result holds exactly one text block.  When the
    dispatch throws (a network or remote failure, a malformed payload, an
    unknown tool name) the block reads [Error: <message>] and [isError] is
    [true]; so it is for a call without arguments.  When the dispatch
    returns, the result is handed on as it is, and it has no [isError].  So
    no result carries both a success and an error block. *)
Theorem tool_call_never_throws (remote : Remote) (name : string)
    (args : option (list (string * value))) :
  exists r,
    outcome (Server.CallToolRequestHandler url key remote name args) = inr r /\
    (exists t, Server.content r = [{| Server.type := "text"; Server.text := t |}]) /\
    (forall a e,
        args = Some a ->
        outcome (Server.dispatch url key remote name a) = inl e ->
        Server.content r =
          [{| Server.type := "text"; Server.text := "Error: " +++ messageOf e |}] /\
        Server.isError r = Some true) /\
    (forall a r',
        args = Some a ->
        outcome (Server.dispatch url key remote name a) = inr r' ->
        r = r' /\ Server.isError r = None) /\
    (forall a,
        args = Some a ->
        ~ In name Server.toolNames ->
        Server.content r =
          [{| Server.type := "text";
              Server.text := "Error: Unknown tool: " +++ name |}] /\
        Server.isError r = Some true) /\
    (args = None ->
     Server.content r =
       [{| Server.type := "text"; Server.text := "Error: No arguments provided" |}] /\
     Server.isError r = Some true).
Proof.
  destruct args as [a |]; unfold Server.CallToolRequestHandler.
  - rewrite outcome_catch.
    destruct (outcome (Server.dispatch url key remote name a)) as [e | r'] eqn:Hd.
    + exists (Server.errorResult ("Error: " +++ messageOf e)).
      refine (conj eq_refl (conj (ex_intro _ _ eq_refl) (conj _ (conj _ (conj _ _))))).
      * intros a0 e0 Ha He. injection Ha as <-. rewrite Hd in He.
        injection He as <-. split; reflexivity.
      * intros a0 r0 Ha Hr. injection Ha as <-. rewrite Hd in Hr. discriminate.
      * intros a0 Ha Hn. injection Ha as <-.
        rewrite (dispatch_unknown_tool remote name a Hn) in Hd.
        cbn in Hd. injection Hd as <-. split; reflexivity.
      * intros Ha. discriminate.
    + destruct (dispatch_returns_text _ _ _ _ Hd) as [t ->].
      exists (Server.textResult t).
      refine (conj eq_refl (conj (ex_intro _ _ eq_refl) (conj _ (conj _ (conj _ _))))).
      * intros a0 e0 Ha He. injection Ha as <-. rewrite Hd in He. discriminate.
      * intros a0 r0 Ha Hr. injection Ha as <-. rewrite Hd in Hr.
        injection Hr as <-. split; reflexivity.
      * intros a0 Ha Hn. injection Ha as <-.
        rewrite (dispatch_unknown_tool remote name a Hn) in Hd. discriminate.
      * intros Ha. discriminate.
  - exists (Server.errorResult "Error: No arguments provided").
    refine (conj eq_refl (conj (ex_intro _ _ eq_refl) (conj _ (conj _ (conj _ _)))));
      try (intros; discriminate).
    intros _. split; reflexivity.
Qed.

End Adapter.

(** ** The retry loop *)

Section RetryLoop.
Variable opts : AxiosRetry.Options.
Variable req : Request.
Variable wire : Wire.

Lemma attempt_fulfilled (left rc : nat) (t : Q) (body : value) :
  reply wire rc = Fulfilled body ->
  AxiosRetry.attempt opts req wire left rc t = ([Sent req], inr body).
Proof. intros Hr. destruct left; cbn; rewrite Hr; reflexivity. Qed.

Lemma attempt_not_retried (left rc : nat) (t : Q) (e : AxiosError) :
  rejection req (reply wire rc) = Some e ->
  AxiosRetry.retryCondition opts e = false ->
  AxiosRetry.attempt opts req wire left rc t = ([Sent req], inl (AxiosErr e)).
Proof.
  intros Hr Hc. destruct (reply wire rc) as [body | msg c resp] eqn:Hw;
    [discriminate |].
  cbn in Hr. injection Hr as <-.
  destruct left; cbn; rewrite Hw; [reflexivity |].
  rewrite Hc. reflexivity.
Qed.

Lemma requests_retried (delay : nat -> Q) (rc j : nat) :
  requests (AxiosRetry.retried req delay rc j) = repeat req (S j).
Proof.
  unfold AxiosRetry.retried. cbn. f_equal.
  revert rc. induction j as [| j IH]; intros rc; [reflexivity |].
  cbn. f_equal. apply IH.
Qed.

Lemma pauses_retried (delay : nat -> Q) (rc j : nat) :
  pauses (AxiosRetry.retried req delay rc j) = map delay (seq rc j).
Proof.
  unfold AxiosRetry.retried. cbn.
  revert rc. induction j as [| j IH]; intros rc; [reflexivity |].
  cbn. f_equal. apply IH.
Qed.

Lemma spent_succ (delay : nat -> Q) (rc m : nat) :
  AxiosRetry.spent delay wire rc (S m) =
  elapsed wire rc + delay rc + AxiosRetry.spent delay wire (S rc) m.
Proof. reflexivity. Qed.

(** A call begins by sending the request. *)
Lemma attempt_starts (left rc : nat) (t : Q) :
  exists rest, trace (AxiosRetry.attempt opts req wire left rc t) = Sent req :: rest.
Proof.
  destruct left; cbn [AxiosRetry.attempt];
    match goal with
    | |- context [bind (emit ?ev) (fun _ => ?c)] =>
        exists (trace c); destruct c as [t0 r0]; reflexivity
    end.
Qed.

(** The first failure of a call, when the retry condition accepts it, a retry
    is left and the timeout allows the pause: the pause, then the rest of the
    call. *)
Lemma attempt_retries (left rc : nat) (t : Q) (e : AxiosError) :
  rejection req (reply wire rc) = Some e ->
  AxiosRetry.retryCondition opts e = true ->
  t == 0 \/ 0 < t - elapsed wire rc - AxiosRetry.retryDelay opts (S rc) e (random wire rc) ->
  exists rest,
    trace (AxiosRetry.attempt opts req wire (S left) rc t) =
    Sent req :: Waited (AxiosRetry.retryDelay opts (S rc) e (random wire rc)) ::
    Sent req :: rest.
Proof.
  intros Hr Hc Ht. destruct (reply wire rc) as [b | msg c resp] eqn:Hw; [discriminate |].
  cbn in Hr. injection Hr as Hr.
  cbn [AxiosRetry.attempt]. rewrite Hw, Hr, Hc.
  destruct (Qeq_bool t 0) eqn:Hz.
  - destruct (attempt_starts left (S rc) t) as [rest Hrest].
    exists rest. destruct (AxiosRetry.attempt opts req wire left (S rc) t) as [t0 r0].
    cbn in *. subst t0. reflexivity.
  - destruct Ht as [Ht | Ht]; [apply Qeq_bool_iff in Ht; congruence |].
    match goal with |- context [Qle_bool ?x 0] => destruct (Qle_bool x 0) eqn:Hle end.
    { apply Qle_bool_iff in Hle. exfalso. apply (Qlt_not_le _ _ Ht). exact Hle. }
    match goal with
    | |- context [AxiosRetry.attempt opts req wire left (S rc) ?t'] =>
        destruct (attempt_starts left (S rc) t') as [rest Hrest];
        exists rest; destruct (AxiosRetry.attempt opts req wire left (S rc) t') as [t0 r0]
    end.
    cbn in *. subst t0. reflexivity.
Qed.

(** The first failure of a call, when no retry is left or the timeout does
    not allow the pause: the failure is thrown. *)
Lemma attempt_gives_up (left rc : nat) (t : Q) (e : AxiosError) :
  rejection req (reply wire rc) = Some e ->
  left = 0%nat \/
  (~ t == 0 /\
   t - elapsed wire rc - AxiosRetry.retryDelay opts (S rc) e (random wire rc) <= 0) ->
  AxiosRetry.attempt opts req wire left rc t = ([Sent req], inl (AxiosErr e)).
Proof.
  intros Hr Hwhy. destruct (reply wire rc) as [b | msg c resp] eqn:Hw; [discriminate |].
  cbn in Hr. injection Hr as Hr.
  destruct left as [| left]; cbn [AxiosRetry.attempt]; rewrite Hw, Hr; [reflexivity |].
  destruct Hwhy as [Hl | [Hz Hle]]; [discriminate |].
  destruct (AxiosRetry.retryCondition opts e); [| reflexivity].
  destruct (Qeq_bool t 0) eqn:Hq; [apply Qeq_bool_iff in Hq; contradiction |].
  apply Qle_bool_iff in Hle. rewrite Hle. reflexivity.
Qed.

(** At any point of a call: the failure of an attempt is followed by another
    request exactly when the retry condition accepts it, a retry is left and
    the timeout allows the pause. *)
Lemma attempt_retried_iff (left rc : nat) (t : Q) (e : AxiosError) :
  rejection req (reply wire rc) = Some e ->
  (2 <= length (requests (trace (AxiosRetry.attempt opts req wire left rc t))))%nat <->
  AxiosRetry.retryCondition opts e = true /\
  (0 < left)%nat /\
  (t == 0 \/
   0 < t - elapsed wire rc - AxiosRetry.retryDelay opts (S rc) e (random wire rc)).
Proof.
  intros Hr. split.
  - intros Hlen.
    destruct (AxiosRetry.retryCondition opts e) eqn:Hc.
    2: { rewrite (attempt_not_retried left rc t e Hr Hc) in Hlen. cbn in Hlen. lia. }
    split; [reflexivity |].
    destruct left as [| left].
    { rewrite (attempt_gives_up 0 rc t e Hr (or_introl eq_refl)) in Hlen.
      cbn in Hlen. lia. }
    split; [lia |].
    destruct (Qeq_bool t 0) eqn:Hz; [left; apply Qeq_bool_iff; exact Hz |].
    right. apply Qnot_le_lt. intros Hle.
    rewrite (attempt_gives_up (S left) rc t e Hr) in Hlen; [cbn in Hlen; lia |].
    right. split; [| exact Hle].
    intros Hq. apply Qeq_bool_iff in Hq. congruence.
  - intros [Hc [Hleft Ht]]. destruct left as [| left]; [lia |].
    destruct (attempt_retries left rc t e Hr Hc Ht) as [rest ->]. cbn. lia.
Qed.

(** When every attempt is rejected with a failure the retry condition accepts,
    the call is retried until the count is used up or the timeout
    bookkeeping gives up, and the failure of the last attempt is thrown.
    With a timeout, a retry goes ahead exactly while the attempts and pauses
    so far have taken less than the timeout. *)
Lemma attempt_all_retried (err : nat -> AxiosError) :
  (forall n, rejection req (reply wire n) = Some (err n)) ->
  (forall n, AxiosRetry.retryCondition opts (err n) = true) ->
  forall (left rc : nat) (t : Q),
  exists j : nat,
    (j <= left)%nat /\
    AxiosRetry.attempt opts req wire left rc t =
      (AxiosRetry.retried req
         (fun i => AxiosRetry.retryDelay opts (S i) (err i) (random wire i)) rc j,
       inl (AxiosErr (err (rc + j)%nat))) /\
    (t == 0 -> j = left) /\
    (~ t == 0 ->
     (forall m, (1 <= m <= j)%nat ->
        AxiosRetry.spent
          (fun i => AxiosRetry.retryDelay opts (S i) (err i) (random wire i)) wire rc m < t) /\
     ((j < left)%nat ->
        t <= AxiosRetry.spent
               (fun i => AxiosRetry.retryDelay opts (S i) (err i) (random wire i))
               wire rc (S j))).
Proof.
  intros Hrej Hcond. induction left as [| left IH]; intros rc t.
  - exists 0%nat. split; [lia |]. split; [| split; [reflexivity |]].
    + specialize (Hrej rc). destruct (reply wire rc) as [b | msg c resp] eqn:Hw;
        [discriminate |].
      cbn in Hrej. injection Hrej as Hrej. cbn. rewrite Hw, Hrej, Nat.add_0_r.
      reflexivity.
    + intros _. split; [intros m Hm; lia | intros Hlt; lia].
  - pose proof (Hrej rc) as Hr. pose proof (Hcond rc) as Hc.
    destruct (reply wire rc) as [b | msg c resp] eqn:Hw; [discriminate |].
    cbn in Hr. injection Hr as Hr.
    destruct (Qeq_bool t 0) eqn:Ht.
    + destruct (IH (S rc) t) as [j [Hj [Hrun [Hall _]]]].
      exists (S j). split; [lia |]. split; [| split].
      * cbn. rewrite Hw, Hr, Hc, Ht. cbn. rewrite Hrun. cbn.
        rewrite Nat.add_succ_r. reflexivity.
      * intros Ht0. rewrite (Hall Ht0). reflexivity.
      * intros Hn. apply Qeq_bool_iff in Ht. contradiction.
    + destruct (Qle_bool (t - elapsed wire rc -
                           AxiosRetry.retryDelay opts (S rc) (err rc) (random wire rc)) 0)
        eqn:Hb.
      * exists 0%nat. split; [lia |]. split; [| split].
        -- cbn. rewrite Hw, Hr, Hc, Ht, Hb, Nat.add_0_r. reflexivity.
        -- intros Ht0. apply Qeq_bool_neq in Ht. contradiction.
        -- intros _. split; [intros m Hm; lia |]. intros _.
           apply Qle_bool_iff in Hb. rewrite spent_succ.
           unfold AxiosRetry.spent. cbn [seq map fold_right]. lra.
      * assert (Hpos : 0 < t - elapsed wire rc -
                           AxiosRetry.retryDelay opts (S rc) (err rc) (random wire rc)).
        { apply Qnot_le_lt. intros Hle. apply Qle_bool_iff in Hle. congruence. }
        destruct (IH (S rc) (t - elapsed wire rc -
                             AxiosRetry.retryDelay opts (S rc) (err rc) (random wire rc)))
          as [j [Hj [Hrun [_ Hbook]]]].
        exists (S j). split; [lia |]. split; [| split].
        -- cbn. rewrite Hw, Hr, Hc, Ht, Hb. cbn. rewrite Hrun. cbn.
           rewrite Nat.add_succ_r. reflexivity.
        -- intros Ht0. apply Qeq_bool_neq in Ht. contradiction.
        -- intros _.
           assert (Hne : ~ t - elapsed wire rc -
                           AxiosRetry.retryDelay opts (S rc) (err rc) (random wire rc) == 0).
           { intros Heq. rewrite Heq in Hpos. apply (Qlt_irrefl 0). exact Hpos. }
           destruct (Hbook Hne) as [Hbelow Hstop]. split.
           ++ intros [| m] Hm; [lia |]. rewrite spent_succ.
              destruct m as [| m].
              ** unfold AxiosRetry.spent. cbn [seq map fold_right]. lra.
              ** specialize (Hbelow (S m) ltac:(lia)). lra.
           ++ intros Hlt. specialize (Hstop ltac:(lia)).
              rewrite spent_succ. lra.
Qed.

End RetryLoop.

(** ** The delay between attempts *)

Lemma exponentialDelay_plain (n : nat) (e : AxiosError) (r : Q) :
  AxiosRetry.retryAfterOf e == 0 ->
  AxiosRetry.exponentialDelay n e r == 100 * 2 ^ Z.of_nat n * (1 + (2 # 10) * r).
Proof.
  intros He. unfold AxiosRetry.exponentialDelay, AxiosRetry.delayFactor.
  assert (Hpos : 0 < 2 ^ Z.of_nat n) by (apply Qpower_0_lt; reflexivity).
  assert (Hmax : Qmax (2 ^ Z.of_nat n * 100) (AxiosRetry.retryAfterOf e)
                 == 2 ^ Z.of_nat n * 100).
  { apply Q.max_l. rewrite He. nra. }
  cbv zeta. rewrite Hmax. ring.
Qed.

Lemma pow2_succ (n : nat) : 2 ^ Z.of_nat (S n) == 2 * 2 ^ Z.of_nat n.
Proof.
  rewrite Nat2Z.inj_succ. unfold Z.succ. rewrite Qpower_plus by discriminate.
  ring.
Qed.

Lemma exponentialDelay_bounds (n : nat) (e : AxiosError) (r : Q) :
  AxiosRetry.retryAfterOf e == 0 -> 0 <= r -> r < 1 ->
  100 * 2 ^ Z.of_nat n <= AxiosRetry.exponentialDelay n e r /\
  AxiosRetry.exponentialDelay n e r < 120 * 2 ^ Z.of_nat n.
Proof.
  intros He H0 H1. rewrite (exponentialDelay_plain n e r He).
  assert (Hpos : 0 < 2 ^ Z.of_nat n) by (apply Qpower_0_lt; reflexivity).
  split; nra.
Qed.

(** A fifth of jitter never catches up with the doubling. *)
Lemma exponentialDelay_increasing (n : nat) (e1 e2 : AxiosError) (r1 r2 : Q) :
  AxiosRetry.retryAfterOf e1 == 0 -> AxiosRetry.retryAfterOf e2 == 0 ->
  r1 < 1 -> 0 <= r2 ->
  AxiosRetry.exponentialDelay n e1 r1 < AxiosRetry.exponentialDelay (S n) e2 r2.
Proof.
  intros He1 He2 H1 H2.
  rewrite (exponentialDelay_plain n e1 r1 He1), (exponentialDelay_plain (S n) e2 r2 He2).
  rewrite pow2_succ.
  assert (Hpos : 0 < 2 ^ Z.of_nat n) by (apply Qpower_0_lt; reflexivity).
  nra.
Qed.

Lemma sorted_map_seq (f : nat -> Q) :
  (forall i, f i < f (S i)) -> forall j a, Sorted Qlt (map f (seq a j)).
Proof.
  intros Hf. induction j as [| j IH]; intros a; cbn; [constructor |].
  constructor; [apply IH |].
  destruct j; cbn; constructor. apply Hf.
Qed.

(** ** The retry condition of the transport *)

Section Transport.
Context `{Platform}.

Lemma isNetworkError_iff (e : AxiosError) :
  AxiosRetry.isNetworkError e = true <->
  response e = None /\
  exists c, code e = Some c /\ c <> "" /\ c <> "ERR_CANCELED" /\
            c <> "ECONNABORTED" /\ isRetryAllowed (Some c) = true.
Proof.
  unfold AxiosRetry.isNetworkError.
  destruct (response e) as [r |]; [split; [discriminate | intros [? _]; discriminate] |].
  destruct (code e) as [c |];
    [| split; [discriminate | intros [_ [c [Hc _]]]; discriminate]].
  destruct (String.eqb_spec c "") as [-> | H0].
  { split; [discriminate |]. intros [_ [c [Hc [Hne _]]]]. injection Hc as <-. congruence. }
  destruct (String.eqb_spec c "ERR_CANCELED") as [-> | H1].
  { split; [discriminate |]. intros [_ [c [Hc [_ [Hne _]]]]]. injection Hc as <-. congruence. }
  destruct (String.eqb_spec c "ECONNABORTED") as [-> | H2].
  { split; [discriminate |]. intros [_ [c [Hc [_ [_ [Hne _]]]]]]. injection Hc as <-. congruence. }
  cbn. split.
  - intros Ha. split; [reflexivity |]. exists c. repeat split; assumption.
  - intros [_ [c' [Hc [_ [_ [_ Ha]]]]]]. injection Hc as <-. exact Ha.
Qed.

Lemma isRetryableError_iff (e : AxiosError) :
  AxiosRetry.isRetryableError e = true <->
  code e <> Some "ECONNABORTED" /\
  (response e = None \/
   exists r, response e = Some r /\ (500 <= status r <= 599)%Z).
Proof.
  unfold AxiosRetry.isRetryableError, AxiosRetry.codeIs.
  rewrite andb_true_iff, negb_true_iff.
  assert (Hcode : match code e with Some c' => c' =? "ECONNABORTED" | None => false end = false
                  <-> code e <> Some "ECONNABORTED").
  { destruct (code e) as [c |]; [| split; [discriminate | reflexivity]].
    destruct (String.eqb_spec c "ECONNABORTED") as [-> | Hc].
    - split; [discriminate | intros Hn; exfalso; apply Hn; reflexivity].
    - split; [intros _ Heq; injection Heq as ->; apply Hc; reflexivity | reflexivity]. }
  rewrite Hcode. apply and_iff_compat_l.
  destruct (response e) as [r |].
  - rewrite andb_true_iff, !Z.leb_le. split.
    + intros Hr. right. exists r. split; [reflexivity | exact Hr].
    + intros [Hn | [r' [Hr Hb]]]; [discriminate | injection Hr as <-; exact Hb].
  - split; [intros _; left; reflexivity | reflexivity].
Qed.

Lemma isIdempotentRequestError_iff (e : AxiosError) :
  AxiosRetry.isIdempotentRequestError e = true <->
  (exists m, method e = Some m /\ In m AxiosRetry.IDEMPOTENT_HTTP_METHODS) /\
  code e <> Some "ECONNABORTED" /\
  (response e = None \/
   exists r, response e = Some r /\ (500 <= status r <= 599)%Z).
Proof.
  unfold AxiosRetry.isIdempotentRequestError.
  destruct (method e) as [m |];
    [| split; [discriminate | intros [[m [Hm _]] _]; discriminate]].
  assert (Hin : existsb (String.eqb m) AxiosRetry.IDEMPOTENT_HTTP_METHODS = true
                <-> In m AxiosRetry.IDEMPOTENT_HTTP_METHODS).
  { rewrite existsb_exists. split.
    - intros [x [Hx Heq]]. apply String.eqb_eq in Heq. subst x. exact Hx.
    - intros Hm. exists m. split; [exact Hm | apply String.eqb_refl]. }
  destruct (String.eqb_spec m "") as [-> | Hne].
  - split; [discriminate |]. intros [[m [Hm Hi]] _]. injection Hm as <-.
    cbn in Hi. repeat destruct Hi as [Hi | Hi]; try discriminate; contradiction.
  - rewrite andb_true_iff, isRetryableError_iff, Hin. split.
    + intros [Hr Hm]. split; [exists m; split; [reflexivity | exact Hm] | exact Hr].
    + intros [[m' [Hm Hi]] Hr]. injection Hm as <-. split; assumption.
Qed.

Lemma statusIs_iff (e : AxiosError) (n : Z) :
  HttpTransport.statusIs e n = true <-> exists r, response e = Some r /\ status r = n.
Proof.
  unfold HttpTransport.statusIs. destruct (response e) as [r |].
  - rewrite Z.eqb_eq. split.
    + intros Hs. exists r. split; [reflexivity | exact Hs].
    + intros [r' [Hr Hs]]. injection Hr as <-. exact Hs.
  - split; [discriminate | intros [r [Hr _]]; discriminate].
Qed.

Lemma retryCondition_429 (e : AxiosError) :
  HttpTransport.statusIs e 429 = true -> HttpTransport.retryCondition e = true.
Proof.
  intros Hs. unfold HttpTransport.retryCondition. rewrite Hs.
  rewrite orb_true_r. reflexivity.
Qed.

(** A response with a status that neither the library's predicate nor the two
    added statuses accept. *)
Lemma retryCondition_refuses (req : Request) (msg : string) (c : option string)
    (r : AxiosResponse) :
  status r <> 429%Z -> status r <> 503%Z ->
  (status r < 500)%Z \/ (599 < status r)%Z \/
    ~ In (req_method req) AxiosRetry.IDEMPOTENT_HTTP_METHODS ->
  HttpTransport.retryCondition (toError req msg c (Some r)) = false.
Proof.
  intros H429 H503 Hwhy.
  destruct (HttpTransport.retryCondition (toError req msg c (Some r))) eqn:Hc;
    [exfalso | reflexivity].
  unfold HttpTransport.retryCondition, AxiosRetry.isNetworkOrIdempotentRequestError in Hc.
  rewrite !orb_true_iff in Hc. destruct Hc as [[[Hn | Hi] | Hs] | Hs].
  - apply isNetworkError_iff in Hn. destruct Hn as [Hn _]. discriminate.
  - apply isIdempotentRequestError_iff in Hi.
    destruct Hi as [[m [Hm Hin]] [_ [Hr | [r' [Hr Hb]]]]]; [discriminate |].
    cbn in Hm, Hr. injection Hm as <-. injection Hr as <-.
    destruct Hwhy as [Hlo | [Hhi | Hm]]; [lia | lia | contradiction].
  - apply statusIs_iff in Hs. destruct Hs as [r' [Hr Hs]]. cbn in Hr.
    injection Hr as <-. contradiction.
  - apply statusIs_iff in Hs. destruct Hs as [r' [Hr Hs]]. cbn in Hr.
    injection Hr as <-. contradiction.
Qed.

End Transport.

(** ** Claims about the transport *)

Section TransportClaims.
Context `{Platform}.

(** C1, as amended. The retry condition accepts a failure exactly when
    - it has no response and carries an error code other than [ERR_CANCELED]
      and [ECONNABORTED] that [is-retry-allowed] lets through, whatever the
      request method; or
    - the request method is one of get, head, options, put, delete, the error
      code is not [ECONNABORTED], and there is no response or a 5xx one; or
    - the response status is 429 or 503.
    A request whose first attempt fails is sent a second time exactly when
    the condition accepts the failure, the retry count is positive and the
    timeout allows the pause; otherwise it is sent once and that failure is
    thrown.  The same holds at every later attempt, of the retries that are
    left and what remains of the timeout.  So it is for a response with any other status below 500 or above
    599 (400 among them), on a method outside that list (post) for any status
    other than 429 and 503, for a timeout ([ECONNABORTED]) on any method, and
    for a cancellation on a method outside the list. *)
Theorem retry_policy :
  (forall e : AxiosError,
      HttpTransport.retryCondition e = true <->
      (response e = None /\
       exists c, code e = Some c /\ c <> "" /\ c <> "ERR_CANCELED" /\
                 c <> "ECONNABORTED" /\ isRetryAllowed (Some c) = true) \/
      ((exists m, method e = Some m /\ In m AxiosRetry.IDEMPOTENT_HTTP_METHODS) /\
       code e <> Some "ECONNABORTED" /\
       (response e = None \/
        exists r, response e = Some r /\ (500 <= status r <= 599)%Z)) \/
      (exists r, response e = Some r /\ (status r = 429%Z \/ status r = 503%Z))) /\
  (forall (serverUrl apiKey : string) (timeout retries : option Z)
          (remote : Remote) (req : Request)
          (msg : string) (c : option string) (resp : option AxiosResponse),
      let this := HttpTransport.constructor serverUrl apiKey timeout retries in
      let run := HttpTransport.send this remote req in
      let e := toError req msg c resp in
      let pause := AxiosRetry.exponentialDelay 1 e (random (remote req) 0) in
      let left := inject_Z (HttpTransport.timeout this) - elapsed (remote req) 0 - pause in
      reply (remote req) 0 = Rejected msg c resp ->
      (HttpTransport.retryCondition e = false ->
       run = ([Sent req], inl (AxiosErr e))) /\
      (HttpTransport.retryCondition e = true ->
       (0 < AxiosRetry.retries (HttpTransport.retry this))%Z ->
       HttpTransport.timeout this = 0%Z \/ 0 < left ->
       exists rest, trace run = Sent req :: Waited pause :: Sent req :: rest) /\
      ((2 <= length (requests (trace run)))%nat <->
       HttpTransport.retryCondition e = true /\
       (0 < AxiosRetry.retries (HttpTransport.retry this))%Z /\
       (HttpTransport.timeout this = 0%Z \/ 0 < left)) /\
      (forall r,
          resp = Some r -> status r <> 429%Z -> status r <> 503%Z ->
          (status r < 500)%Z \/ (599 < status r)%Z \/
            ~ In (req_method req) AxiosRetry.IDEMPOTENT_HTTP_METHODS ->
          run = ([Sent req], inl (AxiosErr e))) /\
      (resp = None -> c = Some "ECONNABORTED" ->
       run = ([Sent req], inl (AxiosErr e))) /\
      (resp = None -> c = Some "ERR_CANCELED" ->
       ~ In (req_method req) AxiosRetry.IDEMPOTENT_HTTP_METHODS ->
       run = ([Sent req], inl (AxiosErr e)))) /\
  (forall (serverUrl apiKey : string) (timeout retries : option Z)
          (wire : Wire) (req : Request) (left retryCount : nat) (remaining : Q)
          (msg : string) (c : option string) (resp : option AxiosResponse),
      let opts := HttpTransport.retry
                    (HttpTransport.constructor serverUrl apiKey timeout retries) in
      let e := toError req msg c resp in
      let pause := AxiosRetry.exponentialDelay (S retryCount) e (random wire retryCount) in
      reply wire retryCount = Rejected msg c resp ->
      ((2 <= length (requests (trace (AxiosRetry.attempt opts req wire left retryCount
                                        remaining))))%nat <->
       HttpTransport.retryCondition e = true /\
       (0 < left)%nat /\
       (remaining == 0 \/ 0 < remaining - elapsed wire retryCount - pause))).
Proof.
  assert (Hiff : forall e : AxiosError,
      HttpTransport.retryCondition e = true <->
      (response e = None /\
       exists c, code e = Some c /\ c <> "" /\ c <> "ERR_CANCELED" /\
                 c <> "ECONNABORTED" /\ isRetryAllowed (Some c) = true) \/
      ((exists m, method e = Some m /\ In m AxiosRetry.IDEMPOTENT_HTTP_METHODS) /\
       code e <> Some "ECONNABORTED" /\
       (response e = None \/
        exists r, response e = Some r /\ (500 <= status r <= 599)%Z)) \/
      (exists r, response e = Some r /\ (status r = 429%Z \/ status r = 503%Z))).
  { intros e. unfold HttpTransport.retryCondition,
      AxiosRetry.isNetworkOrIdempotentRequestError.
    rewrite !orb_true_iff, isNetworkError_iff, isIdempotentRequestError_iff,
      !statusIs_iff.
    split.
    + intros [[[Hn | Hi] | [r [Hr Hs]]] | [r [Hr Hs]]].
      * left. exact Hn.
      * right. left. exact Hi.
      * right. right. exists r. split; [exact Hr | left; exact Hs].
      * right. right. exists r. split; [exact Hr | right; exact Hs].
    + intros [Hn | [Hi | [r [Hr [Hs | Hs]]]]].
      * left. left. left. exact Hn.
      * left. left. right. exact Hi.
      * left. right. exists r. split; assumption.
      * right. exists r. split; assumption. }
  split; [exact Hiff |].
  split.
  2: { intros serverUrl apiKey timeout retries wire req left rc t msg c resp opts e pause Hw.
       apply (attempt_retried_iff opts req wire left rc t e).
       rewrite Hw. reflexivity. }
  intros serverUrl apiKey timeout retries remote req msg c resp this run e pause left Hw.
  assert (Hrej : rejection req (reply (remote req) 0) = Some e)
    by (rewrite Hw; reflexivity).
  assert (Honce : HttpTransport.retryCondition e = false ->
                  run = ([Sent req], inl (AxiosErr e))).
  { intros Hc. unfold run, HttpTransport.send, AxiosRetry.request.
    apply attempt_not_retried; [exact Hrej | exact Hc]. }
  assert (Hzero : HttpTransport.timeout this = 0%Z <->
                  inject_Z (HttpTransport.timeout this) == 0).
  { unfold Qeq, inject_Z. cbn. lia. }
  assert (Hagain : HttpTransport.retryCondition e = true ->
                   (0 < AxiosRetry.retries (HttpTransport.retry this))%Z ->
                   HttpTransport.timeout this = 0%Z \/ 0 < left ->
                   exists rest, trace run = Sent req :: Waited pause :: Sent req :: rest).
  { intros Hc Hcount Ht. unfold run, HttpTransport.send, AxiosRetry.request.
    destruct (Z.to_nat (AxiosRetry.retries (HttpTransport.retry this))) as [| n] eqn:Hn;
      [lia |].
    apply (attempt_retries (HttpTransport.retry this) req (remote req) n 0
             (inject_Z (HttpTransport.timeout this)) e Hrej Hc).
    destruct Ht as [Ht | Ht]; [left; apply Hzero; exact Ht | right; exact Ht]. }
  split; [exact Honce |]. split; [exact Hagain |]. split; [| split; [| split]].
  - split.
    + intros Hlen.
      destruct (HttpTransport.retryCondition e) eqn:Hc;
        [| rewrite (Honce eq_refl) in Hlen; cbn in Hlen; lia].
      split; [reflexivity |].
      destruct (Z.to_nat (AxiosRetry.retries (HttpTransport.retry this))) as [| n] eqn:Hn.
      { exfalso. unfold run, HttpTransport.send, AxiosRetry.request in Hlen.
        rewrite Hn in Hlen.
        rewrite (attempt_gives_up (HttpTransport.retry this) req (remote req) 0 0 _ e
                   Hrej (or_introl eq_refl)) in Hlen.
        cbn in Hlen. lia. }
      split; [lia |].
      destruct (Z.eq_dec (HttpTransport.timeout this) 0) as [Hz | Hz]; [left; exact Hz |].
      right. apply Qnot_le_lt. intros Hle.
      unfold run, HttpTransport.send, AxiosRetry.request in Hlen.
      rewrite (attempt_gives_up (HttpTransport.retry this) req (remote req) _ 0 _ e Hrej)
        in Hlen; [cbn in Hlen; lia |].
      right. split; [intros Hq; apply Hz; apply Hzero; exact Hq | exact Hle].
    + intros [Hc [Hcount Ht]]. destruct (Hagain Hc Hcount Ht) as [rest ->].
      cbn. lia.
  - intros r -> H429 H503 Hwhy. apply Honce.
    apply retryCondition_refuses; assumption.
  - intros -> ->. apply Honce.
    destruct (HttpTransport.retryCondition e) eqn:Hc; [exfalso | reflexivity].
    apply Hiff in Hc. cbn in Hc.
    destruct Hc as [[_ [c' [Hc [_ [_ [Hne _]]]]]] | [[_ [Hne _]] | [r [Hr _]]]].
    + injection Hc as <-. apply Hne. reflexivity.
    + apply Hne. reflexivity.
    + discriminate.
  - intros -> -> Hm. apply Honce.
    destruct (HttpTransport.retryCondition e) eqn:Hc; [exfalso | reflexivity].
    apply Hiff in Hc. cbn in Hc.
    destruct Hc as [[_ [c' [Hc [_ [Hne _]]]]] | [[[m [Hme Hin]] _] | [r [Hr _]]]].
    + injection Hc as <-. apply Hne. reflexivity.
    + injection Hme as <-. contradiction.
    + discriminate.
Qed.

(** C4, as amended. When every response is a 429 without a [Retry-After]
    header, the call makes [j] retries, at most [retries]: all of them when
    no timeout is configured (0), and with a timeout as many as it affords,
    a retry going ahead exactly while the attempts and pauses so far have
    taken less than the timeout.  The pause before retry [i+1] is
    [100 * 2^(i+1)] ms plus a random share of up to a fifth of that, so it
    lies in [[100 * 2^(i+1), 120 * 2^(i+1))] and the pauses increase
    strictly.  A pause is never shortened to fit the timeout: every pause is
    the whole delay, and a retry whose pause would use up the timeout is
    given up.  In the end the failure of the last attempt is what the caller
    gets. *)
Theorem rate_limited_request_backs_off
    (serverUrl apiKey : string) (timeout retries : option Z)
    (remote : Remote) (req : Request) (err : nat -> AxiosError) :
  let this := HttpTransport.constructor serverUrl apiKey timeout retries in
  let run := HttpTransport.send this remote req in
  let count := Z.to_nat (AxiosRetry.retries (HttpTransport.retry this)) in
  let delay := fun i => AxiosRetry.exponentialDelay (S i) (err i) (random (remote req) i) in
  let taken := AxiosRetry.spent delay (remote req) 0 in
  (forall n, rejection req (reply (remote req) n) = Some (err n)) ->
  (forall n, HttpTransport.statusIs (err n) 429 = true) ->
  (forall n, AxiosRetry.retryAfterOf (err n) == 0) ->
  (forall n, 0 <= random (remote req) n /\ random (remote req) n < 1) ->
  exists j : nat,
    (j <= count)%nat /\
    (HttpTransport.timeout this = 0%Z -> j = count) /\
    (HttpTransport.timeout this <> 0%Z ->
     (forall m, (1 <= m <= j)%nat -> taken m < inject_Z (HttpTransport.timeout this)) /\
     ((j < count)%nat -> inject_Z (HttpTransport.timeout this) <= taken (S j))) /\
    trace run = AxiosRetry.retried req delay 0 j /\
    requests (trace run) = repeat req (S j) /\
    pauses (trace run) = map delay (seq 0 j) /\
    (forall i, 100 * 2 ^ Z.of_nat (S i) <= delay i /\
               delay i < 120 * 2 ^ Z.of_nat (S i)) /\
    Sorted Qlt (pauses (trace run)) /\
    outcome run = inl (AxiosErr (err j)).
Proof.
  intros this run count delay taken Hrej H429 Hafter Hrnd.
  destruct (attempt_all_retried (HttpTransport.retry this) req (remote req) err Hrej
              (fun n => retryCondition_429 (err n) (H429 n))
              count 0%nat (inject_Z (HttpTransport.timeout this)))
    as [j [Hj [Hrun [Hall Hbook]]]].
  assert (Hzero : HttpTransport.timeout this = 0%Z <->
                  inject_Z (HttpTransport.timeout this) == 0).
  { unfold Qeq, inject_Z. cbn. lia. }
  assert (Htrace : trace run = AxiosRetry.retried req delay 0 j).
  { unfold run, HttpTransport.send, AxiosRetry.request. fold count.
    rewrite Hrun. reflexivity. }
  exists j. split; [exact Hj |]. split.
  { intros Ht. apply Hall. apply Hzero. exact Ht. }
  split.
  { intros Ht. apply Hbook. intros Hq. apply Ht. apply Hzero. exact Hq. }
  split; [exact Htrace |].
  split; [rewrite Htrace; apply requests_retried |].
  split; [rewrite Htrace; apply pauses_retried |].
  split.
  { intros i. apply exponentialDelay_bounds; [apply Hafter | apply Hrnd | apply Hrnd]. }
  split.
  { rewrite Htrace, pauses_retried. apply sorted_map_seq. intros i.
    apply exponentialDelay_increasing; try apply Hafter; apply Hrnd. }
  unfold run, HttpTransport.send, AxiosRetry.request. fold count.
  rewrite Hrun. reflexivity.
Qed.

End TransportClaims.

(** ** The client facade *)

Section Facade.
Context `{Platform}.

Lemma emit_then (A : Type) (ev : Event) (c : M A) :
  (emit ev ;; c) = (ev :: trace c, outcome c).
Proof. destruct c as [t r]. reflexivity. Qed.

Lemma requests_app (t1 t2 : list Event) :
  requests (t1 ++ t2) = requests t1 ++ requests t2.
Proof. unfold requests. apply flat_map_app. Qed.

(** Whatever the remote does, a call sends the same request between one and
    [left + 1] times. *)
Lemma attempt_requests (opts : AxiosRetry.Options) (req : Request) (wire : Wire) :
  forall (left rc : nat) (t : Q),
  exists j : nat,
    (j <= left)%nat /\
    requests (trace (AxiosRetry.attempt opts req wire left rc t)) = repeat req (S j).
Proof.
  assert (Hstep : forall (d : Q) (c : M value) (j : nat),
             requests (trace c) = repeat req (S j) ->
             requests (Sent req :: trace (emit (Waited d) ;; c)) = repeat req (S (S j))).
  { intros d c j Hc. rewrite emit_then. cbn [trace fst].
    change (requests (Sent req :: Waited d :: trace c))
      with (req :: requests (trace c)).
    rewrite Hc. reflexivity. }
  induction left as [| left IH]; intros rc t.
  - exists 0%nat. split; [lia |]. cbn.
    destruct (reply wire rc); reflexivity.
  - cbn [AxiosRetry.attempt]. rewrite emit_then. cbn [trace fst].
    destruct (reply wire rc) as [b | msg c resp].
    { exists 0%nat. split; [lia | reflexivity]. }
    destruct (AxiosRetry.retryCondition opts (toError req msg c resp)).
    2: { exists 0%nat. split; [lia | reflexivity]. }
    destruct (Qeq_bool t 0).
    + destruct (IH (S rc) t) as [j [Hj Hreq]].
      exists (S j). split; [lia |]. apply Hstep. exact Hreq.
    + match goal with |- context [Qle_bool ?x 0] => destruct (Qle_bool x 0) end.
      { exists 0%nat. split; [lia | reflexivity]. }
      match goal with
      | |- context [AxiosRetry.attempt opts req wire left (S rc) ?t'] =>
          destruct (IH (S rc) t') as [j [Hj Hreq]]
      end.
      exists (S j). split; [lia |]. apply Hstep. exact Hreq.
Qed.

Lemma send_requests (this : HttpTransport.HttpTransport) (remote : Remote) (req : Request) :
  exists j : nat,
    requests (trace (HttpTransport.send this remote req)) = repeat req (S j).
Proof.
  unfold HttpTransport.send, AxiosRetry.request.
  destruct (attempt_requests (HttpTransport.retry this) req (remote req)
              (Z.to_nat (AxiosRetry.retries (HttpTransport.retry this))) 0%nat
              (inject_Z (HttpTransport.timeout this))) as [j [_ Hj]].
  exists j. exact Hj.
Qed.

Lemma send_fulfilled (this : HttpTransport.HttpTransport) (remote : Remote)
    (req : Request) (body : value) :
  reply (remote req) 0 = Fulfilled body ->
  HttpTransport.send this remote req = ([Sent req], inr body).
Proof. intros Hr. apply attempt_fulfilled. exact Hr. Qed.

(** Debug logging changes neither what a call returns nor what it sends. *)
Lemma debugLog_then (A : Type) (this : OptimizationClient.OptimizationClient)
    (label : string) (payload : option value) (c : M A) :
  outcome (OptimizationClient.debugLog this label payload ;; c) = outcome c /\
  requests (trace (OptimizationClient.debugLog this label payload ;; c)) =
    requests (trace c).
Proof.
  unfold OptimizationClient.debugLog.
  destruct (OptimizationClient.cfg_debug (OptimizationClient.config this)) as [[|] |];
    destruct c as [t r]; split; reflexivity.
Qed.

(** A solve operation is the transport's [post] on its own path, with the
    problem as the body. *)
Lemma solve_operation (op : OptimizationClient.OptimizationClient -> Remote -> value -> M value)
    (path : string) (this : OptimizationClient.OptimizationClient)
    (remote : Remote) (problem : value) :
  In (op, path) OptimizationClient.solveOperations ->
  outcome (op this remote problem) =
    outcome (HttpTransport.post (OptimizationClient.transport this) remote path problem) /\
  requests (trace (op this remote problem)) =
    requests (trace (HttpTransport.post (OptimizationClient.transport this) remote path problem)).
Proof.
  intros Hin. cbn in Hin.
  destruct Hin as [Heq | [Heq | [Heq | []]]]; injection Heq as <- <-;
    apply debugLog_then.
Qed.

(** C8. Each solve operation returns what the transport returns and throws
    what the transport throws, nothing added, dropped or wrapped.  So a
    payload the remote answers with is the value the caller gets, and a
    failure of the transport reaches the caller as the same error. *)
Theorem solve_returns_payload_unchanged
    (op : OptimizationClient.OptimizationClient -> Remote -> value -> M value)
    (path : string) (this : OptimizationClient.OptimizationClient)
    (remote : Remote) (problem : value) :
  In (op, path) OptimizationClient.solveOperations ->
  outcome (op this remote problem) =
    outcome (HttpTransport.post (OptimizationClient.transport this) remote path problem) /\
  (forall payload : value,
      reply (remote (HttpTransport.postRequest (OptimizationClient.transport this)
                       path problem)) 0 = Fulfilled payload ->
      outcome (op this remote problem) = inr payload) /\
  (forall e : Thrown,
      outcome (HttpTransport.post (OptimizationClient.transport this) remote path problem)
        = inl e ->
      outcome (op this remote problem) = inl e).
Proof.
  intros Hin. destruct (solve_operation op path this remote problem Hin) as [Hout _].
  split; [exact Hout |]. split.
  - intros payload Hr. rewrite Hout. unfold HttpTransport.post.
    rewrite (send_fulfilled _ _ _ payload Hr). reflexivity.
  - intros e He. rewrite Hout. exact He.
Qed.

(** C5, as amended. [listReports(limit)] asks for [/api/reports?limit=<limit>]
    (50 when no limit is given) and returns the [reports] property of the
    envelope as it came: the same elements in the same order, and as many as
    the remote chose to send.  The client does not cut the list down to
    [limit]. *)
Theorem listReports_unwraps_envelope
    (this : OptimizationClient.OptimizationClient) (remote : Remote)
    (limit : option float) (props : list (string * value)) :
  let path := "/api/reports?limit=" +++
              NumberToString (match limit with Some n => n | None => 50%float end) in
  let req := HttpTransport.getRequest (OptimizationClient.transport this) path in
  reply (remote req) 0 = Fulfilled (VObj props) ->
  outcome (OptimizationClient.listReports this remote limit) = inr (lookup "reports" props) /\
  requests (trace (OptimizationClient.listReports this remote limit)) = [req].
Proof.
  intros path req Hr. unfold OptimizationClient.listReports.
  fold path.
  match goal with
  | |- outcome (?d ;; ?c) = _ /\ _ => destruct (debugLog_then _ this "[OptimizationClient] Listing reports" None c) as [Ho Ht]
  end.
  rewrite Ho, Ht. unfold HttpTransport.get. fold req.
  rewrite (send_fulfilled _ _ _ _ Hr). split; reflexivity.
Qed.

(** C9. The constructor fills an omitted [timeout], [retries] or [debug] with
    30000, 3 and false; a property the caller wrote keeps the caller's value.
    The transport is built once, from the url, the key, and the timeout and
    retry count of that configuration.  (A client is a value: no operation of
    the facade returns a changed one.) *)
Theorem constructor_fills_defaults (c : OptimizationClient.OptimizationClientConfig) :
  let this := OptimizationClient.constructor c in
  let config := OptimizationClient.config this in
  (OptimizationClient.timeout c = OptimizationClient.Omitted ->
   OptimizationClient.cfg_timeout config = Some 30000%Z) /\
  (OptimizationClient.retries c = OptimizationClient.Omitted ->
   OptimizationClient.cfg_retries config = Some 3%Z) /\
  (OptimizationClient.debug c = OptimizationClient.Omitted ->
   OptimizationClient.cfg_debug config = Some false) /\
  (forall v, OptimizationClient.timeout c = OptimizationClient.Given v ->
             OptimizationClient.cfg_timeout config = v) /\
  (forall v, OptimizationClient.retries c = OptimizationClient.Given v ->
             OptimizationClient.cfg_retries config = v) /\
  (forall v, OptimizationClient.debug c = OptimizationClient.Given v ->
             OptimizationClient.cfg_debug config = v) /\
  OptimizationClient.cfg_serverUrl config = OptimizationClient.serverUrl c /\
  OptimizationClient.cfg_apiKey config = OptimizationClient.apiKey c /\
  OptimizationClient.transport this =
    HttpTransport.constructor (OptimizationClient.serverUrl c) (OptimizationClient.apiKey c)
      (OptimizationClient.cfg_timeout config) (OptimizationClient.cfg_retries config).
Proof.
  cbn. repeat split; try (intros Hc; rewrite Hc; reflexivity);
    intros v Hc; rewrite Hc; reflexivity.
Qed.

End Facade.

(** ** What the adapter sends *)

Section AdapterRequests.
Context `{Platform}.
Variables url key : option string.

Lemma trace_bind_pure (A B : Type) (c : M A) (k : A -> M B) :
  (forall a, trace (k a) = []) -> trace (bind c k) = trace c.
Proof.
  intros Hk. rewrite trace_bind. destruct (outcome c) as [e | a]; [reflexivity |].
  rewrite Hk. apply app_nil_r.
Qed.

Lemma trace_catch_pure (A : Type) (c : M A) (h : Thrown -> M A) :
  (forall e, trace (h e) = []) -> trace (catch c h) = trace c.
Proof.
  intros Hh. destruct c as [t [e | a]]; cbn; [| reflexivity].
  specialize (Hh e). destruct (h e) as [t' r]. cbn in *. subst t'.
  apply app_nil_r.
Qed.

Lemma trace_lift_ret (A B : Type) (c : Exc A) (f : A -> B) :
  trace (a <- lift c ;; ret (f a)) = [].
Proof. destruct c; reflexivity. Qed.

(** A solve tool posts the problem built from its arguments to the path of
    its facade operation, and sends nothing else. *)
Lemma solve_tool_requests (remote : Remote) (args : list (string * value))
    (name path : string) (problem : value) :
  In (name, path, problem) (Server.solveTools args) ->
  exists j : nat,
    requests (trace (Server.CallToolRequestHandler url key remote name (Some args))) =
    repeat (HttpTransport.postRequest
              (OptimizationClient.transport (Server.client url key)) path problem) (S j).
Proof.
  intros Hin. cbn in Hin.
  destruct Hin as [Heq | [Heq | [Heq | []]]]; injection Heq as <- <- <-;
    unfold Server.CallToolRequestHandler, Server.dispatch; literal_tests;
    (rewrite trace_catch_pure by reflexivity);
    (rewrite trace_bind_pure by (intros; apply trace_lift_ret)).
  - rewrite (proj2 (solve_operation OptimizationClient.solveLp "/api/solve/lp" _ _ _
                      (or_introl eq_refl))).
    apply send_requests.
  - rewrite (proj2 (solve_operation OptimizationClient.solveMip "/api/solve/mip" _ _ _
                      (or_intror (or_introl eq_refl)))).
    apply send_requests.
  - rewrite (proj2 (solve_operation OptimizationClient.solveTsp "/api/solve/tsp" _ _ _
                      (or_intror (or_intror (or_introl eq_refl))))).
    apply send_requests.
Qed.

Lemma isNotFalse_iff (v : value) : isNotFalse v = true <-> v <> VBool false.
Proof.
  destruct v as [| | [|] | | | |]; cbn; split; congruence.
Qed.

Lemma solve_tool_flag (args : list (string * value)) (name path : string)
    (problem : value) :
  In (name, path, problem) (Server.solveTools args) ->
  field problem "generate_report" = VBool (isNotFalse (lookup "generate_report" args)).
Proof.
  intros Hin. cbn in Hin.
  destruct Hin as [Heq | [Heq | [Heq | []]]]; injection Heq as <- <- <-; reflexivity.
Qed.

(** C10. For each of the three solve tools the problem posted has
    [generate_report] true exactly when the argument is not the boolean
    [false]: so when the argument is missing, and when it is no boolean at
    all. *)
Theorem generate_report_unless_false (remote : Remote) (args : list (string * value))
    (name path : string) (problem : value) :
  In (name, path, problem) (Server.solveTools args) ->
  (exists j : nat,
      requests (trace (Server.CallToolRequestHandler url key remote name (Some args))) =
      repeat (HttpTransport.postRequest
                (OptimizationClient.transport (Server.client url key)) path problem) (S j)) /\
  (exists b : bool,
      field problem "generate_report" = VBool b /\
      (b = true <-> lookup "generate_report" args <> VBool false)) /\
  (lookup "generate_report" args = VUndefined ->
   field problem "generate_report" = VBool true) /\
  ((forall b, lookup "generate_report" args <> VBool b) ->
   field problem "generate_report" = VBool true).
Proof.
  intros Hin. split; [apply solve_tool_requests; exact Hin |].
  rewrite (solve_tool_flag args name path problem Hin).
  split; [eexists; split; [reflexivity | apply isNotFalse_iff] |].
  split.
  - intros ->. reflexivity.
  - intros Hnb. f_equal. apply isNotFalse_iff. apply Hnb.
Qed.

(** C3, as amended. The facade sends the problem exactly as it receives it,
    with nothing defaulted or checked, to the fixed path of the operation,
    and returns the remote's payload as it is.  The defaults are the
    adapter's: for [solve_lp] and [solve_mip] it builds the problem from the
    arguments with [constraints] replaced by the empty list when missing (or
    otherwise falsy) and [generate_report] set unless the argument is
    [false]; for [solve_tsp] it sets [generate_report] the same way.  That
    built problem is what the tool posts. *)
Theorem defaults_are_filled_by_the_adapter :
  (forall (op : OptimizationClient.OptimizationClient -> Remote -> value -> M value)
          (path : string) (this : OptimizationClient.OptimizationClient)
          (remote : Remote) (problem : value),
      In (op, path) OptimizationClient.solveOperations ->
      (exists j : nat,
          requests (trace (op this remote problem)) =
          repeat (HttpTransport.postRequest (OptimizationClient.transport this)
                    path problem) (S j)) /\
      (forall payload : value,
          reply (remote (HttpTransport.postRequest (OptimizationClient.transport this)
                           path problem)) 0 = Fulfilled payload ->
          outcome (op this remote problem) = inr payload)) /\
  (forall (remote : Remote) (args : list (string * value))
          (name path : string) (problem : value),
      In (name, path, problem) (Server.solveTools args) ->
      exists j : nat,
        requests (trace (Server.CallToolRequestHandler url key remote name (Some args))) =
        repeat (HttpTransport.postRequest
                  (OptimizationClient.transport (Server.client url key)) path problem)
               (S j)) /\
  (forall args : list (string * value),
      field (Server.lpProblem args) "variables" = lookup "variables" args /\
      field (Server.lpProblem args) "objective" = lookup "objective" args /\
      field (Server.lpProblem args) "constraints" =
        or (lookup "constraints" args) (VArr []) /\
      (lookup "constraints" args = VUndefined ->
       field (Server.lpProblem args) "constraints" = VArr []) /\
      (forall cs, lookup "constraints" args = VArr cs ->
                  field (Server.lpProblem args) "constraints" = VArr cs) /\
      field (Server.lpProblem args) "generate_report" =
        VBool (isNotFalse (lookup "generate_report" args)) /\
      field (Server.tspProblem args) "locations" = lookup "locations" args /\
      field (Server.tspProblem args) "start_location" = lookup "start_location" args /\
      field (Server.tspProblem args) "generate_report" =
        VBool (isNotFalse (lookup "generate_report" args))).
Proof.
  split; [| split].
  - intros op path this remote problem Hin. split.
    + rewrite (proj2 (solve_operation op path this remote problem Hin)).
      apply send_requests.
    + intros payload Hr.
      rewrite (proj1 (solve_operation op path this remote problem Hin)).
      unfold HttpTransport.post. rewrite (send_fulfilled _ _ _ payload Hr).
      reflexivity.
  - intros remote args name path problem Hin.
    apply solve_tool_requests. exact Hin.
  - intros args. cbn.
    repeat split; try reflexivity.
    + intros ->. reflexivity.
    + intros cs ->. reflexivity.
Qed.

End AdapterRequests.

(** ** Formatting *)

Lemma length_string_of_list (l : list ascii) :
  String.length (string_of_list_ascii l) = length l.
Proof. induction l as [| c l IH]; cbn; [reflexivity | f_equal; exact IH]. Qed.

Lemma append_assoc (a b c : string) : (a +++ b) +++ c = a +++ (b +++ c).
Proof. induction a as [| x a IH]; cbn; [reflexivity | f_equal; exact IH]. Qed.

(** *** The lines of a joined text *)

Lemma textLines_cons (s : string) : exists l ls, Server.textLines s = l :: ls.
Proof.
  induction s as [| c s [l [ls IH]]]; [eexists; eexists; reflexivity |].
  cbn [Server.textLines]. destruct (Ascii.eqb c (ascii_of_nat 10)).
  - eexists; eexists; reflexivity.
  - rewrite IH. eexists; eexists; reflexivity.
Qed.

Lemma textLines_oneLine (l : string) :
  Server.oneLine l = true -> Server.textLines l = [l].
Proof.
  induction l as [| c l IH]; [reflexivity |].
  cbn [Server.oneLine Server.textLines]. intros Hl.
  apply andb_true_iff in Hl. destruct Hl as [Hc Hl].
  apply negb_true_iff in Hc. rewrite Hc, (IH Hl). reflexivity.
Qed.

Lemma textLines_append (l rest : string) :
  Server.oneLine l = true ->
  Server.textLines (l +++ nl +++ rest) = l :: Server.textLines rest.
Proof.
  induction l as [| c l IH]; [reflexivity |].
  cbn [Server.oneLine]. intros Hl.
  apply andb_true_iff in Hl. destruct Hl as [Hc Hl].
  apply negb_true_iff in Hc.
  change (String c l +++ nl +++ rest) with (String c (l +++ nl +++ rest)).
  cbn [Server.textLines]. rewrite Hc, (IH Hl). reflexivity.
Qed.

(** Splitting what was joined gives the lines back, when none of them holds
    a line feed. *)
Lemma textLines_join (l : string) (ls : list string) :
  Forall (fun l => Server.oneLine l = true) (l :: ls) ->
  Server.textLines (join nl (l :: ls)) = l :: ls.
Proof.
  revert l. induction ls as [| l' ls IH]; intros l Hall.
  - apply textLines_oneLine. inversion Hall; assumption.
  - inversion Hall as [| x xs Hl Hrest]; subst.
    change (join nl (l :: l' :: ls)) with (l +++ nl +++ join nl (l' :: ls)).
    rewrite (textLines_append l _ Hl), (IH l' Hrest). reflexivity.
Qed.

Section Formatting.
Context `{Platform}.
Variable url : option string.

Lemma toStr_returns (v : value) (s : string) : ToString v = Some s -> toStr v = inr s.
Proof. intros Hv. unfold toStr. rewrite Hv. reflexivity. Qed.

Lemma toStr_throws (v : value) :
  ToString v = None -> toStr v = inl (TypeError ConvertToPrimitive).
Proof. intros Hv. unfold toStr. rewrite Hv. reflexivity. Qed.

Lemma toStr_inv (v : value) (s : string) : toStr v = inr s -> ToString v = Some s.
Proof.
  unfold toStr. destruct (ToString v); intros Hs; [| discriminate Hs].
  injection Hs as <-. reflexivity.
Qed.

Lemma toNum_returns (v : value) (x : float) : ToNumber v = Some x -> toNum v = inr x.
Proof. intros Hv. unfold toNum. rewrite Hv. reflexivity. Qed.

Lemma toNum_inv (v : value) (x : float) : toNum v = inr x -> ToNumber v = Some x.
Proof.
  unfold toNum. destruct (ToNumber v); intros Hs; [| discriminate Hs].
  injection Hs as <-. reflexivity.
Qed.

Lemma thousandth_returns (v : value) (x : float) (d : nat) :
  ToNumber v = Some x -> Server.thousandth v d = inr (toFixed (x / 1000)%float d).
Proof. intros Hv. unfold Server.thousandth. rewrite (toNum_returns v x Hv). reflexivity. Qed.

Lemma thousandth_inv (v : value) (d : nat) (s : string) :
  Server.thousandth v d = inr s ->
  exists x, ToNumber v = Some x /\ s = toFixed (x / 1000)%float d.
Proof.
  unfold Server.thousandth. intros Hs. apply Ebind_returns in Hs.
  destruct Hs as [x [Hx Hs]]. exists x. split; [apply toNum_inv; exact Hx |].
  injection Hs as <-. reflexivity.
Qed.

(** [forEach] returns exactly when every element's computation does. *)
Lemma forEach_returns_iff (A B : Type) (f : A -> Exc B) (l : list A) (bs : list B) :
  forEach f l = inr bs <-> Forall2 (fun a b => f a = inr b) l bs.
Proof.
  revert bs. induction l as [| a l IH]; intros bs; cbn [forEach].
  - split.
    + intros Hb. cbn in Hb. injection Hb as <-. constructor.
    + intros Hb. inversion Hb. reflexivity.
  - split.
    + intros Hb. apply Ebind_returns in Hb. destruct Hb as [b [Hfa Hb]].
      apply Ebind_returns in Hb. destruct Hb as [bs' [Hrest Hb]].
      cbn in Hb. injection Hb as <-. constructor; [exact Hfa | apply IH; exact Hrest].
    + intros Hb. inversion Hb as [| a' b l' bs' Hfa Hrest]; subst.
      rewrite Hfa. cbn [bind Monad_Exc Ebind].
      rewrite (proj2 (IH bs') Hrest). reflexivity.
Qed.

Lemma traverse_cons (A B : Type) (f : A -> option B) (a : A) (l : list A) :
  traverse f (a :: l) =
  match f a, traverse f l with
  | Some b, Some bs => Some (b :: bs)
  | _, _ => None
  end.
Proof. reflexivity. Qed.

Lemma traverse_returns_iff (A B : Type) (f : A -> option B) (l : list A) (bs : list B) :
  traverse f l = Some bs <-> Forall2 (fun a b => f a = Some b) l bs.
Proof.
  revert bs. induction l as [| a l IH]; intros bs.
  - split.
    + intros Hb. injection Hb as <-. constructor.
    + intros Hb. inversion Hb. reflexivity.
  - rewrite traverse_cons. split.
    + intros Hb. destruct (f a) as [b |] eqn:Hfa; [| discriminate].
      destruct (traverse f l) as [bs' |] eqn:Hrest; [| discriminate].
      injection Hb as <-. constructor; [exact Hfa | apply IH; reflexivity].
    + intros Hb. inversion Hb as [| a' b l' bs' Hfa Hrest]; subst.
      rewrite Hfa. apply IH in Hrest. rewrite Hrest. reflexivity.
Qed.

Lemma solveBody_defined (result : value) (problemType : string) (lines : list string) :
  Server.solveBody result problemType = inr lines -> nullish result = false.
Proof.
  unfold Server.solveBody, getProp. destruct (nullish result); [discriminate | reflexivity].
Qed.

Lemma tspBody_defined (result : value) (lines : list string) :
  Server.tspBody result = inr lines -> nullish result = false.
Proof.
  unfold Server.tspBody, getProp. destruct (nullish result); [discriminate | reflexivity].
Qed.

Lemma entryLines_plain (es : list (string * value)) (ls : list string) :
  forEach Server.entryLine es = inr ls ->
  Forall (fun l => Server.hintLine l = false) ls.
Proof.
  intros Hls. apply forEach_returns_iff in Hls.
  induction Hls as [| [name v] l es ls Hl _ IH]; constructor; [| exact IH].
  unfold Server.entryLine in Hl. apply Ebind_returns in Hl.
  destruct Hl as [sv [_ Hl]]. cbn in Hl. injection Hl as <-. reflexivity.
Qed.

(** No line that [formatSolveResponse] pushes before the hint begins like a
    line of the hint. *)
Lemma solveBody_plain (result : value) (problemType : string) (lines : list string) :
  Server.solveBody result problemType = inr lines ->
  Forall (fun l => Server.hintLine l = false) lines.
Proof.
  intros Hb. unfold Server.solveBody in Hb.
  apply Ebind_returns in Hb. destruct Hb as [v1 [_ Hb]].
  apply Ebind_returns in Hb. destruct Hb as [status [_ Hb]].
  apply Ebind_returns in Hb. destruct Hb as [v2 [_ Hb]].
  apply Ebind_returns in Hb. destruct Hb as [objective [_ Hb]].
  cbv zeta in Hb.
  apply Ebind_returns in Hb. destruct Hb as [solution [_ Hb]].
  apply Ebind_returns in Hb. destruct Hb as [entryLines [Hentries Hb]].
  apply Ebind_returns in Hb. destruct Hb as [v3 [_ Hb]].
  apply Ebind_returns in Hb. destruct Hb as [v4 [_ Hb]].
  apply Ebind_returns in Hb. destruct Hb as [solveTime [_ Hb]].
  apply Ebind_returns in Hb. destruct Hb as [v5 [_ Hb]].
  apply Ebind_returns in Hb. destruct Hb as [v6 [_ Hb]].
  apply Ebind_returns in Hb. destruct Hb as [solver [_ Hb]].
  cbn in Hb. injection Hb as <-.
  repeat (apply Forall_cons; [reflexivity |]).
  apply Forall_app. split.
  - destruct (truthy solution).
    + apply (entryLines_plain _ _ Hentries).
    + cbn in Hentries. injection Hentries as <-. constructor.
  - repeat (apply Forall_cons; [reflexivity |]). apply Forall_nil.
Qed.

(** Both formatters end the same way: the lines so far, then the hint. *)
Lemma format_appends_hint (body : Exc (list string)) (format : Exc string)
    (viewAt : string) (result : value) (problemType : string) (lines : list string) :
  In (body, format, viewAt) (Server.solveFormatters url result problemType) ->
  body = inr lines ->
  format = (hint <- Server.reportHint url viewAt (field result "report_id") ;;
            ret (join nl (lines ++ hint))).
Proof.
  intros Hin Hb. cbn in Hin.
  destruct Hin as [Heq | [Heq | []]]; injection Heq as <- <- <-.
  - pose proof (solveBody_defined _ _ _ Hb) as Hn.
    unfold Server.formatSolveResponse. rewrite Hb, (getProp_returns result _ Hn).
    reflexivity.
  - pose proof (tspBody_defined _ _ Hb) as Hn.
    unfold Server.formatTspResponse. rewrite Hb, (getProp_returns result _ Hn).
    reflexivity.
Qed.

(** C7, as amended. The report hint follows the truthiness of [report_id],
    not its presence.  When the property is absent (and likewise when it is
    [null], the empty string or otherwise falsy) the formatter appends
    nothing: the text is the lines pushed so far, joined.  For
    [formatSolveResponse] none of those lines begins like a Report ID line or
    a report URL line, so when no printed value holds a line feed, no line
    of the text is a hint line.  (A value with a line feed in it brings
    lines of its own into the text.)  When [report_id] is a non-empty string
    (any truthy value that converts to a string) the text ends with an empty
    line, the Report ID line and the URL line; a truthy value that does not
    convert makes the formatter throw. *)
Theorem report_hint_follows_report_id (body : Exc (list string)) (format : Exc string)
    (viewAt : string) (result : value) (problemType : string) (lines : list string) :
  In (body, format, viewAt) (Server.solveFormatters url result problemType) ->
  body = inr lines ->
  let report_id := field result "report_id" in
  (report_id = VUndefined \/ report_id = VNull \/ report_id = VStr "" ->
   format = inr (join nl lines)) /\
  (forall id : string,
      report_id = VStr id -> id <> "" ->
      format = inr (join nl (lines ++
                             [""; "**Report ID:** " +++ id;
                              viewAt +++ Server.SERVER_URL url +++ "/api/reports/" +++ id]))) /\
  (truthy report_id = false -> format = inr (join nl lines)) /\
  (forall id : string,
      truthy report_id = true -> ToString report_id = Some id ->
      format = inr (join nl (lines ++
                             [""; "**Report ID:** " +++ id;
                              viewAt +++ Server.SERVER_URL url +++ "/api/reports/" +++ id]))) /\
  (truthy report_id = true -> ToString report_id = None ->
   format = inl (TypeError ConvertToPrimitive)) /\
  (viewAt = "View the full report at: " ->
   Forall (fun l => Server.hintLine l = false) lines /\
   (truthy report_id = false ->
    Forall (fun l => Server.oneLine l = true) lines ->
    exists text,
      format = inr text /\
      Server.textLines text = lines /\
      Forall (fun l => Server.hintLine l = false) (Server.textLines text))).
Proof.
  intros Hin Hb report_id.
  pose proof (format_appends_hint body format viewAt result problemType lines Hin Hb)
    as Hf.
  fold report_id in Hf. unfold Server.reportHint in Hf.
  assert (Hfalsy : truthy report_id = false -> format = inr (join nl lines)).
  { intros Ht. rewrite Ht in Hf. cbn in Hf. rewrite app_nil_r in Hf. exact Hf. }
  assert (Htruthy : forall id : string,
             truthy report_id = true -> ToString report_id = Some id ->
             format = inr (join nl (lines ++
                             [""; "**Report ID:** " +++ id;
                              viewAt +++ Server.SERVER_URL url +++ "/api/reports/" +++ id]))).
  { intros rid Ht Hid. rewrite Ht, (toStr_returns _ _ Hid) in Hf. exact Hf. }
  split; [| split; [| split; [| split; [| split]]]].
  - intros [Hr | [Hr | Hr]]; apply Hfalsy; rewrite Hr; reflexivity.
  - intros rid Hr Hid. apply Htruthy; rewrite Hr; [| reflexivity].
    cbn. destruct (String.eqb_spec rid "") as [Heq | _]; [contradiction | reflexivity].
  - exact Hfalsy.
  - exact Htruthy.
  - intros Ht Hid. rewrite Ht, (toStr_throws _ Hid) in Hf. exact Hf.
  - intros ->. cbn in Hin.
    destruct Hin as [Heq | [Heq | []]]; [| discriminate].
    injection Heq as <- _.
    pose proof (solveBody_plain result problemType lines Hb) as Hplain.
    split; [exact Hplain |].
    intros Ht Hone. exists (join nl lines). split; [apply Hfalsy; exact Ht |].
    destruct lines as [| l ls].
    { inversion Hplain. unfold Server.solveBody in Hb.
      repeat (apply Ebind_returns in Hb; destruct Hb as [? [_ Hb]]).
      cbn in Hb. discriminate. }
    rewrite (textLines_join l ls Hone). split; [reflexivity | exact Hplain].
Qed.

(** After the point come as many digits as were asked for, and before it at
    least one. *)
Lemma pointed_shape (n : Z) (d : nat) :
  d <> 0%nat ->
  exists a b : string,
    pointed n d = a +++ "." +++ b /\ String.length b = d /\ (1 <= String.length a)%nat.
Proof.
  intros Hd. unfold pointed.
  set (m := list_ascii_of_string (decimalZ n)).
  set (m' := if (length m <=? d)%nat then zeros (d + 1 - length m) ++ m else m).
  assert (Hk : (d + 1 <= length m')%nat).
  { unfold m'. destruct (Nat.leb_spec (length m) d) as [Hle | Hgt].
    - rewrite length_app. unfold zeros. rewrite repeat_length. lia.
    - lia. }
  destruct d as [| d']; [contradiction |].
  exists (string_of_list_ascii (firstn (length m' - S d') m')),
         (string_of_list_ascii (skipn (length m' - S d') m')).
  split; [reflexivity |].
  rewrite !length_string_of_list, length_skipn, length_firstn. lia.
Qed.

Lemma toFixed_shape (x : float) (d : nat) :
  d <> 0%nat -> fixedNotation x = true ->
  exists a b : string, toFixed x d = a +++ "." +++ b /\ String.length b = d.
Proof.
  intros Hd Hx. unfold toFixed, fixedNotation in *.
  destruct (Prim2SF x) as [s | s | | s m e]; try discriminate.
  - destruct (pointed_shape 0 d Hd) as [a [b [Hp [Hb _]]]].
    exists a, b. split; assumption.
  - rewrite negb_true_iff in Hx. rewrite Hx.
    destruct (pointed_shape (scaled m e d) d Hd) as [a [b [Hp [Hb _]]]].
    exists ((if s then "-" else "") +++ a), b. rewrite Hp, append_assoc.
    split; [reflexivity | exact Hb].
Qed.

(** Whatever else a result holds, the fourth line is the total distance. *)
Lemma tspBody_distance_line (result : value) (lines : list string) :
  Server.tspBody result = inr lines ->
  exists metres : float,
    ToNumber (field result "objective_value") = Some metres /\
    nth_error lines 3 =
      Some ("**Total Distance:** " +++ toFixed (metres / 1000)%float 2 +++ " km").
Proof.
  intros Hb. pose proof (tspBody_defined _ _ Hb) as Hn.
  unfold Server.tspBody in Hb.
  rewrite !(getProp_returns result _ Hn) in Hb. run_exc Hb.
  apply Ebind_returns in Hb. destruct Hb as [status [_ Hb]].
  apply Ebind_returns in Hb. destruct Hb as [distance [Hd Hb]].
  apply thousandth_inv in Hd. destruct Hd as [metres [Hm ->]].
  exists metres. split; [exact Hm |].
  repeat (apply Ebind_returns in Hb; destruct Hb as [? [_ Hb]]).
  cbn in Hb. injection Hb as <-. reflexivity.
Qed.

(** The line of one segment. *)
Lemma segmentLine_returns_iff (seg : value) (l : string) :
  Server.segmentLine seg = inr l <->
  nullish seg = false /\
  exists (d : float) (f t : string),
    ToNumber (field seg "distance") = Some d /\
    ToString (field seg "from_name") = Some f /\
    ToString (field seg "to_name") = Some t /\
    l = "- " +++ f +++ " → " +++ t +++ ": " +++ toFixed (d / 1000)%float 2 +++ " km".
Proof.
  unfold Server.segmentLine. split.
  - intros Hl. destruct (nullish seg) eqn:Hn.
    { unfold getProp in Hl. rewrite Hn in Hl. discriminate. }
    split; [reflexivity |].
    rewrite !(getProp_returns seg _ Hn) in Hl. run_exc Hl.
    apply Ebind_returns in Hl. destruct Hl as [dist [Hd Hl]].
    apply thousandth_inv in Hd. destruct Hd as [d [Hd ->]].
    apply Ebind_returns in Hl. destruct Hl as [f [Hf Hl]].
    apply Ebind_returns in Hl. destruct Hl as [t [Ht Hl]].
    cbn in Hl. injection Hl as <-.
    exists d, f, t. repeat split; try assumption; apply toStr_inv; assumption.
  - intros [Hn [d [f [t [Hd [Hf [Ht ->]]]]]]].
    rewrite !(getProp_returns seg _ Hn). run_exc_goal.
    rewrite (thousandth_returns _ _ 2 Hd). run_exc_goal.
    rewrite (toStr_returns _ _ Hf). run_exc_goal.
    rewrite (toStr_returns _ _ Ht). reflexivity.
Qed.

(** C6. The formatter prints the objective value divided by 1000 with two
    fraction digits and the unit km as the fourth line of every result it
    formats; for a finite quotient below 10^21 that is a number with exactly
    two digits after the point.  The route, when the solution has one, is
    one line of the names joined by arrows; the segments, when the solution
    has them (with or without a route), are a heading and one line per
    segment, each with that segment's distance converted the same way.
    15000 prints as 15.00 km. *)
Theorem tsp_distances_in_kilometres (result : value) :
  (forall lines : list string,
      Server.tspBody result = inr lines ->
      exists metres : float,
        ToNumber (field result "objective_value") = Some metres /\
        nth_error lines 3 =
          Some ("**Total Distance:** " +++ toFixed (metres / 1000)%float 2 +++ " km")) /\
  (forall metres : float,
      fixedNotation (metres / 1000)%float = true ->
      exists a b : string,
        toFixed (metres / 1000)%float 2 = a +++ "." +++ b /\ String.length b = 2%nat) /\
  (forall (status : string) (metres ms : float)
          (routeLines segmentLines hint : list string),
      let route := optField (field result "solution") "route_names" in
      let segments := optField (field result "solution") "segments" in
      let report_id := field result "report_id" in
      nullish result = false ->
      ToString (field result "status") = Some status ->
      ToNumber (field result "objective_value") = Some metres ->
      ToNumber (field result "execution_time_ms") = Some ms ->
      (truthy route = false /\ routeLines = [] \/
       exists (names : list value) (strs : list string),
         route = VArr names /\
         Forall2 (fun n s => (if nullish n then Some "" else ToString n) = Some s)
                 names strs /\
         routeLines = [join " → " strs]) ->
      (truthy segments = false /\ segmentLines = [] \/
       exists (segs : list value) (ls : list string),
         segments = VArr segs /\
         Forall2 (fun seg l =>
                    nullish seg = false /\
                    exists (d : float) (f t : string),
                      ToNumber (field seg "distance") = Some d /\
                      ToString (field seg "from_name") = Some f /\
                      ToString (field seg "to_name") = Some t /\
                      l = "- " +++ f +++ " → " +++ t +++ ": " +++
                          toFixed (d / 1000)%float 2 +++ " km")
                 segs ls /\
         segmentLines = "" :: "### Route Segments:" :: ls) ->
      (truthy report_id = false /\ hint = [] \/
       exists id : string,
         truthy report_id = true /\ ToString report_id = Some id /\
         hint = [""; "**Report ID:** " +++ id;
                 "View the route map at: " +++ Server.SERVER_URL url +++
                 "/api/reports/" +++ id]) ->
      Server.formatTspResponse url result =
        inr (join nl
               (["## Traveling Salesman Solution"; "";
                 "**Status:** " +++ status;
                 "**Total Distance:** " +++ toFixed (metres / 1000)%float 2 +++ " km";
                 ""; "### Optimal Route:"] ++
                routeLines ++ segmentLines ++
                [""; "**Solve Time:** " +++ toFixed (ms / 1000)%float 1 +++ "s"] ++
                hint))) /\
  (forall x : float,
      ToNumber (VNum 15000) = Some x ->
      toFixed (x / 1000)%float 2 +++ " km" = "15.00 km").
Proof.
  split; [apply tspBody_distance_line |].
  split; [intros metres Hm; apply toFixed_shape; [discriminate | exact Hm] |].
  split; [| intros x Hx; injection Hx as <-; reflexivity].
  intros status metres ms routeLines segmentLines hint route segments report_id
    Hn Hstatus Hmetres Hms Hroute Hsegs Hhint.
  unfold Server.formatTspResponse, Server.tspBody.
  rewrite !(getProp_returns result _ Hn). run_exc_goal.
  rewrite (toStr_returns _ _ Hstatus). run_exc_goal.
  rewrite (thousandth_returns _ _ 2 Hmetres). run_exc_goal.
  rewrite !getPropOpt_returns. run_exc_goal.
  fold route. fold segments. fold report_id.
  match goal with
  | |- context [if truthy route then ?A else ?B] =>
      assert (Hr : (if truthy route then A else B) = inr routeLines)
  end.
  { destruct Hroute as [[Ht ->] | [names [strs [Hnames [Hstrs ->]]]]].
    - rewrite Ht. reflexivity.
    - rewrite Hnames. cbn [truthy callJoin]. unfold arrayJoin.
      apply traverse_returns_iff in Hstrs. rewrite Hstrs. reflexivity. }
  rewrite Hr. run_exc_goal.
  match goal with
  | |- context [if truthy segments then ?A else ?B] =>
      assert (Hs : (if truthy segments then A else B) = inr segmentLines)
  end.
  { destruct Hsegs as [[Ht ->] | [segs [ls [Hsegs [Hls ->]]]]].
    - rewrite Ht. reflexivity.
    - rewrite Hsegs. cbn [truthy iterate]. run_exc_goal.
      assert (Hfor : forEach Server.segmentLine segs = inr ls).
      { apply forEach_returns_iff.
        eapply Forall2_impl; [| exact Hls].
        intros seg l Hl. apply segmentLine_returns_iff. exact Hl. }
      rewrite Hfor. reflexivity. }
  rewrite Hs. run_exc_goal.
  rewrite (thousandth_returns _ _ 1 Hms). run_exc_goal.
  assert (Hh : Server.reportHint url "View the route map at: " report_id = inr hint).
  { unfold Server.reportHint.
    destruct Hhint as [[Ht ->] | [rid [Ht [Hid ->]]]]; rewrite Ht; [reflexivity |].
    rewrite (toStr_returns _ _ Hid). reflexivity. }
  rewrite Hh. run_exc_goal. rewrite <- !app_assoc. reflexivity.
Qed.

End Formatting.

(** ** Concrete runs *)

Import Examples.

(** C1, witness: a 400 on a post ends the call after one request; a 503 on
    the same post is sent again. *)
Lemma retry_policy_witness :
  reply (rejecting 400 noJitter lpRequest) 0 = statusReply 400 /\
  HttpTransport.send (OptimizationClient.transport defaultClient)
    (rejecting 400 noJitter) lpRequest =
  ([Sent lpRequest], inl (AxiosErr (rejectionOf lpRequest 400))) /\
  (2 <= length (requests (trace (HttpTransport.send
                                   (OptimizationClient.transport defaultClient)
                                   (rejecting 503 noJitter) lpRequest))))%nat.
Proof.
  split; [reflexivity |]. split.
  - destruct (proj1 (proj2 (@retry_policy node)) "https://api.opt-tools.com" "key"
                (Some 30000%Z) (Some 3%Z) (rejecting 400 noJitter) lpRequest
                "Request failed with status code 400" None
                (Some {| status := 400; retryAfter := 0; data := VNull |}) eq_refl)
      as [_ [_ [_ [Hstatus _]]]].
    apply (Hstatus {| status := 400; retryAfter := 0; data := VNull |} eq_refl).
    + cbn; lia.
    + cbn; lia.
    + left. cbn; lia.
  - destruct (proj1 (proj2 (@retry_policy node)) "https://api.opt-tools.com" "key"
                (Some 30000%Z) (Some 3%Z) (rejecting 503 noJitter) lpRequest
                "Request failed with status code 503" None
                (Some {| status := 503; retryAfter := 0; data := VNull |}) eq_refl)
      as [_ [_ [Hiff _]]].
    apply Hiff. split; [reflexivity |]. split; [cbn; lia |].
    right. apply Qnot_le_lt. intros Hle. apply Qle_bool_iff in Hle.
    vm_compute in Hle. discriminate Hle.
Defined.

(** C1, counterexample: a get answered with 500 (no network failure, not 429,
    not 503) is sent four times with the default three retries; and a post (a
    method that is neither safe nor idempotent) that meets a connection reset
    is sent four times as well. *)
Lemma server_error_on_get_is_retried :
  length (requests (trace (OptimizationClient.getReport defaultClient
                             (rejecting 500 noJitter) (VStr "r1")))) = 4%nat /\
  length (requests (trace (OptimizationClient.solveLp defaultClient
                             (always connectionReset noJitter) lpScenario))) = 4%nat.
Proof. split; vm_compute; reflexivity. Qed.

(** C4, witness: a transport with a timeout of 500 ms and three retries
    against a remote that always answers 429 after 50 ms.  The first retry
    (a pause of 220 ms) goes ahead, 270 ms being less than the timeout;
    the second (a pause of 400 ms) is given up. *)
Lemma backoff_witness :
  requests (trace (HttpTransport.send hastyTransport (rejecting 429 someJitter) lpRequest)) =
    [lpRequest; lpRequest] /\
  map Qred (pauses (trace (HttpTransport.send hastyTransport
                             (rejecting 429 someJitter) lpRequest))) = [220] /\
  outcome (HttpTransport.send hastyTransport (rejecting 429 someJitter) lpRequest) =
    inl (AxiosErr (rejectionOf lpRequest 429)).
Proof.
  destruct (@rate_limited_request_backs_off node "https://api.opt-tools.com" "key"
              (Some 500%Z) (Some 3%Z) (rejecting 429 someJitter) lpRequest
              (fun _ => rejectionOf lpRequest 429))
    as [j [Hj [_ [Hbook [_ [Hreq [Hpauses [_ [_ Hout]]]]]]]]].
  - intros n. reflexivity.
  - intros n. reflexivity.
  - intros n. reflexivity.
  - intros [| [| n]]; cbn; split; unfold Qle, Qlt; cbn; lia.
  - destruct Hbook as [Hbelow Hstop]; [discriminate |].
    assert (Hone : j = 1%nat).
    { destruct j as [| [| j]]; [exfalso | reflexivity | exfalso].
      - specialize (Hstop ltac:(cbn; lia)). apply Qle_bool_iff in Hstop.
        vm_compute in Hstop. discriminate Hstop.
      - specialize (Hbelow 2%nat ltac:(lia)). apply Qlt_not_le in Hbelow.
        apply Hbelow. apply Qle_bool_iff. vm_compute. reflexivity. }
    subst j. split; [exact Hreq |]. split; [| exact Hout].
    unfold hastyTransport. rewrite Hpauses. vm_compute. reflexivity.
Defined.

(** C4, counterexample: with the values 1/2, 0 and 3/4 from [Math.random()]
    the three pauses are 220, 400 and 920 ms; without jitter they would be
    200, 400 and 800.  They are not of the form base * 2^attempt.  And with
    a timeout of 500 ms the second pause is not cut down to what is left of
    the timeout: the call ends after two of the four requests that three
    retries would make. *)
Lemma backoff_is_jittered_and_not_capped :
  map Qred (pauses (trace (OptimizationClient.solveLp defaultClient
                             (rejecting 429 someJitter) lpScenario))) = [220; 400; 920] /\
  doubling (pauses (trace (OptimizationClient.solveLp defaultClient
                             (rejecting 429 someJitter) lpScenario))) = false /\
  AxiosRetry.retries (HttpTransport.retry hastyTransport) = 3%Z /\
  length (requests (trace (HttpTransport.send hastyTransport
                             (rejecting 429 someJitter) lpRequest))) = 2%nat /\
  map Qred (pauses (trace (HttpTransport.send hastyTransport
                             (rejecting 429 someJitter) lpRequest))) = [220].
Proof. repeat split; vm_compute; reflexivity. Qed.

(** C2, witness: a tool name that is not declared. *)
Lemma unknown_tool_witness :
  exists r : Server.CallToolResult,
    outcome (Server.CallToolRequestHandler None None (always (Fulfilled lpPayload) noJitter)
               "frobnicate" (Some [])) = inr r /\
    Server.content r =
      [{| Server.type := "text"; Server.text := "Error: Unknown tool: frobnicate" |}] /\
    Server.isError r = Some true.
Proof.
  destruct (@tool_call_never_throws node None None (always (Fulfilled lpPayload) noJitter)
              "frobnicate" (Some []))
    as [r [Hr [_ [_ [_ [Hunknown _]]]]]].
  exists r. split; [exact Hr |].
  apply (Hunknown [] eq_refl).
  cbn. intros [Hn | [Hn | [Hn | [Hn | [Hn | []]]]]]; discriminate.
Defined.

(** C3, witness: [solve_lp] called with no arguments at all posts the problem
    with the defaults filled in. *)
Lemma adapter_defaults_witness :
  In ("solve_lp", "/api/solve/lp", Server.lpProblem []) (Server.solveTools []) /\
  Server.lpProblem [] =
    VObj [("variables", VUndefined); ("objective", VUndefined);
          ("constraints", VArr []); ("generate_report", VBool true)] /\
  exists j : nat,
    requests (trace (Server.CallToolRequestHandler None None
                       (always (Fulfilled lpPayload) noJitter) "solve_lp" (Some []))) =
    repeat (HttpTransport.postRequest
              (OptimizationClient.transport (Server.client None None))
              "/api/solve/lp" (Server.lpProblem [])) (S j).
Proof.
  split; [left; reflexivity |]. split; [reflexivity |].
  apply (proj1 (proj2 (@defaults_are_filled_by_the_adapter node None None))).
  left. reflexivity.
Defined.

(** C3, counterexample: the facade, called with a problem that has neither
    constraints nor [generate_report], posts that very problem; neither
    property is filled in on the way. *)
Lemma facade_sends_bare_problem :
  requests (trace (OptimizationClient.solveLp defaultClient
                     (always (Fulfilled lpPayload) noJitter) bareProblem)) =
    [HttpTransport.postRequest (OptimizationClient.transport defaultClient)
       "/api/solve/lp" bareProblem] /\
  field bareProblem "generate_report" = VUndefined /\
  field bareProblem "constraints" = VUndefined.
Proof. repeat split; vm_compute; reflexivity. Qed.

(** C5, witness: the envelope's list comes back as it is. *)
Lemma listReports_witness :
  reply (always (Fulfilled twoReports) noJitter
           (HttpTransport.getRequest (OptimizationClient.transport defaultClient)
              ("/api/reports?limit=" +++ NumberToString 10%float))) 0 =
    Fulfilled twoReports /\
  outcome (OptimizationClient.listReports defaultClient
             (always (Fulfilled twoReports) noJitter) (Some 10%float)) =
    inr (VArr [report "a"; report "b"]).
Proof.
  split; [reflexivity |].
  apply (@listReports_unwraps_envelope node defaultClient
           (always (Fulfilled twoReports) noJitter) (Some 10%float)
           [("reports", VArr [report "a"; report "b"]); ("total", VNum 2)]).
  reflexivity.
Defined.

(** C5, counterexample: asked for one report, a remote that sends two gets
    both of them through. *)
Lemma listReports_exceeds_limit :
  outcome (OptimizationClient.listReports defaultClient
             (always (Fulfilled twoReports) noJitter) (Some 1%float)) =
    inr (VArr [report "a"; report "b"]) /\
  withinLimit 1 (VArr [report "a"; report "b"]) = false.
Proof. split; vm_compute; reflexivity. Qed.

(** C6, witness: a tour of 15000 m; and a result without a solution, whose
    distance is [null] and whose time is missing. *)
Lemma tsp_format_witness :
  Server.formatTspResponse None tspPayload =
  inr "## Traveling Salesman Solution

**Status:** OPTIMAL
**Total Distance:** 15.00 km

### Optimal Route:
Depot → Harbour → Depot

### Route Segments:
- Depot → Harbour: 7.50 km

**Solve Time:** 1.2s" /\
  Server.formatTspResponse None
    (VObj [("status", VStr "INFEASIBLE"); ("objective_value", VNull)]) =
  inr "## Traveling Salesman Solution

**Status:** INFEASIBLE
**Total Distance:** 0.00 km

### Optimal Route:

**Solve Time:** NaNs".
Proof.
  split.
  - refine (eq_trans
              (proj1 (proj2 (proj2 (@tsp_distances_in_kilometres node None tspPayload)))
                 "OPTIMAL" 15000%float 1200%float
                 ["Depot → Harbour → Depot"]
                 [""; "### Route Segments:"; "- Depot → Harbour: 7.50 km"]
                 [] eq_refl eq_refl eq_refl eq_refl _ _ _) _).
    + right.
      exists [VStr "Depot"; VStr "Harbour"; VStr "Depot"], ["Depot"; "Harbour"; "Depot"].
      split; [reflexivity |]. split; [| reflexivity].
      repeat constructor.
    + right.
      exists [VObj [("from_name", VStr "Depot"); ("to_name", VStr "Harbour");
                    ("distance", VNum 7500)]],
             ["- Depot → Harbour: 7.50 km"].
      split; [reflexivity |]. split; [| reflexivity].
      constructor; [| constructor].
      split; [reflexivity |]. exists 7500%float, "Depot", "Harbour".
      repeat split; reflexivity.
    + left. split; reflexivity.
    + vm_compute. reflexivity.
  - refine (eq_trans
              (proj1 (proj2 (proj2 (@tsp_distances_in_kilometres node None
                                      (VObj [("status", VStr "INFEASIBLE");
                                             ("objective_value", VNull)]))))
                 "INFEASIBLE" 0%float PrimFloat.nan [] [] []
                 eq_refl eq_refl eq_refl eq_refl
                 (or_introl (conj eq_refl eq_refl))
                 (or_introl (conj eq_refl eq_refl))
                 (or_introl (conj eq_refl eq_refl))) _).
    vm_compute. reflexivity.
Defined.

(** C7, witness: a result with the report identifier [r1]; and the payload
    of the LP scenario, which has none: the lines of its text are the lines
    pushed, and none of them is a line of the hint. *)
Lemma report_hint_witness :
  Server.formatSolveResponse None
    (VObj [("status", VStr "OPTIMAL"); ("objective_value", VNum 20);
           ("report_id", VStr "r1")]) "Linear Programming" =
  inr "## Linear Programming Solution

**Status:** OPTIMAL
**Objective Value:** 20

### Solution Values:

**Solve Time:** undefinedms
**Solver:** OR-Tools

**Report ID:** r1
View the full report at: http://164.92.92.181/api/reports/r1" /\
  exists text : string,
    Server.formatSolveResponse None lpPayload "Linear Programming" = inr text /\
    Server.textLines text =
      ["## Linear Programming Solution"; "";
       "**Status:** OPTIMAL";
       "**Objective Value:** 20"; "";
       "### Solution Values:"; "- x = 0"; "- y = 10"; "";
       "**Solve Time:** undefinedms";
       "**Solver:** OR-Tools"] /\
    Forall (fun l => Server.hintLine l = false) (Server.textLines text).
Proof.
  split.
  - refine (eq_trans
              (proj1 (proj2
                 (@report_hint_follows_report_id node None _ _ "View the full report at: "
                    (VObj [("status", VStr "OPTIMAL"); ("objective_value", VNum 20);
                           ("report_id", VStr "r1")]) "Linear Programming"
                    ["## Linear Programming Solution"; "";
                     "**Status:** OPTIMAL";
                     "**Objective Value:** 20"; "";
                     "### Solution Values:"; "";
                     "**Solve Time:** undefinedms";
                     "**Solver:** OR-Tools"]
                    (or_introl eq_refl) _)) "r1" eq_refl _) _).
    + vm_compute. reflexivity.
    + discriminate.
    + vm_compute. reflexivity.
  - assert (Hb : Server.solveBody lpPayload "Linear Programming" =
                  inr ["## Linear Programming Solution"; "";
                       "**Status:** OPTIMAL";
                       "**Objective Value:** 20"; "";
                       "### Solution Values:"; "- x = 0"; "- y = 10"; "";
                       "**Solve Time:** undefinedms";
                       "**Solver:** OR-Tools"])
      by (vm_compute; reflexivity).
    destruct (@report_hint_follows_report_id node None _ _ "View the full report at: "
                lpPayload "Linear Programming" _ (or_introl eq_refl) Hb)
      as [_ [_ [_ [_ [_ Hlast]]]]].
    destruct (Hlast eq_refl) as [_ Hlines].
    apply Hlines; [reflexivity |].
    repeat (constructor; [reflexivity |]). constructor.
Defined.

(** C7, counterexample.  The property [report_id] is present and holds the
    empty string: the text has no Report ID line and no URL line.  And a
    result without the property whose status holds line feeds gives a text
    with both lines in it. *)
Lemma hint_lines_do_not_follow_presence :
  field emptyReportId "report_id" = VStr "" /\
  Server.formatSolveResponse None emptyReportId "Linear Programming" =
  inr "## Linear Programming Solution

**Status:** OPTIMAL
**Objective Value:** 20

### Solution Values:

**Solve Time:** undefinedms
**Solver:** OR-Tools" /\
  field spoofedStatus "report_id" = VUndefined /\
  match Server.formatSolveResponse None spoofedStatus "Linear Programming" with
  | inr text =>
      filter Server.hintLine (Server.textLines text) =
        ["**Report ID:** r9";
         "View the full report at: http://164.92.92.181/api/reports/r9"]
  | inl _ => False
  end.
Proof. repeat split; vm_compute; reflexivity. Qed.

(** C8, witness: the scenario of the specification.  The stub's payload is
    the value [solveLp] returns. *)
Lemma lp_scenario_witness :
  In (OptimizationClient.solveLp, "/api/solve/lp") OptimizationClient.solveOperations /\
  reply (always (Fulfilled lpPayload) noJitter lpRequest) 0 = Fulfilled lpPayload /\
  outcome (OptimizationClient.solveLp defaultClient
             (always (Fulfilled lpPayload) noJitter) lpScenario) = inr lpPayload.
Proof.
  split; [left; reflexivity |]. split; [reflexivity |].
  apply (proj1 (proj2
           (@solve_returns_payload_unchanged OptimizationClient.solveLp "/api/solve/lp"
              defaultClient (always (Fulfilled lpPayload) noJitter) lpScenario
              (or_introl eq_refl)))).
  reflexivity.
Defined.

(** C9, witness: nothing optional supplied. *)
Lemma default_configuration_witness :
  OptimizationClient.config defaultClient =
  {| OptimizationClient.cfg_serverUrl := "https://api.opt-tools.com";
     OptimizationClient.cfg_apiKey := "key";
     OptimizationClient.cfg_timeout := Some 30000%Z;
     OptimizationClient.cfg_retries := Some 3%Z;
     OptimizationClient.cfg_debug := Some false |} /\
  OptimizationClient.cfg_timeout (OptimizationClient.config defaultClient) = Some 30000%Z.
Proof.
  split; [reflexivity |].
  apply (proj1 (@constructor_fills_defaults node
                  {| OptimizationClient.serverUrl := "https://api.opt-tools.com";
                     OptimizationClient.apiKey := "key";
                     OptimizationClient.timeout := OptimizationClient.Omitted;
                     OptimizationClient.retries := OptimizationClient.Omitted;
                     OptimizationClient.debug := OptimizationClient.Omitted |})).
  reflexivity.
Defined.

(** C10, witness: [solve_tsp] with [generate_report] given as the string
    "false", which is not the boolean. *)
Lemma generate_report_witness :
  In ("solve_tsp", "/api/solve/tsp", Server.tspProblem [("generate_report", VStr "false")])
     (Server.solveTools [("generate_report", VStr "false")]) /\
  field (Server.tspProblem [("generate_report", VStr "false")]) "generate_report" = VBool true.
Proof.
  split; [right; right; left; reflexivity |].
  apply (proj2 (proj2 (proj2
           (@generate_report_unless_false node None None
              (always (Fulfilled tspPayload) noJitter)
              [("generate_report", VStr "false")]
              "solve_tsp" "/api/solve/tsp"
              (Server.tspProblem [("generate_report", VStr "false")])
              (or_intror (or_intror (or_introl eq_refl))))))).
  intros b. discriminate.
Defined.

(* ===================================================================== *)
(** * More of the code *)
(* ===================================================================== *)

(** ** The transport, whatever the remote does *)

Section TransportInvariants.
Variable opts : AxiosRetry.Options.
Variable req : Request.
Variable wire : Wire.

(** One pause between any two requests, and no more requests than the retry
    count allows. *)
Lemma attempt_counts :
  forall (left rc : nat) (t : Q),
  exists j : nat,
    (j <= left)%nat /\
    requests (trace (AxiosRetry.attempt opts req wire left rc t)) = repeat req (S j) /\
    length (pauses (trace (AxiosRetry.attempt opts req wire left rc t))) = j /\
    logs (trace (AxiosRetry.attempt opts req wire left rc t)) = [].
Proof.
  assert (Hstep : forall (d : Q) (c : M value) (j : nat),
             requests (trace c) = repeat req (S j) /\
             length (pauses (trace c)) = j /\ logs (trace c) = [] ->
             requests (Sent req :: trace (emit (Waited d) ;; c)) = repeat req (S (S j)) /\
             length (pauses (Sent req :: trace (emit (Waited d) ;; c))) = S j /\
             logs (Sent req :: trace (emit (Waited d) ;; c)) = []).
  { intros d c j [Hr [Hp Hl]]. rewrite emit_then. cbn [trace fst].
    change (requests (Sent req :: Waited d :: trace c)) with (req :: requests (trace c)).
    change (pauses (Sent req :: Waited d :: trace c)) with (d :: pauses (trace c)).
    change (logs (Sent req :: Waited d :: trace c)) with (logs (trace c)).
    rewrite Hr, Hl. cbn. rewrite Hp. repeat split; reflexivity. }
  induction left as [| left IH]; intros rc t.
  - exists 0%nat. split; [lia |]. cbn.
    destruct (reply wire rc); repeat split; reflexivity.
  - cbn [AxiosRetry.attempt]. rewrite emit_then. cbn [trace fst].
    destruct (reply wire rc) as [b | msg c resp].
    { exists 0%nat. split; [lia | repeat split; reflexivity]. }
    destruct (AxiosRetry.retryCondition opts (toError req msg c resp)).
    2: { exists 0%nat. split; [lia | repeat split; reflexivity]. }
    destruct (Qeq_bool t 0).
    + destruct (IH (S rc) t) as [j [Hj Hrest]].
      exists (S j). split; [lia |]. apply Hstep. exact Hrest.
    + match goal with |- context [Qle_bool ?x 0] => destruct (Qle_bool x 0) end.
      { exists 0%nat. split; [lia | repeat split; reflexivity]. }
      match goal with
      | |- context [AxiosRetry.attempt opts req wire left (S rc) ?t'] =>
          destruct (IH (S rc) t') as [j [Hj Hrest]]
      end.
      exists (S j). split; [lia |]. apply Hstep. exact Hrest.
Qed.

(** The only thing the retry loop throws is the failure of an attempt. *)
Lemma attempt_throws_rejection :
  forall (left rc : nat) (t : Q) (e : Thrown),
  outcome (AxiosRetry.attempt opts req wire left rc t) = inl e ->
  exists n : nat, (rc <= n <= rc + left)%nat /\
    exists a, rejection req (reply wire n) = Some a /\ e = AxiosErr a.
Proof.
  induction left as [| left IH]; intros rc t e.
  - cbn. destruct (reply wire rc) as [b | msg c resp] eqn:Hw; cbn; [discriminate |].
    intros He. injection He as <-. exists rc. split; [lia |].
    rewrite Hw. eexists. split; reflexivity.
  - cbn [AxiosRetry.attempt]. rewrite emit_then. cbn [outcome snd].
    destruct (reply wire rc) as [b | msg c resp] eqn:Hw; [discriminate |].
    assert (Hhere : forall e', inl (AxiosErr (toError req msg c resp)) = @inl Thrown value e' ->
              exists n : nat, (rc <= n <= rc + S left)%nat /\
                exists a, rejection req (reply wire n) = Some a /\ e' = AxiosErr a).
    { intros e' He. injection He as <-. exists rc. split; [lia |].
      rewrite Hw. eexists. split; reflexivity. }
    assert (Hlater : forall t' e',
              outcome (AxiosRetry.attempt opts req wire left (S rc) t') = inl e' ->
              exists n : nat, (rc <= n <= rc + S left)%nat /\
                exists a, rejection req (reply wire n) = Some a /\ e' = AxiosErr a).
    { intros t' e' He. destruct (IH (S rc) t' e' He) as [n [Hn Ha]].
      exists n. split; [lia | exact Ha]. }
    destruct (AxiosRetry.retryCondition opts (toError req msg c resp)); [| apply Hhere].
    destruct (Qeq_bool t 0).
    + rewrite emit_then. cbn [outcome snd]. apply Hlater.
    + match goal with |- context [Qle_bool ?x 0] => destruct (Qle_bool x 0) end;
        [apply Hhere |].
      rewrite emit_then. cbn [outcome snd]. apply Hlater.
Qed.

(** Retryable failures followed by a success end in that success, when the
    retry count and the timeout allow the retries. *)
Lemma attempt_recovers (err : nat -> AxiosError) (body : value) :
  forall (k left rc : nat) (t : Q),
  (forall i, (rc <= i < rc + k)%nat ->
     rejection req (reply wire i) = Some (err i) /\
     AxiosRetry.retryCondition opts (err i) = true) ->
  reply wire (rc + k) = Fulfilled body ->
  (k <= left)%nat ->
  AxiosRetry.affordable
    (fun i => AxiosRetry.retryDelay opts (S i) (err i) (random wire i)) wire k rc t = true ->
  AxiosRetry.attempt opts req wire left rc t =
    (AxiosRetry.retried req
       (fun i => AxiosRetry.retryDelay opts (S i) (err i) (random wire i)) rc k,
     inr body).
Proof.
  induction k as [| k IH]; intros left rc t Hfail Hok Hk Hafford.
  - rewrite Nat.add_0_r in Hok. rewrite (attempt_fulfilled opts req wire left rc t body Hok).
    reflexivity.
  - destruct left as [| left]; [lia |].
    destruct (Hfail rc ltac:(lia)) as [Hr Hc].
    destruct (reply wire rc) as [b | msg c resp] eqn:Hw; [discriminate |].
    cbn in Hr. injection Hr as Hr.
    cbn [AxiosRetry.attempt]. rewrite Hw, Hr, Hc.
    cbn [AxiosRetry.affordable] in Hafford.
    destruct (Qeq_bool t 0).
    + rewrite (IH left (S rc) t); try assumption; try lia.
      * reflexivity.
      * intros i Hi. apply Hfail. lia.
      * rewrite <- Hok. f_equal. lia.
    + apply andb_true_iff in Hafford. destruct Hafford as [Hpos Hafford].
      apply negb_true_iff in Hpos. rewrite Hpos.
      rewrite (IH left (S rc) _); try assumption; try lia.
      * reflexivity.
      * intros i Hi. apply Hfail. lia.
      * rewrite <- Hok. f_equal. lia.
Qed.

End TransportInvariants.

(** ** The transport as the facade and the adapter use it *)

Section TransportUse.
Context `{Platform}.

(** X1.  A call of the transport sends one and the same request over and
    over: at most one more time than the configured retry count, with one
    pause between any two sendings; with a retry count of zero or less the
    request is sent exactly once. *)
Theorem call_sends_bounded_requests (this : HttpTransport.HttpTransport)
    (remote : Remote) (req : Request) :
  exists j : nat,
    (j <= Z.to_nat (AxiosRetry.retries (HttpTransport.retry this)))%nat /\
    requests (trace (HttpTransport.send this remote req)) = repeat req (S j) /\
    length (pauses (trace (HttpTransport.send this remote req))) = j /\
    ((AxiosRetry.retries (HttpTransport.retry this) <= 0)%Z ->
     requests (trace (HttpTransport.send this remote req)) = [req]).
Proof.
  unfold HttpTransport.send, AxiosRetry.request.
  destruct (attempt_counts (HttpTransport.retry this) req (remote req)
              (Z.to_nat (AxiosRetry.retries (HttpTransport.retry this))) 0%nat
              (inject_Z (HttpTransport.timeout this))) as [j [Hj [Hr [Hp _]]]].
  exists j. split; [exact Hj |]. split; [exact Hr |]. split; [exact Hp |].
  intros Hneg. rewrite Hr. replace j with 0%nat by lia. reflexivity.
Qed.

(** X2.  When a call of the transport throws, what it throws is the axios
    error of one of the attempts that were made: the rejection of the request
    at an attempt no later than the retry count, carrying the method of the
    request. *)
Theorem call_throws_a_failed_attempt (this : HttpTransport.HttpTransport)
    (remote : Remote) (req : Request) (e : Thrown) :
  outcome (HttpTransport.send this remote req) = inl e ->
  exists (n : nat) (a : AxiosError),
    (n <= Z.to_nat (AxiosRetry.retries (HttpTransport.retry this)))%nat /\
    rejection req (reply (remote req) n) = Some a /\
    e = AxiosErr a /\
    method a = Some (req_method req).
Proof.
  intros He. unfold HttpTransport.send, AxiosRetry.request in He.
  destruct (attempt_throws_rejection _ _ _ _ _ _ _ He) as [n [Hn [a [Ha Hea]]]].
  exists n, a. split; [lia |]. split; [exact Ha |]. split; [exact Hea |].
  destruct (reply (remote req) n); [discriminate |].
  cbn in Ha. injection Ha as <-. reflexivity.
Qed.

(** X3.  A transport as [new HttpTransport] builds it gets over transient
    failures: when the first [k] attempts fail with errors the retry condition
    accepts, attempt [k] is fulfilled, [k] is within the retry count and the
    timeout leaves room for the pauses, the call returns the fulfilled body
    after [k + 1] sendings and [k] pauses of the exponential delay. *)
Theorem call_recovers_from_transient_failures
    (serverUrl apiKey : string) (timeout retries : option Z)
    (remote : Remote) (req : Request) (k : nat) (err : nat -> AxiosError) (body : value) :
  let this := HttpTransport.constructor serverUrl apiKey timeout retries in
  let delay := fun i => AxiosRetry.exponentialDelay (S i) (err i) (random (remote req) i) in
  (forall i, (i < k)%nat ->
     rejection req (reply (remote req) i) = Some (err i) /\
     HttpTransport.retryCondition (err i) = true) ->
  reply (remote req) k = Fulfilled body ->
  (k <= Z.to_nat (AxiosRetry.retries (HttpTransport.retry this)))%nat ->
  AxiosRetry.affordable delay (remote req) k 0 (inject_Z (HttpTransport.timeout this)) = true ->
  HttpTransport.send this remote req = (AxiosRetry.retried req delay 0 k, inr body).
Proof.
  intros this delay Hfail Hok Hk Hafford.
  unfold HttpTransport.send, AxiosRetry.request.
  apply (attempt_recovers (HttpTransport.retry this) req (remote req) err body k); auto.
  intros i Hi. apply Hfail. lia.
Qed.

(** Logging off: the call is the bare transport call. *)
Lemma debugLog_off (A : Type) (this : OptimizationClient.OptimizationClient)
    (label : string) (payload : option value) (c : M A) :
  OptimizationClient.cfg_debug (OptimizationClient.config this) <> Some true ->
  (OptimizationClient.debugLog this label payload ;; c) = c.
Proof.
  intros Hd. unfold OptimizationClient.debugLog.
  destruct (OptimizationClient.cfg_debug (OptimizationClient.config this)) as [[|] |];
    [contradiction | |]; destruct c as [t r]; reflexivity.
Qed.

Lemma debugLog_on (A : Type) (this : OptimizationClient.OptimizationClient)
    (label : string) (payload : option value) (c : M A) :
  OptimizationClient.cfg_debug (OptimizationClient.config this) = Some true ->
  (OptimizationClient.debugLog this label payload ;; c) =
    (Logged label payload :: trace c, outcome c).
Proof.
  intros Hd. unfold OptimizationClient.debugLog. rewrite Hd. apply emit_then.
Qed.

Lemma send_logs_nothing (this : HttpTransport.HttpTransport) (remote : Remote)
    (req : Request) :
  logs (trace (HttpTransport.send this remote req)) = [].
Proof.
  unfold HttpTransport.send, AxiosRetry.request.
  destruct (attempt_counts (HttpTransport.retry this) req (remote req)
              (Z.to_nat (AxiosRetry.retries (HttpTransport.retry this))) 0%nat
              (inject_Z (HttpTransport.timeout this))) as [j [_ [_ [_ Hl]]]].
  exact Hl.
Qed.

(** X4.  [solveLp], [solveMip] and [solveTsp] log only in debug mode: with
    [debug] off the operation is the bare post and nothing is logged; with
    [debug] on exactly one line is logged, before anything is sent, and it
    carries the problem. *)
Theorem debug_logs_once_before_sending
    (op : OptimizationClient.OptimizationClient -> Remote -> value -> M value)
    (path : string) (this : OptimizationClient.OptimizationClient)
    (remote : Remote) (problem : value) :
  In (op, path) OptimizationClient.solveOperations ->
  (OptimizationClient.cfg_debug (OptimizationClient.config this) <> Some true ->
   op this remote problem =
     HttpTransport.post (OptimizationClient.transport this) remote path problem /\
   logs (trace (op this remote problem)) = []) /\
  (OptimizationClient.cfg_debug (OptimizationClient.config this) = Some true ->
   exists label : string,
     trace (op this remote problem) =
       Logged label (Some problem) ::
       trace (HttpTransport.post (OptimizationClient.transport this) remote path problem) /\
     logs (trace (op this remote problem)) = [(label, Some problem)] /\
     String.prefix "[OptimizationClient] Solving " label = true).
Proof.
  intros Hin. cbn in Hin.
  destruct Hin as [Heq | [Heq | [Heq | []]]]; injection Heq as <- <-; split.
  all: try (intros Hd;
            unfold OptimizationClient.solveLp, OptimizationClient.solveMip,
              OptimizationClient.solveTsp;
            rewrite (debugLog_off _ _ _ _ _ Hd); split;
            [reflexivity | apply send_logs_nothing]).
  all: intros Hd; eexists;
    unfold OptimizationClient.solveLp, OptimizationClient.solveMip,
      OptimizationClient.solveTsp;
    rewrite (debugLog_on _ _ _ _ _ Hd); cbn [trace fst];
    split; [reflexivity |]; split; [| reflexivity];
    change (logs (Logged ?l ?p :: ?t)) with ((l, p) :: logs t);
    unfold HttpTransport.post; rewrite send_logs_nothing; reflexivity.
Qed.

End TransportUse.

(** ** Every tool call *)

Section ToolCalls.
Context `{Platform}.
Variables url key : option string.

Lemma client_debug_off :
  OptimizationClient.cfg_debug (OptimizationClient.config (Server.client url key))
    <> Some true.
Proof. discriminate. Qed.

(** A tool call is at most one call of the transport. *)
Lemma tool_call_is_one_send (remote : Remote) (name : string)
    (args : option (list (string * value))) :
  trace (Server.CallToolRequestHandler url key remote name args) = [] \/
  exists req : Request,
    trace (Server.CallToolRequestHandler url key remote name args) =
      trace (HttpTransport.send (OptimizationClient.transport (Server.client url key))
               remote req) /\
    req_baseURL req = Server.SERVER_URL url /\
    req_headers req =
      [("Content-Type", "application/json"); ("X-API-Key", Server.API_KEY key)].
Proof.
  destruct args as [a |]; [| left; reflexivity].
  unfold Server.CallToolRequestHandler. rewrite trace_catch_pure by reflexivity.
  unfold Server.dispatch.
  repeat match goal with
  | |- context [if (name =? ?t) then _ else _] => destruct (name =? t)
  end;
  try (rewrite trace_bind_pure
         by (intros; match goal with
                     | |- trace (bind (lift ?c) _) = [] => destruct c; reflexivity
                     end);
       unfold OptimizationClient.solveLp, OptimizationClient.solveMip,
         OptimizationClient.solveTsp, OptimizationClient.analyzeProblem,
         OptimizationClient.getReport;
       rewrite (debugLog_off _ _ _ _ _ client_debug_off)).
  1-4: right; eexists; split; [reflexivity | split; reflexivity].
  - unfold toStr. destruct (ToString (lookup "report_id" a)) as [id |].
    + right. rewrite lift_returns_then.
      eexists; split; [reflexivity | split; reflexivity].
    + left. reflexivity.
  - left. reflexivity.
Qed.

(** X5.  Whatever the tool and its arguments, a tool call sends at most
    three requests (two retries), all of them the same request, each to the
    configured server URL with the JSON content type and the configured API
    key as its only headers; and it logs nothing. *)
Theorem tool_call_requests_are_configured (remote : Remote) (name : string)
    (args : option (list (string * value))) :
  let sent := requests (trace (Server.CallToolRequestHandler url key remote name args)) in
  (length sent <= 3)%nat /\
  (forall r, In r sent ->
     req_baseURL r = Server.SERVER_URL url /\
     req_headers r =
       [("Content-Type", "application/json"); ("X-API-Key", Server.API_KEY key)]) /\
  (forall r1 r2, In r1 sent -> In r2 sent -> r1 = r2) /\
  logs (trace (Server.CallToolRequestHandler url key remote name args)) = [].
Proof.
  intros sent. unfold sent.
  destruct (tool_call_is_one_send remote name args) as [Hnone | [req [Hone [Hurl Hkey]]]].
  - rewrite Hnone. cbn. split; [lia |]. split; [intros r [] |].
    split; [intros r1 r2 [] | reflexivity].
  - rewrite Hone, send_logs_nothing.
    destruct (attempt_counts
                (HttpTransport.retry (OptimizationClient.transport (Server.client url key)))
                req (remote req) 2 0%nat
                (inject_Z (HttpTransport.timeout
                             (OptimizationClient.transport (Server.client url key)))))
      as [j [Hj [Hr _]]].
    unfold HttpTransport.send, AxiosRetry.request.
    change (Z.to_nat (AxiosRetry.retries
              (HttpTransport.retry (OptimizationClient.transport (Server.client url key)))))
      with 2%nat.
    rewrite Hr. split; [rewrite repeat_length; lia |].
    split; [intros r Hin; apply repeat_spec in Hin; subst r; split; assumption |].
    split; [| reflexivity].
    intros r1 r2 H1 H2. apply repeat_spec in H1, H2. congruence.
Qed.

(** X6.  A call of a tool that is not declared, whatever its arguments, is
    answered with one text block reading [Error: Unknown tool: <name>] and
    the error flag set; nothing is sent and nothing is logged. *)
Theorem undeclared_tool_is_refused (remote : Remote) (name : string)
    (args : list (string * value)) :
  ~ In name Server.toolNames ->
  Server.CallToolRequestHandler url key remote name (Some args) =
    ([],
     inr {| Server.content :=
              [{| Server.type := "text";
                  Server.text := "Error: Unknown tool: " +++ name |}];
            Server.isError := Some true |}).
Proof.
  intros Hn. unfold Server.CallToolRequestHandler.
  rewrite (dispatch_unknown_tool url key remote name args Hn). reflexivity.
Qed.

(** X7.  A solve tool whose request the remote answers with a status other
    than 429 and 503 is not retried: one request is sent, and the result is
    one text block reading [Error: ] followed by the message of the axios
    error, with the error flag set. *)
Theorem rejected_solve_becomes_error_block (remote : Remote)
    (args : list (string * value)) (name path : string) (problem : value)
    (msg : string) (c : option string) (r : AxiosResponse) :
  In (name, path, problem) (Server.solveTools args) ->
  let req := HttpTransport.postRequest
               (OptimizationClient.transport (Server.client url key)) path problem in
  reply (remote req) 0 = Rejected msg c (Some r) ->
  status r <> 429%Z -> status r <> 503%Z ->
  Server.CallToolRequestHandler url key remote name (Some args) =
    ([Sent req],
     inr {| Server.content :=
              [{| Server.type := "text"; Server.text := "Error: " +++ msg |}];
            Server.isError := Some true |}).
Proof.
  intros Hin req Hw H429 H503.
  assert (Hsend : HttpTransport.send (OptimizationClient.transport (Server.client url key))
                    remote req =
                  ([Sent req], inl (AxiosErr (toError req msg c (Some r))))).
  { unfold HttpTransport.send, AxiosRetry.request. apply attempt_not_retried.
    - rewrite Hw. reflexivity.
    - apply retryCondition_refuses; [assumption | assumption |].
      right. right. cbn. intros [Hm | [Hm | [Hm | [Hm | [Hm | []]]]]]; discriminate. }
  cbn in Hin.
  destruct Hin as [Heq | [Heq | [Heq | []]]]; injection Heq as <- <- <-;
    unfold Server.CallToolRequestHandler, Server.dispatch; literal_tests;
    unfold OptimizationClient.solveLp, OptimizationClient.solveMip,
      OptimizationClient.solveTsp;
    rewrite (debugLog_off _ _ _ _ _ client_debug_off);
    unfold HttpTransport.post; fold req; rewrite Hsend; reflexivity.
Qed.

End ToolCalls.

(** ** The formatters on any payload *)

Section FormattersTotal.
Context `{Platform}.
Variable url : option string.

Lemma entryLine_returns (name : string) (v : value) (s : string) :
  ToString v = Some s ->
  Server.entryLine (name, v) = inr ("- " +++ name +++ " = " +++ s).
Proof.
  intros Hv. unfold Server.entryLine. rewrite (toStr_returns v s Hv). reflexivity.
Qed.

Lemma reportHint_returns (viewAt : string) (report_id : value) (hint : list string) :
  truthy report_id = false /\ hint = [] \/
  (exists id : string,
      truthy report_id = true /\ ToString report_id = Some id /\
      hint = [""; "**Report ID:** " +++ id;
              viewAt +++ Server.SERVER_URL url +++ "/api/reports/" +++ id]) ->
  Server.reportHint url viewAt report_id = inr hint.
Proof.
  unfold Server.reportHint.
  intros [[Ht ->] | [rid [Ht [Hid ->]]]]; rewrite Ht; [reflexivity |].
  rewrite (toStr_returns _ _ Hid). reflexivity.
Qed.

(** X8.  [formatSolveResponse] case by case.  On [null] or [undefined] it
    throws a [TypeError] for reading [status]; on a payload whose status has
    no string conversion, the [TypeError] of the conversion.  When the
    status, the objective value and the values of the solution convert: on an
    [execution_time_ms] that is neither missing nor a number it throws a
    [TypeError] because [toFixed] is not a function; otherwise, when the
    solver name and a truthy report identifier convert too, it returns the
    text, with one line per entry of the solution, [undefined] for a missing
    solve time and [OR-Tools] for a missing solver. *)
Theorem solve_format_cases (result : value) (problemType : string) :
  let time := field result "execution_time_ms" in
  let solution := field result "solution" in
  let solver := or (optField (field result "solver_info") "solver") (VStr "OR-Tools") in
  let report_id := field result "report_id" in
  (nullish result = true ->
   Server.formatSolveResponse url result problemType =
     inl (TypeError (ReadPropertyOf result "status"))) /\
  (nullish result = false -> ToString (field result "status") = None ->
   Server.formatSolveResponse url result problemType =
     inl (TypeError ConvertToPrimitive)) /\
  (forall (status objective : string) (entryLines : list string),
      nullish result = false ->
      ToString (field result "status") = Some status ->
      ToString (field result "objective_value") = Some objective ->
      (truthy solution = false /\ entryLines = [] \/
       truthy solution = true /\
       Forall2 (fun (entry : string * value) (l : string) =>
                  exists s : string,
                    ToString (snd entry) = Some s /\
                    l = "- " +++ fst entry +++ " = " +++ s)
               (entries solution) entryLines) ->
      (nullish time = false -> (forall x, time <> VNum x) ->
       Server.formatSolveResponse url result problemType =
         inl (TypeError (NotAFunction "result.execution_time_ms?.toFixed"))) /\
      (forall (solverName : string) (hint : list string),
          nullish time = true \/ (exists x, time = VNum x) ->
          ToString solver = Some solverName ->
          (truthy report_id = false /\ hint = [] \/
           exists id : string,
             truthy report_id = true /\ ToString report_id = Some id /\
             hint = [""; "**Report ID:** " +++ id;
                     "View the full report at: " +++ Server.SERVER_URL url +++
                     "/api/reports/" +++ id]) ->
          Server.formatSolveResponse url result problemType =
            inr (join nl
                   (["## " +++ problemType +++ " Solution"; "";
                     "**Status:** " +++ status;
                     "**Objective Value:** " +++ objective; "";
                     "### Solution Values:"] ++
                    entryLines ++
                    [""; "**Solve Time:** " +++
                         (match time with VNum x => toFixed x 2 | _ => "undefined" end) +++
                         "ms";
                     "**Solver:** " +++ solverName] ++
                    hint)))).
Proof.
  intros time solution solver report_id. split; [| split].
  - intros Hn. unfold Server.formatSolveResponse, Server.solveBody, getProp.
    rewrite Hn. reflexivity.
  - intros Hn Hs. unfold Server.formatSolveResponse, Server.solveBody.
    rewrite !(getProp_returns result _ Hn). run_exc_goal.
    rewrite (toStr_throws _ Hs). reflexivity.
  - intros status objective entryLines Hn Hstatus Hobjective Hentries.
    unfold Server.formatSolveResponse, Server.solveBody.
    rewrite !(getProp_returns result _ Hn). run_exc_goal.
    rewrite (toStr_returns _ _ Hstatus). run_exc_goal.
    rewrite (toStr_returns _ _ Hobjective). run_exc_goal.
    fold solution. fold time. fold report_id.
    match goal with
    | |- context [if truthy solution then ?A else ?B] =>
        assert (He : (if truthy solution then A else B) = inr entryLines)
    end.
    { destruct Hentries as [[Ht ->] | [Ht Hls]]; rewrite Ht; [reflexivity |].
      apply forEach_returns_iff. eapply Forall2_impl; [| exact Hls].
      intros [name v] l [s [Hv ->]]. apply entryLine_returns. exact Hv. }
    rewrite He. run_exc_goal. split.
    + intros Ht Hx. destruct time as [| | b | x | s | items | props];
        try discriminate Ht; try reflexivity.
      exfalso. apply (Hx x). reflexivity.
    + intros solverName hint Ht Hsolver Hhint.
      assert (Hfix : (st <- toFixedOpt "result.execution_time_ms?.toFixed" time 2 ;;
                      toStr st) =
                     inr (match time with VNum x => toFixed x 2 | _ => "undefined" end)).
      { destruct Ht as [Ht | [x ->]]; [| reflexivity].
        destruct time; try discriminate Ht; reflexivity. }
      destruct (toFixedOpt "result.execution_time_ms?.toFixed" time 2) as [e | st];
        [discriminate Hfix |].
      run_exc_goal. run_exc Hfix. rewrite Hfix. run_exc_goal.
      rewrite getPropOpt_returns. run_exc_goal. fold solver.
      rewrite (toStr_returns _ _ Hsolver). run_exc_goal.
      rewrite (reportHint_returns _ _ _ Hhint). run_exc_goal.
      rewrite <- !app_assoc. reflexivity.
Qed.

Lemma toStr_returns_iff (v : value) :
  (exists s, toStr v = inr s) <-> ToString v <> None.
Proof.
  unfold toStr. destruct (ToString v) as [s |]; split.
  - intros _. discriminate.
  - intros _. exists s. reflexivity.
  - intros [s Hs]. discriminate Hs.
  - intros Hn. contradiction.
Qed.

Lemma thousandth_returns_iff (v : value) (d : nat) :
  (exists s, Server.thousandth v d = inr s) <-> ToNumber v <> None.
Proof.
  unfold Server.thousandth, toNum. destruct (ToNumber v) as [x |]; split.
  - intros _. discriminate.
  - intros _. eexists. reflexivity.
  - intros [s Hs]. discriminate Hs.
  - intros Hn. contradiction.
Qed.

Lemma segmentLine_defined_iff (seg : value) :
  (exists l, Server.segmentLine seg = inr l) <->
  nullish seg = false /\
  ToNumber (field seg "distance") <> None /\
  ToString (field seg "from_name") <> None /\
  ToString (field seg "to_name") <> None.
Proof.
  split.
  - intros [l Hl]. apply segmentLine_returns_iff in Hl.
    destruct Hl as [Hn [d [f [t [Hd [Hf [Ht _]]]]]]].
    rewrite Hd, Hf, Ht. repeat split; try assumption; discriminate.
  - intros [Hn [Hd [Hf Ht]]].
    destruct (ToNumber (field seg "distance")) as [d |] eqn:Ed; [| contradiction].
    destruct (ToString (field seg "from_name")) as [f |] eqn:Ef; [| contradiction].
    destruct (ToString (field seg "to_name")) as [t |] eqn:Et; [| contradiction].
    eexists. apply segmentLine_returns_iff. split; [exact Hn |].
    exists d, f, t. repeat split; try assumption; reflexivity.
Qed.

Lemma forEach_defined_iff (A B : Type) (f : A -> Exc B) (l : list A) :
  (exists bs, forEach f l = inr bs) <-> Forall (fun a => exists b, f a = inr b) l.
Proof.
  induction l as [| a l IH].
  - split; [intros _; constructor | intros _; exists []; reflexivity].
  - split.
    + intros [bs Hbs]. apply forEach_returns_iff in Hbs.
      inversion Hbs as [| a' b l' bs' Hfa Hrest]; subst.
      constructor; [exists b; exact Hfa |].
      apply IH. exists bs'. apply forEach_returns_iff. exact Hrest.
    + intros Hall. inversion Hall as [| a' l' [b Hfa] Hrest]; subst.
      apply IH in Hrest. destruct Hrest as [bs Hbs].
      exists (b :: bs). apply forEach_returns_iff. constructor; [exact Hfa |].
      apply forEach_returns_iff. exact Hbs.
Qed.

(** The line of a segment that is a character of a string. *)
Lemma segmentLine_of_character (c : string) :
  exists l, Server.segmentLine (VStr c) = inr l.
Proof.
  apply segmentLine_defined_iff. cbn. repeat split; discriminate.
Qed.

(** X9.  [formatTspResponse] returns a text exactly when nothing it reads is
    missing where it must not be and everything it prints converts: the
    payload is neither [null] nor [undefined]; the status converts to a
    string, the objective value and the execution time to numbers; the
    route names are falsy or an array whose elements convert; the segments
    are falsy, a string, or an array of segments that are neither [null] nor
    [undefined] and whose distance and names convert; the report identifier
    is falsy or converts.  On every other payload it throws. *)
Theorem tsp_format_returns_iff (result : value) :
  let route := optField (field result "solution") "route_names" in
  let segments := optField (field result "solution") "segments" in
  let report_id := field result "report_id" in
  (exists text, Server.formatTspResponse url result = inr text) <->
  nullish result = false /\
  ToString (field result "status") <> None /\
  ToNumber (field result "objective_value") <> None /\
  (truthy route = false \/
   exists names, route = VArr names /\ arrayJoin names " → " <> None) /\
  (truthy segments = false \/
   (exists s, segments = VStr s) \/
   exists segs,
     segments = VArr segs /\
     Forall (fun seg =>
               nullish seg = false /\
               ToNumber (field seg "distance") <> None /\
               ToString (field seg "from_name") <> None /\
               ToString (field seg "to_name") <> None) segs) /\
  ToNumber (field result "execution_time_ms") <> None /\
  (truthy report_id = false \/ ToString report_id <> None).
Proof.
  intros route segments report_id.
  destruct (nullish result) eqn:Hn.
  { split; [| intros [Hf _]; discriminate].
    intros [text Ht]. unfold Server.formatTspResponse, Server.tspBody, getProp in Ht.
    rewrite Hn in Ht. discriminate. }
  assert (Hroute : forall (A : Type) (k : list string -> Exc A),
             (exists a, (rl <- (if truthy route
                                then joined <- callJoin "route.join" route Server.arrow ;;
                                     ret [joined]
                                else ret []) ;; k rl) = inr a) ->
             truthy route = false \/
             exists names, route = VArr names /\ arrayJoin names " → " <> None).
  { intros A k [a Ha]. destruct (truthy route) eqn:Ht; [right | left; reflexivity].
    apply Ebind_returns in Ha. destruct Ha as [rl [Hrl _]].
    apply Ebind_returns in Hrl. destruct Hrl as [joined [Hj _]].
    destruct route as [| | b | x | s | items | props]; try discriminate Hj.
    exists items. split; [reflexivity |].
    cbn [callJoin] in Hj. unfold Server.arrow in Hj.
    destruct (arrayJoin items " → "); [discriminate | discriminate Hj]. }
  assert (Hsegs : forall (A : Type) (k : list string -> Exc A),
             (exists a, (sl <- (if truthy segments
                                then segs <- iterate "result.solution.segments" segments ;;
                                     ls <- forEach Server.segmentLine segs ;;
                                     ret ([""; "### Route Segments:"] ++ ls)
                                else ret []) ;; k sl) = inr a) ->
             truthy segments = false \/
             (exists s, segments = VStr s) \/
             exists segs,
               segments = VArr segs /\
               Forall (fun seg =>
                         nullish seg = false /\
                         ToNumber (field seg "distance") <> None /\
                         ToString (field seg "from_name") <> None /\
                         ToString (field seg "to_name") <> None) segs).
  { intros A k [a Ha]. destruct (truthy segments) eqn:Ht; [right | left; reflexivity].
    apply Ebind_returns in Ha. destruct Ha as [sl [Hsl _]].
    apply Ebind_returns in Hsl. destruct Hsl as [segs [Hit Hsl]].
    apply Ebind_returns in Hsl. destruct Hsl as [ls [Hls _]].
    destruct segments as [| | b | x | s | items | props]; try discriminate Hit.
    - left. exists s. reflexivity.
    - right. exists items. split; [reflexivity |].
      cbn in Hit. injection Hit as <-.
      assert (Hall : Forall (fun a => exists b, Server.segmentLine a = inr b) items)
        by (apply forEach_defined_iff; exists ls; exact Hls).
      eapply Forall_impl; [| exact Hall].
      intros seg Hseg. apply segmentLine_defined_iff. exact Hseg. }
  split.
  - intros [text Ht]. split; [reflexivity |].
    unfold Server.formatTspResponse in Ht.
    apply Ebind_returns in Ht. destruct Ht as [lines [Hb Ht]].
    rewrite (getProp_returns result _ Hn) in Ht. run_exc Ht.
    apply Ebind_returns in Ht. destruct Ht as [hint [Hh _]].
    unfold Server.tspBody in Hb.
    rewrite !(getProp_returns result _ Hn) in Hb. run_exc Hb.
    rewrite !getPropOpt_returns in Hb. run_exc Hb.
    fold route in Hb. fold segments in Hb.
    pose proof Hb as Hb1.
    apply Ebind_returns in Hb1. destruct Hb1 as [status [Hstatus Hb1]].
    pose proof Hb1 as Hb2.
    apply Ebind_returns in Hb2. destruct Hb2 as [distance [Hdistance Hb2]].
    pose proof (Hroute _ _ (ex_intro _ lines Hb2)) as Hr.
    apply Ebind_returns in Hb2. destruct Hb2 as [rl [_ Hb3]].
    pose proof (Hsegs _ _ (ex_intro _ lines Hb3)) as Hs.
    apply Ebind_returns in Hb3. destruct Hb3 as [sl [_ Hb4]].
    apply Ebind_returns in Hb4. destruct Hb4 as [solveTime [Htime _]].
    split; [apply toStr_returns_iff; exists status; exact Hstatus |].
    split; [apply (thousandth_returns_iff _ 2); exists distance; exact Hdistance |].
    split; [exact Hr |]. split; [exact Hs |].
    split; [apply (thousandth_returns_iff _ 1); exists solveTime; exact Htime |].
    fold report_id in Hh. unfold Server.reportHint in Hh.
    destruct (truthy report_id); [right | left; reflexivity].
    apply Ebind_returns in Hh. destruct Hh as [rid [Hid _]].
    apply toStr_returns_iff. exists rid. exact Hid.
  - intros [_ [Hstatus [Hdistance [Hr [Hs [Htime Hid]]]]]].
    apply toStr_returns_iff in Hstatus. destruct Hstatus as [status Hstatus].
    apply (thousandth_returns_iff _ 2) in Hdistance.
    destruct Hdistance as [distance Hdistance].
    apply (thousandth_returns_iff _ 1) in Htime. destruct Htime as [solveTime Htime].
    unfold Server.formatTspResponse, Server.tspBody.
    rewrite !(getProp_returns result _ Hn). run_exc_goal.
    rewrite !getPropOpt_returns. run_exc_goal.
    fold route. fold segments. fold report_id.
    rewrite Hstatus. run_exc_goal. rewrite Hdistance. run_exc_goal.
    match goal with
    | |- context [if truthy route then ?A else ?B] =>
        assert (Hrl : exists rl, (if truthy route then A else B) = inr rl)
    end.
    { destruct Hr as [Ht | [names [-> Hj]]].
      - rewrite Ht. eexists. reflexivity.
      - cbn [truthy callJoin]. unfold Server.arrow.
        destruct (arrayJoin names " → "); [| contradiction].
        eexists. reflexivity. }
    destruct Hrl as [rl ->]. run_exc_goal.
    match goal with
    | |- context [if truthy segments then ?A else ?B] =>
        assert (Hsl : exists sl, (if truthy segments then A else B) = inr sl)
    end.
    { destruct Hs as [Ht | [[s Hseg] | [segs [Hseg Hall]]]].
      - rewrite Ht. eexists. reflexivity.
      - rewrite Hseg. destruct (truthy (VStr s)); [| eexists; reflexivity].
        cbn [iterate]. run_exc_goal.
        assert (Hls : exists ls, forEach Server.segmentLine (map VStr (chars s)) = inr ls).
        { apply forEach_defined_iff. apply Forall_forall. intros seg Hin.
          apply in_map_iff in Hin. destruct Hin as [c [<- _]].
          apply segmentLine_of_character. }
        destruct Hls as [ls ->]. eexists. reflexivity.
      - rewrite Hseg. cbn [truthy iterate]. run_exc_goal.
        assert (Hls : exists ls, forEach Server.segmentLine segs = inr ls).
        { apply forEach_defined_iff. eapply Forall_impl; [| exact Hall].
          intros seg Hseg'. apply segmentLine_defined_iff. exact Hseg'. }
        destruct Hls as [ls ->]. eexists. reflexivity. }
    destruct Hsl as [sl ->]. run_exc_goal.
    rewrite Htime. run_exc_goal.
    unfold Server.reportHint.
    destruct Hid as [Ht | Hid].
    + rewrite Ht. eexists. reflexivity.
    + destruct (truthy report_id); [| eexists; reflexivity].
      apply toStr_returns_iff in Hid. destruct Hid as [rid ->].
      eexists. reflexivity.
Qed.

End FormattersTotal.

(** ** The remaining tools and operations *)

(** *** The length of an array as a number *)

Lemma digits2_pos_iter (p k : positive) :
  digits2_pos (Pos.iter xO p k) = (digits2_pos p + k)%positive.
Proof.
  induction k as [| k IH] using Pos.peano_ind.
  - cbn. rewrite Pos.add_1_r. reflexivity.
  - rewrite Pos.iter_succ. cbn [digits2_pos]. rewrite IH. lia.
Qed.

Lemma digits2_pos_lower (p : positive) :
  (2 ^ (Z.pos (digits2_pos p) - 1) <= Z.pos p)%Z.
Proof.
  induction p as [p IH | p IH |]; cbn [digits2_pos]; [| | cbn; lia].
  - rewrite Pos2Z.inj_succ.
    replace (Z.succ (Z.pos (digits2_pos p)) - 1)%Z
      with (Z.succ (Z.pos (digits2_pos p) - 1)) by lia.
    rewrite Z.pow_succ_r by lia. lia.
  - rewrite Pos2Z.inj_succ.
    replace (Z.succ (Z.pos (digits2_pos p)) - 1)%Z
      with (Z.succ (Z.pos (digits2_pos p) - 1)) by lia.
    rewrite Z.pow_succ_r by lia. lia.
Qed.

(** An integer from 1 to 2^53 - 1 is a float of its own: finite, positive. *)
Lemma of_uint63_finite (p : positive) :
  (Z.pos p < 2 ^ 53)%Z ->
  exists (m : positive) (e : Z),
    Prim2SF (PrimFloat.of_uint63 (Uint63.of_Z (Z.pos p))) = S754_finite false m e.
Proof.
  intros Hp. rewrite of_uint63_spec, Uint63.of_Z_spec.
  rewrite Z.mod_small by (change Uint63Axioms.wB with (2 ^ 63)%Z; lia).
  assert (Hd : (Z.pos (digits2_pos p) <= 53)%Z).
  { destruct (Z_le_gt_dec (Z.pos (digits2_pos p)) 53) as [Hle | Hgt]; [exact Hle |].
    exfalso. pose proof (digits2_pos_lower p) as Hlow.
    assert (2 ^ 53 <= 2 ^ (Z.pos (digits2_pos p) - 1))%Z
      by (apply Z.pow_le_mono_r; lia).
    lia. }
  cbn [binary_normalize]. unfold binary_round.
  assert (Hfexp : fexp prec emax (Z.pos (digits2_pos p) + 0) =
                  (Z.pos (digits2_pos p) - 53)%Z).
  { unfold fexp, emin, prec, emax. lia. }
  rewrite Hfexp. unfold shl_align.
  assert (Haux : forall (mz : positive) (ez : Z),
             Z.pos (digits2_pos mz) = 53%Z -> (-52 <= ez <= 0)%Z ->
             binary_round_aux prec emax false (Z.pos mz) ez loc_Exact =
             S754_finite false mz ez).
  { intros mz ez Hmz Hez. unfold binary_round_aux, shr_fexp.
    cbn [Zdigits2 shr_record_of_loc]. rewrite Hmz.
    assert (Hn : (fexp prec emax (53 + ez) - ez = 0)%Z)
      by (unfold fexp, emin, prec, emax; lia).
    rewrite Hn. cbn [shr shr_m loc_of_shr_record round_nearest_even Zdigits2
                     shr_record_of_loc].
    rewrite Hmz, Hn. cbn [shr shr_m].
    destruct (Z.leb_spec ez (emax - prec)) as [_ | Hgt]; [reflexivity |].
    unfold emax, prec in Hgt. lia. }
  destruct (Z.pos (digits2_pos p) - 53 - 0)%Z as [| d | d] eqn:Hshift.
  - eexists; eexists. apply Haux; lia.
  - lia.
  - eexists; eexists. apply Haux.
    + rewrite digits2_pos_iter. lia.
    + lia.
Qed.

Lemma natToNumber_truthy (n : nat) :
  (0 < Z.of_nat n < 2 ^ 53)%Z -> truthy (VNum (natToNumber n)) = true.
Proof.
  intros Hn. unfold natToNumber.
  destruct (Z.of_nat n) as [| p | p] eqn:Hz; [lia | | lia].
  destruct (of_uint63_finite p ltac:(lia)) as [m [e Hf]].
  cbn [truthy]. unfold PrimFloat.is_zero, PrimFloat.is_nan.
  rewrite !eqb_spec, Hf.
  change (Prim2SF PrimFloat.zero) with (S754_zero false).
  unfold SFeqb. cbn [SFcompare].
  rewrite Z.compare_refl, Pos.compare_cont_refl. reflexivity.
Qed.

Section RemainingTools.
Context `{Platform}.
Variables url key : option string.

Lemma itemLines_return (items : list value) (strs : list string) :
  Forall2 (fun x s => ToString x = Some s) items strs ->
  forEach Server.itemLine items = inr (map (fun s => "- " +++ s) strs).
Proof.
  intros Hall. apply forEach_returns_iff.
  induction Hall as [| x s items strs Hx _ IH]; cbn [map]; constructor; [| exact IH].
  unfold Server.itemLine. rewrite (toStr_returns x s Hx). reflexivity.
Qed.

(** One itemised list: nothing for a list that is missing, [null] or empty;
    for an array with elements (fewer than 2^32, as many as an array can
    hold), the header and a line per element. *)
Lemma itemised_returns (expr header : string) (detected : value) (ls : list string) :
  In detected [VUndefined; VNull; VArr []; VStr ""] /\ ls = [] \/
  (exists (items : list value) (strs : list string),
      detected = VArr items /\
      items <> [] /\ (Z.of_nat (length items) < 2 ^ 32)%Z /\
      Forall2 (fun x s => ToString x = Some s) items strs /\
      ls = header :: map (fun s => "- " +++ s) strs) ->
  Server.itemised expr header detected = inr ls.
Proof.
  intros [[Hin ->] | [items [strs [-> [Hne [Hlen [Hall ->]]]]]]].
  - destruct Hin as [<- | [<- | [<- | [<- | []]]]]; reflexivity.
  - unfold Server.itemised. rewrite getPropOpt_returns. run_exc_goal.
    unfold optField. cbn [nullish field]. literal_tests.
    rewrite natToNumber_truthy.
    + cbn [iterate]. run_exc_goal.
      rewrite (itemLines_return items strs Hall). reflexivity.
    + split; [destruct items; [contradiction | cbn [length]; lia] |].
      apply Z.lt_trans with (2 ^ 32)%Z; [exact Hlen | reflexivity].
Qed.

(** X10.  [formatAnalysisResponse] treats its three lists one by one.  A list
    that is missing, [null] or empty gets no section, whatever the other
    two hold; an array with elements (fewer than 2^32, as many as an array
    can hold) gets its header and one line per element, and the first two
    are followed by an empty line.  When all three are
    empty the text is the heading, the problem type and the confidence. *)
Theorem analysis_skips_empty_lists (result : value) (problem_type confidence : string)
    (vs cs rs : list string) :
  nullish result = false ->
  ToString (field result "problem_type") = Some problem_type ->
  ToString (field result "confidence") = Some confidence ->
  (In (field result "variables_detected") [VUndefined; VNull; VArr []; VStr ""] /\ vs = [] \/
   exists (items : list value) (strs : list string),
     field result "variables_detected" = VArr items /\
     items <> [] /\ (Z.of_nat (length items) < 2 ^ 32)%Z /\
     Forall2 (fun x s => ToString x = Some s) items strs /\
     vs = "### Detected Variables:" :: map (fun s => "- " +++ s) strs) ->
  (In (field result "constraints_detected") [VUndefined; VNull; VArr []; VStr ""] /\ cs = [] \/
   exists (items : list value) (strs : list string),
     field result "constraints_detected" = VArr items /\
     items <> [] /\ (Z.of_nat (length items) < 2 ^ 32)%Z /\
     Forall2 (fun x s => ToString x = Some s) items strs /\
     cs = "### Detected Constraints:" :: map (fun s => "- " +++ s) strs) ->
  (In (field result "recommendations") [VUndefined; VNull; VArr []; VStr ""] /\ rs = [] \/
   exists (items : list value) (strs : list string),
     field result "recommendations" = VArr items /\
     items <> [] /\ (Z.of_nat (length items) < 2 ^ 32)%Z /\
     Forall2 (fun x s => ToString x = Some s) items strs /\
     rs = "### Recommendations:" :: map (fun s => "- " +++ s) strs) ->
  Server.formatAnalysisResponse result =
    inr (join nl
           (["## Problem Analysis"; "";
             "**Problem Type:** " +++ problem_type;
             "**Confidence:** " +++ confidence; ""] ++
            (match vs with [] => [] | _ => vs ++ [""] end) ++
            (match cs with [] => [] | _ => cs ++ [""] end) ++
            rs)) /\
  (vs = [] -> cs = [] -> rs = [] ->
   Server.formatAnalysisResponse result =
     inr (join nl
            ["## Problem Analysis"; "";
             "**Problem Type:** " +++ problem_type;
             "**Confidence:** " +++ confidence; ""])).
Proof.
  intros Hn Htype Hconf Hvs Hcs Hrs.
  assert (Htext : Server.formatAnalysisResponse result =
    inr (join nl
           (["## Problem Analysis"; "";
             "**Problem Type:** " +++ problem_type;
             "**Confidence:** " +++ confidence; ""] ++
            (match vs with [] => [] | _ => vs ++ [""] end) ++
            (match cs with [] => [] | _ => cs ++ [""] end) ++
            rs))).
  { unfold Server.formatAnalysisResponse.
    rewrite !(getProp_returns result _ Hn). run_exc_goal.
    rewrite (toStr_returns _ _ Htype). run_exc_goal.
    rewrite (toStr_returns _ _ Hconf). run_exc_goal.
    rewrite (itemised_returns _ _ _ vs Hvs). run_exc_goal.
    rewrite (itemised_returns _ _ _ cs Hcs). run_exc_goal.
    rewrite (itemised_returns _ _ _ rs Hrs). reflexivity. }
  split; [exact Htext |].
  intros -> -> ->. exact Htext.
Qed.

(** X11.  [get_report] for a report identifier that converts to a string and
    a report the remote serves: one get of [/api/reports/<report_id>] is
    sent, and the text tells the length of the HTML in UTF-16 code units and
    repeats the report identifier; the HTML itself is not part of the
    result.  For an identifier that does not convert nothing is sent and the
    result is the error block of the [TypeError]. *)
Theorem get_report_tells_length_and_id (remote : Remote)
    (args : list (string * value)) :
  let reportId := lookup "report_id" args in
  (forall id html : string,
      ToString reportId = Some id ->
      let req := HttpTransport.getRequest
                   (OptimizationClient.transport (Server.client url key))
                   ("/api/reports/" +++ id) in
      reply (remote req) 0 = Fulfilled (VStr html) ->
      Server.CallToolRequestHandler url key remote "get_report" (Some args) =
        ([Sent req],
         inr {| Server.content :=
                  [{| Server.type := "text";
                      Server.text :=
                        "HTML Report (" +++
                        NumberToString (natToNumber (length (units html))) +++
                        " characters):" +++ nl +++ nl +++
                        "The report has been retrieved. To view it, save the content to an HTML file and open in a browser." +++
                        nl +++ nl +++ "Report ID: " +++ id |}];
                Server.isError := None |})) /\
  (ToString reportId = None ->
   Server.CallToolRequestHandler url key remote "get_report" (Some args) =
     ([],
      inr {| Server.content :=
               [{| Server.type := "text";
                   Server.text := "Error: " +++ TypeError_message ConvertToPrimitive |}];
             Server.isError := Some true |})).
Proof.
  intros reportId. split.
  - intros rid html Hid req Hw.
    unfold Server.CallToolRequestHandler, Server.dispatch. literal_tests.
    unfold OptimizationClient.getReport.
    rewrite (debugLog_off _ _ _ _ _ (client_debug_off url key)).
    fold reportId. rewrite (toStr_returns _ _ Hid), lift_value_then.
    unfold HttpTransport.get. fold req.
    rewrite (send_fulfilled _ _ _ _ Hw). reflexivity.
  - intros Hid.
    unfold Server.CallToolRequestHandler, Server.dispatch. literal_tests.
    unfold OptimizationClient.getReport.
    rewrite (debugLog_off _ _ _ _ _ (client_debug_off url key)).
    fold reportId. rewrite (toStr_throws _ Hid). reflexivity.
Qed.

(** X12.  [listReports] on any fulfilled body sends one get and returns
    the body's [reports] property whatever it is ([undefined] when the body
    has none); only a body that is [null] or [undefined] makes it throw, a
    [TypeError]. *)
Theorem listReports_on_any_body (this : OptimizationClient.OptimizationClient)
    (remote : Remote) (limit : option float) (body : value) :
  let req := HttpTransport.getRequest (OptimizationClient.transport this)
               ("/api/reports?limit=" +++
                NumberToString (match limit with Some n => n | None => 50%float end)) in
  reply (remote req) 0 = Fulfilled body ->
  outcome (OptimizationClient.listReports this remote limit) =
    (if nullish body then inl (TypeError (ReadPropertyOf body "reports"))
     else inr (field body "reports")) /\
  requests (trace (OptimizationClient.listReports this remote limit)) = [req].
Proof.
  intros req Hw. unfold OptimizationClient.listReports.
  match goal with
  | |- outcome (?d ;; ?c) = _ /\ _ =>
      destruct (debugLog_then _ this "[OptimizationClient] Listing reports" None c)
        as [Ho Ht]
  end.
  rewrite Ho, Ht. unfold HttpTransport.get. fold req.
  rewrite (send_fulfilled _ _ _ _ Hw). cbn [bind Monad_M Mbind lift]. unfold getProp.
  destruct (nullish body); split; reflexivity.
Qed.

(** *** What a formatter can throw *)

Lemma te_ret (A : Type) (a : A) : throwsTypeErrors (ret a).
Proof. intros e He. discriminate. Qed.

Lemma te_bind (A B : Type) (c : Exc A) (k : A -> Exc B) :
  throwsTypeErrors c -> (forall a, throwsTypeErrors (k a)) ->
  throwsTypeErrors (bind c k).
Proof.
  intros Hc Hk e He. destruct c as [e' | a]; cbn in He.
  - injection He as <-. apply Hc. reflexivity.
  - apply (Hk a). exact He.
Qed.

Lemma te_getProp (base : value) (prop : string) : throwsTypeErrors (getProp base prop).
Proof.
  intros e. unfold getProp. destruct (nullish base); cbn; intros He;
    [injection He as <-; eexists; reflexivity | discriminate].
Qed.

Lemma te_getPropOpt (base : value) (prop : string) :
  throwsTypeErrors (getPropOpt base prop).
Proof. rewrite getPropOpt_returns. intros e He. discriminate. Qed.

Lemma te_toStr (v : value) : throwsTypeErrors (toStr v).
Proof.
  intros e. unfold toStr. destruct (ToString v); cbn; intros He;
    [discriminate | injection He as <-; eexists; reflexivity].
Qed.

Lemma te_toNum (v : value) : throwsTypeErrors (toNum v).
Proof.
  intros e. unfold toNum. destruct (ToNumber v); cbn; intros He;
    [discriminate | injection He as <-; eexists; reflexivity].
Qed.

Lemma te_toFixedOpt (callee : string) (v : value) (d : nat) :
  throwsTypeErrors (toFixedOpt callee v d).
Proof.
  intros e. destruct v; cbn; intros He; try discriminate;
    injection He as <-; eexists; reflexivity.
Qed.

Lemma te_callJoin (callee : string) (v : value) (sep : string) :
  throwsTypeErrors (callJoin callee v sep).
Proof.
  intros e. destruct v as [| | b | x | s | items | props]; cbn; intros He;
    try discriminate; try (injection He as <-; eexists; reflexivity).
  destruct (arrayJoin items sep); [discriminate |].
  injection He as <-. eexists. reflexivity.
Qed.

Lemma te_iterate (expr : string) (v : value) : throwsTypeErrors (iterate expr v).
Proof.
  intros e. destruct v; cbn; intros He; try discriminate;
    injection He as <-; eexists; reflexivity.
Qed.

Lemma te_forEach (A B : Type) (f : A -> Exc B) (l : list A) :
  (forall a, throwsTypeErrors (f a)) -> throwsTypeErrors (forEach f l).
Proof.
  intros Hf. induction l as [| a l IH]; cbn [forEach]; [apply te_ret |].
  apply te_bind; [apply Hf |]. intros b.
  apply te_bind; [exact IH |]. intros bs. apply te_ret.
Qed.

Ltac type_errors :=
  repeat first
    [ apply te_ret | apply te_getProp | apply te_getPropOpt | apply te_toFixedOpt
    | apply te_toStr | apply te_toNum
    | apply te_callJoin | apply te_iterate
    | apply te_forEach; intros
    | apply te_bind; [| intros]
    | match goal with
      | |- throwsTypeErrors (if ?b then _ else _) => destruct b
      | |- throwsTypeErrors (match ?a with (_, _) => _ end) => destruct a
      end ].

Lemma format_throws_type_errors (result : value) (problemType : string) :
  throwsTypeErrors (Server.formatSolveResponse url result problemType) /\
  throwsTypeErrors (Server.formatTspResponse url result) /\
  throwsTypeErrors (Server.formatAnalysisResponse result).
Proof.
  unfold Server.formatSolveResponse, Server.solveBody, Server.formatTspResponse,
    Server.tspBody, Server.formatAnalysisResponse, Server.itemised, Server.segmentLine,
    Server.entryLine, Server.itemLine, Server.thousandth, Server.reportHint.
  repeat split; cbv zeta; type_errors.
Qed.

(** The text of [get_report] throws nothing else either. *)
Lemma report_text_throws_type_errors (A : Type) (html reportId : value)
    (text : string -> string -> A) :
  throwsTypeErrors (len <- getProp html "length" ;;
                    len <- toStr len ;;
                    id <- toStr reportId ;;
                    ret (text len id)).
Proof. type_errors. Qed.

End RemainingTools.

(** ** What a tool call can throw inside the handler *)

Section ToolErrors.
Context `{Platform}.
Variables url key : option string.

Lemma tool_step_throws (A B C : Type) (c : M A) (f : A -> Exc B) (g : A -> B -> C)
    (e : Thrown) :
  outcome (a <- c ;; b <- lift (f a) ;; ret (g a b)) = inl e ->
  outcome c = inl e \/ exists a, f a = inl e.
Proof.
  rewrite outcome_bind. destruct (outcome c) as [e' | a]; intros He;
    [left; congruence |].
  right. exists a. destruct (f a) as [e' | b]; cbn in He; [| discriminate].
  congruence.
Qed.

Lemma client_send_throws (remote : Remote) (req : Request) (e : Thrown) :
  outcome (HttpTransport.send (OptimizationClient.transport (Server.client url key))
             remote req) = inl e ->
  exists a, e = AxiosErr a.
Proof.
  intros He. unfold HttpTransport.send, AxiosRetry.request in He.
  destruct (attempt_throws_rejection _ _ _ _ _ _ _ He) as [n [_ [a [_ Ha]]]].
  exists a. exact Ha.
Qed.

(** X13.  What the [switch] of the handler can throw.  It throws the
    unknown-tool [Error] exactly for a name that is not declared.  For a
    declared tool an exception is either an axios error of the transport, and
    then the result of the handler is one text block reading [Error: ]
    followed by that error's message, with the error flag set; or it is a
    [TypeError], of the formatting or of building the path of a report. *)
Theorem tool_errors_by_origin (remote : Remote) (name : string)
    (args : list (string * value)) :
  ((exists msg, outcome (Server.dispatch url key remote name args) = inl (Error msg)) <->
   ~ In name Server.toolNames) /\
  (forall e,
      In name Server.toolNames ->
      outcome (Server.dispatch url key remote name args) = inl e ->
      (exists a, e = AxiosErr a /\
                 Server.CallToolRequestHandler url key remote name (Some args) =
                   (trace (Server.dispatch url key remote name args),
                    inr {| Server.content :=
                             [{| Server.type := "text";
                                 Server.text := "Error: " +++ message a |}];
                           Server.isError := Some true |})) \/
      (exists kind, e = TypeError kind /\
                    Server.CallToolRequestHandler url key remote name (Some args) =
                      (trace (Server.dispatch url key remote name args),
                       inr {| Server.content :=
                                [{| Server.type := "text";
                                    Server.text := "Error: " +++ TypeError_message kind |}];
                              Server.isError := Some true |}))).
Proof.
  assert (Hknown : forall e,
             In name Server.toolNames ->
             outcome (Server.dispatch url key remote name args) = inl e ->
             (exists a, e = AxiosErr a) \/ (exists kind, e = TypeError kind)).
  { intros e Hin He. unfold Server.dispatch in He.
    repeat match type of He with
    | outcome (if (name =? ?t) then _ else _) = _ =>
        destruct (String.eqb_spec name t) as [-> | ?]
    end.
    6: { exfalso. cbn in Hin. intuition congruence. }
    all: apply tool_step_throws in He; destruct He as [He | [a He]].
    all: try (left;
              unfold OptimizationClient.solveLp, OptimizationClient.solveMip,
                OptimizationClient.solveTsp, OptimizationClient.analyzeProblem in He;
              rewrite (debugLog_off _ _ _ _ _ (client_debug_off url key)) in He;
              apply (client_send_throws _ _ _ He)).
    - right. apply (proj1 (format_throws_type_errors url a "Linear Programming") e He).
    - right. apply (proj1 (format_throws_type_errors url a "Mixed-Integer Programming") e He).
    - right. apply (proj1 (proj2 (format_throws_type_errors url a "")) e He).
    - right. apply (proj2 (proj2 (format_throws_type_errors url a "")) e He).
    - unfold OptimizationClient.getReport in He.
      rewrite (debugLog_off _ _ _ _ _ (client_debug_off url key)) in He.
      unfold toStr in He. destruct (ToString (lookup "report_id" args)) as [id |].
      + rewrite lift_returns_then in He. left. apply (client_send_throws _ _ _ He).
      + right. cbn in He. injection He as <-. eexists. reflexivity.
    - right. apply (report_text_throws_type_errors _ _ _ _ e He). }
  split; [split |].
  - intros [msg He] Hin.
    destruct (Hknown _ Hin He) as [[a Ha] | [kind Hk]]; discriminate.
  - intros Hn. exists ("Unknown tool: " +++ name).
    rewrite (dispatch_unknown_tool url key remote name args Hn). reflexivity.
  - intros e Hin He.
    destruct (Hknown e Hin He) as [[a ->] | [kind ->]]; [left; exists a | right; exists kind];
      (split; [reflexivity |]);
      unfold Server.CallToolRequestHandler;
      destruct (Server.dispatch url key remote name args) as [t r]; cbn in He; subst r;
      cbn; rewrite app_nil_r; reflexivity.
Qed.

End ToolErrors.

(** ** The declared tools and the handler *)

Section DeclaredTools.
Context `{Platform}.
Variables url key : option string.

Lemma tools_are_named : map Server.tool_name Server.tools = Server.toolNames.
Proof. reflexivity. Qed.

(** X14.  The handler reads no argument that the tool's input schema does
    not declare: two calls of a declared tool whose arguments agree on the
    declared properties send the same requests and have the same result. *)
Theorem handler_reads_declared_properties (tool : Server.Tool) (remote : Remote)
    (args args' : list (string * value)) :
  In tool Server.tools ->
  (forall p, In p (Server.schema_properties tool) -> lookup p args = lookup p args') ->
  Server.CallToolRequestHandler url key remote (Server.tool_name tool) (Some args) =
  Server.CallToolRequestHandler url key remote (Server.tool_name tool) (Some args').
Proof.
  intros Hin Hsame. cbn in Hin.
  destruct Hin as [<- | [<- | [<- | [<- | [<- | []]]]]]; cbn in Hsame;
    unfold Server.CallToolRequestHandler, Server.dispatch; cbn [Server.tool_name];
    literal_tests; unfold Server.lpProblem, Server.tspProblem;
    repeat match goal with
    | |- context [lookup ?p args] => rewrite (Hsame p) by tauto
    end;
    reflexivity.
Qed.

(** X15.  The handler does not validate the arguments against the schema.
    A tool call sends nothing exactly when it has no arguments object, or the
    tool is not declared, or the tool is [get_report] and the report
    identifier has no string conversion (so that no path can be built);
    every other call of a declared tool, whatever its arguments hold,
    reaches the remote. *)
Theorem handler_sends_iff_declared (remote : Remote) (name : string)
    (args : option (list (string * value))) :
  requests (trace (Server.CallToolRequestHandler url key remote name args)) = [] <->
  args = None \/
  ~ In name Server.toolNames \/
  (name = "get_report" /\
   exists a, args = Some a /\ ToString (lookup "report_id" a) = None).
Proof.
  assert (Hsent : forall (A : Type) (req : Request) (k : value -> M A),
             (forall v, trace (k v) = []) ->
             requests (trace (v <- HttpTransport.send
                                     (OptimizationClient.transport (Server.client url key))
                                     remote req ;; k v)) <> []).
  { intros A req k Hk. rewrite trace_bind_pure by exact Hk.
    unfold HttpTransport.send, AxiosRetry.request.
    destruct (attempt_counts
                (HttpTransport.retry (OptimizationClient.transport (Server.client url key)))
                req (remote req)
                (Z.to_nat (AxiosRetry.retries
                   (HttpTransport.retry
                      (OptimizationClient.transport (Server.client url key))))) 0%nat
                (inject_Z (HttpTransport.timeout
                             (OptimizationClient.transport (Server.client url key)))))
      as [j [_ [Hr _]]].
    rewrite Hr. discriminate. }
  assert (Hpure : forall (A B : Type) (f : A -> Exc B) (g : B -> Server.CallToolResult)
                         (v : A),
             trace (t <- lift (f v) ;; ret (g t)) = []).
  { intros A B f g v. destruct (f v); reflexivity. }
  split.
  - intros Hnone. destruct args as [a |]; [right | left; reflexivity].
    destruct (in_dec string_dec name Server.toolNames) as [Hin | Hn]; [right | left; exact Hn].
    revert Hnone.
    unfold Server.CallToolRequestHandler. rewrite trace_catch_pure by reflexivity.
    unfold Server.dispatch. cbn in Hin.
    destruct Hin as [<- | [<- | [<- | [<- | [<- | []]]]]]; literal_tests;
      unfold OptimizationClient.solveLp, OptimizationClient.solveMip,
        OptimizationClient.solveTsp, OptimizationClient.analyzeProblem,
        OptimizationClient.getReport;
      rewrite (debugLog_off _ _ _ _ _ (client_debug_off url key));
      intros Hnone.
    1-4: exfalso; revert Hnone; apply Hsent; intros v; apply Hpure.
    split; [reflexivity |]. exists a. split; [reflexivity |].
    destruct (ToString (lookup "report_id" a)) as [id |] eqn:Hid; [exfalso | reflexivity].
    revert Hnone. rewrite (toStr_returns _ _ Hid).
    rewrite lift_value_then. apply Hsent. intros v. apply Hpure.
  - intros [-> | [Hn | [-> [a [-> Hid]]]]]; [reflexivity | |].
    + destruct args as [a |]; [| reflexivity].
      unfold Server.CallToolRequestHandler.
      rewrite (dispatch_unknown_tool url key remote name a Hn). reflexivity.
    + unfold Server.CallToolRequestHandler, Server.dispatch. literal_tests.
      unfold OptimizationClient.getReport.
      rewrite (debugLog_off _ _ _ _ _ (client_debug_off url key)).
      rewrite (toStr_throws _ Hid). reflexivity.
Qed.

End DeclaredTools.

(** ** Concrete runs of the further properties *)

(** X2, witness: the 400 a post meets is the error the call throws. *)
Lemma failed_call_witness :
  outcome (HttpTransport.send (OptimizationClient.transport defaultClient)
             (rejecting 400 noJitter) lpRequest) =
    inl (AxiosErr (rejectionOf lpRequest 400)) /\
  exists (n : nat) (a : AxiosError),
    (n <= 3)%nat /\
    rejection lpRequest (reply (rejecting 400 noJitter lpRequest) n) = Some a /\
    AxiosErr (rejectionOf lpRequest 400) = AxiosErr a /\
    method a = Some (req_method lpRequest).
Proof.
  split; [vm_compute; reflexivity |].
  apply (call_throws_a_failed_attempt (OptimizationClient.transport defaultClient)
           (rejecting 400 noJitter) lpRequest (AxiosErr (rejectionOf lpRequest 400))).
  vm_compute. reflexivity.
Defined.

(** X3, witness: two 503 answers, then the payload; the pauses are 220 and
    400 ms. *)
Lemma recovery_witness :
  HttpTransport.send (OptimizationClient.transport defaultClient) recovering lpRequest =
    (AxiosRetry.retried lpRequest
       (fun i => AxiosRetry.exponentialDelay (S i) (rejectionOf lpRequest 503) (someJitter i))
       0 2,
     inr lpPayload) /\
  map Qred (pauses (trace (HttpTransport.send (OptimizationClient.transport defaultClient)
                             recovering lpRequest))) = [220; 400].
Proof.
  split; [| vm_compute; reflexivity].
  apply (@call_recovers_from_transient_failures node "https://api.opt-tools.com" "key"
           (Some 30000%Z) (Some 3%Z) recovering lpRequest 2
           (fun _ => rejectionOf lpRequest 503) lpPayload).
  - intros [| [| i]] Hi; [split; reflexivity | split; reflexivity | lia].
  - reflexivity.
  - cbn; lia.
  - vm_compute. reflexivity.
Defined.

(** X4, witness: the logging client prints the problem once. *)
Lemma debug_log_witness :
  In (OptimizationClient.solveLp, "/api/solve/lp") OptimizationClient.solveOperations /\
  exists label : string,
    trace (OptimizationClient.solveLp debugClient
             (always (Fulfilled lpPayload) noJitter) lpScenario) =
      Logged label (Some lpScenario) ::
      trace (HttpTransport.post (OptimizationClient.transport debugClient)
               (always (Fulfilled lpPayload) noJitter) "/api/solve/lp" lpScenario) /\
    logs (trace (OptimizationClient.solveLp debugClient
                   (always (Fulfilled lpPayload) noJitter) lpScenario)) =
      [(label, Some lpScenario)] /\
    String.prefix "[OptimizationClient] Solving " label = true.
Proof.
  split; [left; reflexivity |].
  apply (proj2 (debug_logs_once_before_sending OptimizationClient.solveLp "/api/solve/lp"
                  debugClient (always (Fulfilled lpPayload) noJitter) lpScenario
                  (or_introl eq_refl))).
  reflexivity.
Defined.

(** X6, witness: a tool that is not declared, called with arguments. *)
Lemma undeclared_tool_witness :
  Server.CallToolRequestHandler None None (always (Fulfilled lpPayload) noJitter)
    "solve_qp" (Some [("variables", VArr [])]) =
    ([],
     inr {| Server.content :=
              [{| Server.type := "text";
                  Server.text := "Error: Unknown tool: solve_qp" |}];
            Server.isError := Some true |}).
Proof.
  apply (@undeclared_tool_is_refused node None None (always (Fulfilled lpPayload) noJitter)
           "solve_qp" [("variables", VArr [])]).
  cbn. intros [Hn | [Hn | [Hn | [Hn | [Hn | []]]]]]; discriminate.
Defined.

(** X7, witness: [solve_lp] against a remote that answers 400. *)
Lemma rejected_solve_witness :
  Server.CallToolRequestHandler None None (rejecting 400 noJitter) "solve_lp" (Some []) =
    ([Sent (HttpTransport.postRequest
              (OptimizationClient.transport (Server.client None None))
              "/api/solve/lp" (Server.lpProblem []))],
     inr {| Server.content :=
              [{| Server.type := "text";
                  Server.text := "Error: Request failed with status code 400" |}];
            Server.isError := Some true |}).
Proof.
  apply (@rejected_solve_becomes_error_block node None None (rejecting 400 noJitter) []
           "solve_lp" "/api/solve/lp" (Server.lpProblem [])
           "Request failed with status code 400" None
           {| status := 400; retryAfter := 0; data := VNull |}
           (or_introl eq_refl)).
  - reflexivity.
  - cbn; lia.
  - cbn; lia.
Defined.

(** X8, witness: the payload of the LP scenario, with one line for each of
    its two solution values; and a solve time that arrives as a string.  A
    string as the solution has one entry per code unit, two for a character
    outside the Basic Multilingual Plane. *)
Lemma solve_format_witness :
  Server.formatSolveResponse None lpPayload "Linear Programming" =
  inr "## Linear Programming Solution

**Status:** OPTIMAL
**Objective Value:** 20

### Solution Values:
- x = 0
- y = 10

**Solve Time:** undefinedms
**Solver:** OR-Tools" /\
  Server.formatSolveResponse None
    (VObj [("status", VStr "OPTIMAL"); ("execution_time_ms", VStr "12")])
    "Linear Programming" =
  inl (TypeError (NotAFunction "result.execution_time_ms?.toFixed")) /\
  entries (VStr "😀") =
    [("0", VStr (String "237" (String "160" (String "189" EmptyString))));
     ("1", VStr (String "237" (String "184" (String "128" EmptyString))))].
Proof.
  split; [| split; [| reflexivity]].
  - refine (eq_trans
              (proj2 (proj2 (proj2 (@solve_format_cases node None lpPayload
                                      "Linear Programming"))
                        "OPTIMAL" "20" ["- x = 0"; "- y = 10"] eq_refl eq_refl eq_refl
                        (or_intror (conj eq_refl _)))
                 "OR-Tools" [] (or_introl eq_refl) eq_refl
                 (or_introl (conj eq_refl eq_refl))) _).
    + constructor; [exists "0"; split; reflexivity |].
      constructor; [exists "10"; split; reflexivity |]. constructor.
    + vm_compute. reflexivity.
  - apply (proj1 (proj2 (proj2 (@solve_format_cases node None
                           (VObj [("status", VStr "OPTIMAL");
                                  ("execution_time_ms", VStr "12")])
                           "Linear Programming"))
                    "OPTIMAL" "undefined" [] eq_refl eq_refl eq_refl
                    (or_introl (conj eq_refl eq_refl)))).
    + reflexivity.
    + intros x. discriminate.
Defined.

(** X9, witness: a segment whose name is an object with a property
    [toString] leaves no text. *)
Lemma unprintable_segment_witness :
  ~ exists text : string,
      Server.formatTspResponse None
        (VObj [("status", VStr "OPTIMAL"); ("objective_value", VNum 15000);
               ("solution",
                VObj [("segments",
                       VArr [VObj [("from_name", VObj [("toString", VNum 1)]);
                                   ("to_name", VStr "Harbour");
                                   ("distance", VNum 7500)]])])]) = inr text.
Proof.
  intros Hex.
  apply (proj1 (@tsp_format_returns_iff node None
                  (VObj [("status", VStr "OPTIMAL"); ("objective_value", VNum 15000);
                         ("solution",
                          VObj [("segments",
                                 VArr [VObj [("from_name", VObj [("toString", VNum 1)]);
                                             ("to_name", VStr "Harbour");
                                             ("distance", VNum 7500)]])])]))) in Hex.
  destruct Hex as [_ [_ [_ [_ [[Hf | [[s Hs] | [segs [Hs Hall]]]] _]]]]].
  - discriminate Hf.
  - discriminate Hs.
  - injection Hs as <-. inversion Hall as [| seg rest [_ [_ [Hfrom _]]] Hrest].
    apply Hfrom. reflexivity.
Defined.

(** X10, witness: an analysis with two variables, no constraints and one
    recommendation. *)
Lemma analysis_witness :
  Server.formatAnalysisResponse analysisPayload =
  inr "## Problem Analysis

**Problem Type:** LP
**Confidence:** high

### Detected Variables:
- x
- y

### Recommendations:
- state the bounds".
Proof.
  refine (eq_trans
            (proj1 (@analysis_skips_empty_lists node analysisPayload "LP" "high"
                      ["### Detected Variables:"; "- x"; "- y"] []
                      ["### Recommendations:"; "- state the bounds"]
                      eq_refl eq_refl eq_refl _ _ _)) _).
  - right. exists [VStr "x"; VStr "y"], ["x"; "y"].
    split; [reflexivity |]. split; [discriminate |]. split; [cbn; lia |].
    split; [| reflexivity].
    repeat constructor.
  - left. split; [| reflexivity]. right. right. left. reflexivity.
  - right. exists [VStr "state the bounds"], ["state the bounds"].
    split; [reflexivity |]. split; [discriminate |]. split; [cbn; lia |].
    split; [| reflexivity].
    repeat constructor.
  - vm_compute. reflexivity.
Defined.

(** X11, witness: a report of nine characters, one of them outside the
    Basic Multilingual Plane: ten code units. *)
Lemma get_report_witness :
  length (chars "<p>😀é</p>") = 9%nat /\
  Server.CallToolRequestHandler None None (always (Fulfilled (VStr "<p>😀é</p>")) noJitter)
    "get_report" (Some [("report_id", VStr "r1")]) =
    ([Sent (HttpTransport.getRequest
              (OptimizationClient.transport (Server.client None None))
              "/api/reports/r1")],
     inr {| Server.content :=
              [{| Server.type := "text";
                  Server.text :=
                    "HTML Report (10 characters):

The report has been retrieved. To view it, save the content to an HTML file and open in a browser.

Report ID: r1" |}];
            Server.isError := None |}).
Proof.
  split; [reflexivity |].
  refine (eq_trans
            (proj1 (@get_report_tells_length_and_id node None None
                      (always (Fulfilled (VStr "<p>😀é</p>")) noJitter)
                      [("report_id", VStr "r1")])
               "r1" "<p>😀é</p>" eq_refl eq_refl) _).
  vm_compute. reflexivity.
Defined.

(** X12, witness: a remote that answers [null] to the listing. *)
Lemma listReports_null_witness :
  outcome (OptimizationClient.listReports defaultClient
             (always (Fulfilled VNull) noJitter) None) =
    inl (TypeError (ReadPropertyOf VNull "reports")) /\
  requests (trace (OptimizationClient.listReports defaultClient
                     (always (Fulfilled VNull) noJitter) None)) =
    [HttpTransport.getRequest (OptimizationClient.transport defaultClient)
       ("/api/reports?limit=" +++ NumberToString 50%float)].
Proof.
  apply (@listReports_on_any_body node defaultClient (always (Fulfilled VNull) noJitter)
           None VNull).
  reflexivity.
Defined.

(** X13, witness: a declared tool does not end in the unknown-tool error. *)
Lemma declared_tool_witness :
  ~ exists msg : string,
      outcome (Server.dispatch None None (rejecting 400 noJitter) "get_report"
                 [("report_id", VStr "r1")]) = inl (Error msg).
Proof.
  intros Hex.
  apply (proj1 (proj1 (@tool_errors_by_origin node None None (rejecting 400 noJitter)
                         "get_report" [("report_id", VStr "r1")])) Hex).
  cbn. tauto.
Defined.

(** X14, witness: an argument the schema does not declare changes nothing. *)
Lemma undeclared_argument_witness :
  Server.CallToolRequestHandler None None (always (Fulfilled analysisPayload) noJitter)
    "analyze_problem"
    (Some [("description", VStr "maximise profit"); ("verbose", VBool true)]) =
  Server.CallToolRequestHandler None None (always (Fulfilled analysisPayload) noJitter)
    "analyze_problem" (Some [("description", VStr "maximise profit")]).
Proof.
  apply (@handler_reads_declared_properties node None None
           {| Server.tool_name := "analyze_problem";
              Server.schema_properties := ["description"];
              Server.schema_required := ["description"] |}
           (always (Fulfilled analysisPayload) noJitter)
           [("description", VStr "maximise profit"); ("verbose", VBool true)]
           [("description", VStr "maximise profit")]).
  - right. right. right. left. reflexivity.
  - intros p [<- | []]. reflexivity.
Defined.

(** X15, witness: [get_report] with a report identifier that has a property
    [toString] sends nothing. *)
Lemma unprintable_report_id_witness :
  requests (trace (Server.CallToolRequestHandler None None
                     (always (Fulfilled (VStr "<html></html>")) noJitter) "get_report"
                     (Some [("report_id", VObj [("toString", VNum 1)])]))) = [].
Proof.
  apply (proj2 (@handler_sends_iff_declared node None None
                  (always (Fulfilled (VStr "<html></html>")) noJitter) "get_report"
                  (Some [("report_id", VObj [("toString", VNum 1)])]))).
  right. right. split; [reflexivity |].
  exists [("report_id", VObj [("toString", VNum 1)])]. split; reflexivity.
Defined.
